(** * ScanNet data conversion utilities: a shallow embedding

    Source: [tools/data_converter/scannet_data_utils.py], classes
    [ScanNetData] and [ScanNetSegData].

    Conventions of the embedding.
    - Python exceptions are the [Raise] branch of [outcome]; code that
      touches the file system or standard output runs in [IO], a state
      and exception monad over [world].
    - A numpy array is a one- or two-dimensional list of elements, of
      64-bit integers ([Long]) or of floating-point values ([Float]).
    - A floating-point value is an exact rational or one of the special
      values inf, -inf, nan.  Arithmetic is exact: the rounding of the
      64-bit and 32-bit formats and overflow to inf are not represented,
      the special values produced by a division by zero are.
    - Dictionaries are [gmap]s.
    - The file system maps a path to a payload: text lines, a [.npy]
      array, a raw dump of an array, or a pickled list of info records.
      A payload read with a decoder whose result depends on its bytes
      (a dump of floats read as 64-bit integers) gives [Unmodelled].
      Failures of the operating system on writes are not represented.
    - The calls submitted to the thread pool run one after the other, in
      submission order; [process_single_scene_run] shows that the result
      of a call does not depend on the files written by the others. *)

From Stdlib Require Import ZArith QArith Qround Lqa String Ascii.
From stdpp Require Import base option list strings gmap sorting.

Local Open Scope Z_scope.

(** ** Exceptions and fallible computations *)

Inductive float64 : Type :=
| Fin (q : Q)
| PInf
| NInf
| NaN.

Inductive pykey : Type :=
| KNum (x : float64)
| KStr (s : string).

Inductive exn : Type :=
| AssertionError
| FileNotFoundError (p : string)
| KeyError (k : pykey)
| IndexError
| ValueError
| OverflowError
| TypeError
| Unmodelled.

Inductive outcome (A : Type) : Type :=
| Raise (e : exn)
| Return (a : A).
Arguments Raise {A} e.
Arguments Return {A} a.

#[export] Instance outcome_ret : MRet outcome := fun A a => Return a.
#[export] Instance outcome_bind : MBind outcome := fun A B f m =>
  match m with
  | Raise e => Raise e
  | Return a => f a
  end.
#[export] Instance outcome_fmap : FMap outcome := fun A B f m =>
  match m with
  | Raise e => Raise e
  | Return a => Return (f a)
  end.

Definition of_option {A} (e : exn) (o : option A) : outcome A :=
  match o with
  | Some a => Return a
  | None => Raise e
  end.

(** [mapM] of [outcome], left to right, stopping at the first exception:
    the evaluation order of a list comprehension. *)
Fixpoint comprehension {A B} (f : A -> outcome B) (l : list A)
  : outcome (list B) :=
  match l with
  | [] => Return []
  | x :: l' =>
      match f x with
      | Raise e => Raise e
      | Return y =>
          match comprehension f l' with
          | Raise e => Raise e
          | Return ys => Return (y :: ys)
          end
      end
  end.

(** ** Python and numpy scalars *)

Definition of_int (z : Z) : float64 := Fin (inject_Z z).

Definition Qis_zero (q : Q) : bool := Qnum q =? 0.
Definition Qis_pos (q : Q) : bool := 0 <? Qnum q.

(** [x / y] of numpy scalars and arrays: no exception, inf or nan on a zero
    divisor. *)
Definition fdiv (x y : float64) : float64 :=
  match x, y with
  | NaN, _ | _, NaN => NaN
  | Fin a, Fin b =>
      if Qis_zero b then
        if Qis_zero a then NaN else if Qis_pos a then PInf else NInf
      else Fin (a / b)
  | Fin _, (PInf | NInf) => Fin 0
  | (PInf | NInf), (PInf | NInf) => NaN
  | PInf, Fin b => if Qis_pos b || Qis_zero b then PInf else NInf
  | NInf, Fin b => if Qis_pos b || Qis_zero b then NInf else PInf
  end.

Definition fmul (x y : float64) : float64 :=
  match x, y with
  | NaN, _ | _, NaN => NaN
  | Fin a, Fin b => Fin (a * b)
  | PInf, Fin b | Fin b, PInf =>
      if Qis_zero b then NaN else if Qis_pos b then PInf else NInf
  | NInf, Fin b | Fin b, NInf =>
      if Qis_zero b then NaN else if Qis_pos b then NInf else PInf
  | PInf, PInf | NInf, NInf => PInf
  | PInf, NInf | NInf, PInf => NInf
  end.

Definition fadd (x y : float64) : float64 :=
  match x, y with
  | NaN, _ | _, NaN => NaN
  | Fin a, Fin b => Fin (a + b)
  | PInf, NInf | NInf, PInf => NaN
  | PInf, _ | _, PInf => PInf
  | NInf, _ | _, NInf => NInf
  end.

(** Truncation towards zero. *)
Definition Qtrunc (q : Q) : Z := Z.quot (Qnum q) (Zpos (Qden q)).

(** [int(x)] of a float. *)
Definition py_int (x : float64) : outcome Z :=
  match x with
  | Fin q => Return (Qtrunc q)
  | PInf | NInf => Raise OverflowError
  | NaN => Raise ValueError
  end.

(** Round half to even. *)
Definition Qround_half_even (q : Q) : Z :=
  let f := Qfloor q in
  match (q - inject_Z f ?= 1 # 2)%Q with
  | Lt => f
  | Gt => f + 1
  | Eq => if Z.even f then f else f + 1
  end.

(** [round(x)] of a float, without [ndigits]: an int. *)
Definition py_round (x : float64) : outcome Z :=
  match x with
  | Fin q => Return (Qround_half_even q)
  | PInf | NInf => Raise OverflowError
  | NaN => Raise ValueError
  end.

(** [x == k] for a float [x] and an int [k]. *)
Definition float_eq_int (x : float64) (k : Z) : bool :=
  match x with
  | Fin q => Qeq_bool q (inject_Z k)
  | _ => false
  end.

(** [d[x]] for a dict [d] with int keys and a numeric scalar [x]: hashing
    and equality of numbers are by value, so [3.0] finds the key [3]. *)
Definition getitem_num {V} (d : gmap Z V) (x : float64) : outcome V :=
  match x with
  | Fin q =>
      if Qeq_bool q (inject_Z (Qfloor q))
      then of_option (KeyError (KNum x)) (d !! Qfloor q)
      else Raise (KeyError (KNum x))
  | _ => Raise (KeyError (KNum x))
  end.

Definition getitem {K V} `{Countable K} (mk : K -> pykey) (d : gmap K V)
    (k : K) : outcome V :=
  of_option (KeyError (mk k)) (d !! k).

(** A dict comprehension / a sequence of [d[k] = v]: later bindings win. *)
Definition dict_of {K V} `{Countable K} (kvs : list (K * V)) : gmap K V :=
  foldl (fun d kv => <[kv.1 := kv.2]> d) ∅ kvs.

(** [l.index(x)]. *)
Fixpoint list_index {A} `{EqDecision A} (x : A) (l : list A) : outcome nat :=
  match l with
  | [] => Raise ValueError
  | y :: l' => if decide (x = y) then Return 0%nat else S <$> list_index x l'
  end.

(** [enumerate(l)]. *)
Definition enumerate {A} (l : list A) : list (nat * A) :=
  imap (fun i x => (i, x)) l.

(** ** numpy arrays *)

Inductive array (A : Type) : Type :=
| Arr1 (l : list A)
| Arr2 (ncols : nat) (rows : list (list A)).
Arguments Arr1 {A} l.
Arguments Arr2 {A} ncols rows.

Inductive ndarray : Type :=
| Long (a : array Z)
| Float (a : array float64).

(** [a.shape[0]]. *)
Definition shape0 {A} (a : array A) : nat :=
  match a with
  | Arr1 l => length l
  | Arr2 _ rows => length rows
  end.

Definition nd_shape0 (a : ndarray) : nat :=
  match a with
  | Long x => shape0 x
  | Float x => shape0 x
  end.

(** A slice bound [k] on an axis of length [n]: negative bounds count from
    the end, and all bounds are clipped to the axis. *)
Definition slice_bound (n : nat) (k : Z) : nat :=
  if k <? 0 then Z.to_nat (Z.max 0 (Z.of_nat n + k))
  else Nat.min (Z.to_nat k) n.

Definition slice_list {A} (lo hi : Z) (l : list A) : list A :=
  let n := length l in
  drop (slice_bound n lo) (take (slice_bound n hi) l).

(** [a[:, lo:hi]]. *)
Definition slice_cols {A} (lo hi : Z) (a : array A) : outcome (array A) :=
  match a with
  | Arr1 _ => Raise IndexError
  | Arr2 n rows =>
      Return (Arr2 (slice_bound n hi - slice_bound n lo)
                   (slice_list lo hi <$> rows))
  end.

(** [a[:, -1]]. *)
Definition last_col {A} (a : array A) : outcome (array A) :=
  match a with
  | Arr1 _ => Raise IndexError
  | Arr2 n rows =>
      if decide (n = 0%nat) then Raise IndexError
      else Arr1 <$> comprehension (fun r => of_option IndexError (last r)) rows
  end.

Definition nd_slice_cols (lo hi : Z) (a : ndarray) : outcome ndarray :=
  match a with
  | Long x => Long <$> slice_cols lo hi x
  | Float x => Float <$> slice_cols lo hi x
  end.

Definition nd_last_col (a : ndarray) : outcome ndarray :=
  match a with
  | Long x => Long <$> last_col x
  | Float x => Float <$> last_col x
  end.

(** [a[i]] of a one-dimensional array, as a scalar, for [0 <= i]. *)
Definition nd_item (a : ndarray) (i : nat) : outcome float64 :=
  match a with
  | Long (Arr1 l) => of_option IndexError (of_int <$> l !! i)
  | Float (Arr1 l) => of_option IndexError (l !! i)
  | _ => Raise TypeError
  end.

Definition array_map {A B} (f : A -> B) (a : array A) : array B :=
  match a with
  | Arr1 l => Arr1 (map f l)
  | Arr2 n rows => Arr2 n (map (map f) rows)
  end.

(** The elements in row-major order: [a.ravel()]. *)
Definition ravel {A} (a : array A) : list A :=
  match a with
  | Arr1 l => l
  | Arr2 _ rows => concat rows
  end.

(** Conversion of a float to a 64-bit integer: truncation; the special
    values give the smallest integer. *)
Definition float_to_long (x : float64) : Z :=
  match x with
  | Fin q => Qtrunc q
  | _ => - 2 ^ 63
  end.

(** [a.astype(np.long)]. *)
Definition astype_long (a : ndarray) : ndarray :=
  match a with
  | Long x => Long x
  | Float x => Long (array_map float_to_long x)
  end.

(** [a.astype(np.float32)]; precision is not represented. *)
Definition astype_float32 (a : ndarray) : ndarray :=
  match a with
  | Long x => Float (array_map of_int x)
  | Float x => Float x
  end.

(** [np.arange(n)]. *)
Definition np_arange (n : nat) : ndarray := Long (Arr1 (Z.of_nat <$> seq 0 n)).

(** ** Values stored in info records *)

Inductive pyval : Type :=
| VInt (z : Z)
| VStr (s : string)
| VStrs (l : list string)
| VNd (a : ndarray).

Inductive entry : Type :=
| Val (v : pyval)
| Dict (d : gmap string pyval).

Abbreviation info := (gmap string entry).

(** ** The file system and standard output *)

Inductive file : Type :=
| TextFile (lines : list string)
| NpyFile (a : ndarray)
| BinFile (a : ndarray)
| PklFile (infos : list info).

Record world : Type := World {
  files : gmap string file;
  dirs : gset string;
  stdout : list string
}.

Definition IO (A : Type) : Type := world -> outcome A * world.

#[export] Instance IO_ret : MRet IO := fun A a w => (Return a, w).
#[export] Instance IO_bind : MBind IO := fun A B f m w =>
  match m w with
  | (Raise e, w') => (Raise e, w')
  | (Return a, w') => f a w'
  end.

#[export] Instance IO_fmap : FMap IO := fun A B f m w =>
  match m w with
  | (Raise e, w') => (Raise e, w')
  | (Return a, w') => (Return (f a), w')
  end.

Definition lift {A} (m : outcome A) : IO A := fun w => (m, w).
Definition raise {A} (e : exn) : IO A := fun w => (Raise e, w).

Definition print (s : string) : IO unit :=
  fun w => (Return tt, World (files w) (dirs w) (stdout w ++ [s])).

Definition write_file (p : string) (f : file) : IO unit :=
  fun w => (Return tt, World (<[p := f]> (files w)) (dirs w) (stdout w)).

(** *** [os.path] *)

Definition chars (s : string) : list ascii := list_ascii_of_string s.

(** [s.startswith(pre)]. *)
Definition startswith (s pre : string) : bool :=
  bool_decide (chars pre `prefix_of` chars s).

(** [s.endswith(suf)]. *)
Definition endswith (s suf : string) : bool :=
  bool_decide (chars suf `suffix_of` chars s).

(** [posixpath.join] with one more component. *)
Definition osp_join2 (path b : string) : string :=
  if startswith b "/" then b
  else if bool_decide (path = "") || endswith path "/" then path +:+ b
  else path +:+ "/" +:+ b.

(** [osp.join(a, *p)]. *)
Definition osp_join (a : string) (p : list string) : string :=
  foldl osp_join2 a p.

(** *** [mmcv] and numpy input and output *)

(** [mmcv.check_file_exist(p)]. *)
Definition check_file_exist (p : string) : IO unit :=
  fun w =>
    match files w !! p with
    | Some _ => (Return tt, w)
    | None => (Raise (FileNotFoundError p), w)
    end.

(** [mmcv.list_from_file(p)]. *)
Definition list_from_file (p : string) : IO (list string) :=
  fun w =>
    match files w !! p with
    | Some (TextFile lines) => (Return lines, w)
    | Some _ => (Raise Unmodelled, w)
    | None => (Raise (FileNotFoundError p), w)
    end.

(** [mmcv.mkdir_or_exist(d)]. *)
Definition mkdir_or_exist (d : string) : IO unit :=
  fun w =>
    if bool_decide (d = "") then (Return tt, w)
    else (Return tt, World (files w) ({[d]} ∪ dirs w) (stdout w)).

(** [mmcv.load(p)] of a pickled list of info records. *)
Definition mmcv_load (p : string) : IO (list info) :=
  fun w =>
    match files w !! p with
    | Some (PklFile infos) => (Return infos, w)
    | Some _ => (Raise Unmodelled, w)
    | None => (Raise (FileNotFoundError p), w)
    end.

(** [np.load(p)]: the array of a [.npy] payload; any other payload is
    rejected. *)
Definition np_load (p : string) : IO ndarray :=
  fun w =>
    match files w !! p with
    | Some (NpyFile a) => (Return a, w)
    | Some _ => (Raise ValueError, w)
    | None => (Raise (FileNotFoundError p), w)
    end.

(** [np.fromfile(p, dtype=np.long)]: the bytes of the file read as 64-bit
    integers.  For a dump of a [Long] array these are its elements; the
    bit patterns of other payloads are outside the model. *)
Definition np_fromfile_long (p : string) : IO ndarray :=
  fun w =>
    match files w !! p with
    | Some (BinFile (Long a)) => (Return (Long (Arr1 (ravel a))), w)
    | Some _ => (Raise Unmodelled, w)
    | None => (Raise (FileNotFoundError p), w)
    end.

(** [a.tofile(p)]. *)
Definition tofile (a : ndarray) (p : string) : IO unit :=
  write_file p (BinFile a).

(** [np.save(p, a)]. *)
Definition np_save (p : string) (a : ndarray) : IO unit :=
  write_file p (NpyFile a).

(** ** [class ScanNetData] *)

Module ScanNetData.

Record t : Type := Build {
  root_dir : string;
  split : string;
  split_dir : string;
  classes : list string;
  cat2label : gmap string nat;
  label2cat : gmap nat string;
  cat_ids : list Z;
  cat_ids2class : gmap Z nat;
  sample_id_list : list string
}.

(** The literals of [__init__]. *)
Definition class_names : list string :=
  ["cabinet"; "bed"; "chair"; "sofa"; "table"; "door"; "window";
   "bookshelf"; "picture"; "counter"; "desk"; "curtain";
   "refrigerator"; "showercurtrain"; "toilet"; "sink"; "bathtub";
   "garbagebin"].

Definition nyu40ids : list Z :=
  [3; 4; 5; 6; 7; 8; 9; 10; 11; 12; 14; 16; 24; 28; 33; 34; 36; 39].

(** [{cat: classes.index(cat) for cat in classes}]. *)
Definition make_cat2label (classes : list string)
  : outcome (gmap string nat) :=
  dict_of <$>
    comprehension (fun cat => pair cat <$> list_index cat classes) classes.

(** [{cat2label[t]: t for t in cat2label}]. *)
Definition make_label2cat (cat2label : gmap string nat)
  : outcome (gmap nat string) :=
  dict_of <$>
    comprehension (fun t => (fun l => (l, t)) <$> getitem KStr cat2label t)
                  (map fst (map_to_list cat2label)).

(** [{nyu40id: i for i, nyu40id in enumerate(list(cat_ids))}]. *)
Definition make_cat_ids2class (cat_ids : list Z) : gmap Z nat :=
  dict_of (map (fun p => (p.2, p.1)) (enumerate cat_ids)).

(** [__init__(self, root_path, split)]. *)
Definition __init__ (root_path split : string) : IO t :=
  let root_dir := root_path in
  let split_dir := osp_join root_path [] in
  let classes := class_names in
  cat2label ← lift (make_cat2label classes);
  label2cat ← lift (make_label2cat cat2label);
  let cat_ids := nyu40ids in
  let cat_ids2class := make_cat_ids2class cat_ids in
  if negb (bool_decide (split ∈ ["train"; "val"; "test"]))
  then raise AssertionError
  else
    let split_file :=
      osp_join root_dir ["meta_data"; "scannetv2_" +:+ split +:+ ".txt"] in
    _ ← check_file_exist split_file;
    sample_id_list ← list_from_file split_file;
    mret (Build root_dir split split_dir classes cat2label label2cat
                cat_ids cat_ids2class sample_id_list).

(** [__len__(self)]. *)
Definition __len__ (self : t) : nat := length (sample_id_list self).

(** [get_box_label(self, idx)]. *)
Definition get_box_label (self : t) (idx : string) : IO ndarray :=
  let box_file :=
    osp_join (root_dir self)
             ["scannet_train_instance_data"; idx +:+ "_bbox.npy"] in
  _ ← check_file_exist box_file;
  np_load box_file.

(** Lines 107-121 of [process_single_scene]: the fields added to
    [annotations] when [gt_num != 0]. *)
Definition fill_annotations (self : t) (boxes_with_classes : ndarray)
    (gt_num : nat) (annotations : gmap string pyval)
  : outcome (gmap string pyval) :=
  minmax_boxes3d ← nd_slice_cols 0 (-1) boxes_with_classes;
  classes ← nd_last_col boxes_with_classes;
  name ← comprehension
    (fun i => c ← nd_item classes i;
              k ← getitem_num (cat_ids2class self) c;
              getitem (fun n => KNum (of_int (Z.of_nat n))) (label2cat self) k)
    (seq 0 gt_num);
  let annotations := <["name" := VStrs name]> annotations in
  location ← nd_slice_cols 0 3 minmax_boxes3d;
  let annotations := <["location" := VNd location]> annotations in
  dimensions ← nd_slice_cols 3 6 minmax_boxes3d;
  let annotations := <["dimensions" := VNd dimensions]> annotations in
  let annotations :=
    <["gt_boxes_upright_depth" := VNd minmax_boxes3d]> annotations in
  let annotations := <["index" := VNd (np_arange gt_num)]> annotations in
  class ← comprehension
    (fun i => c ← nd_item classes i;
              Z.of_nat <$> getitem_num (cat_ids2class self) c)
    (seq 0 gt_num);
  mret (<["class" := VNd (Long (Arr1 class))]> annotations).

(** The closure [process_single_scene(sample_idx)] of [get_infos]. *)
Definition process_single_scene (self : t) (has_label : bool)
    (sample_idx : string) : IO info :=
  _ ← print (split self +:+ " sample_idx: " +:+ sample_idx);
  let info : info := ∅ in
  let pc_info : gmap string pyval :=
    dict_of [("num_features", VInt 6); ("lidar_idx", VStr sample_idx)] in
  let info := <["point_cloud" := Dict pc_info]> info in
  let pts_filename :=
    osp_join (root_dir self)
             ["scannet_train_instance_data"; sample_idx +:+ "_vert.npy"] in
  let pts_instance_mask_path :=
    osp_join (root_dir self)
             ["scannet_train_instance_data"; sample_idx +:+ "_ins_label.npy"] in
  let pts_semantic_mask_path :=
    osp_join (root_dir self)
             ["scannet_train_instance_data"; sample_idx +:+ "_sem_label.npy"] in
  points ← np_load pts_filename;
  pts_instance_mask ← astype_long <$> np_load pts_instance_mask_path;
  pts_semantic_mask ← astype_long <$> np_load pts_semantic_mask_path;
  _ ← mkdir_or_exist (osp_join (root_dir self) ["points"]);
  _ ← mkdir_or_exist (osp_join (root_dir self) ["instance_mask"]);
  _ ← mkdir_or_exist (osp_join (root_dir self) ["semantic_mask"]);
  _ ← tofile points
        (osp_join (root_dir self) ["points"; sample_idx +:+ ".bin"]);
  _ ← tofile pts_instance_mask
        (osp_join (root_dir self) ["instance_mask"; sample_idx +:+ ".bin"]);
  _ ← tofile pts_semantic_mask
        (osp_join (root_dir self) ["semantic_mask"; sample_idx +:+ ".bin"]);
  let info :=
    <["pts_path" := Val (VStr (osp_join "points" [sample_idx +:+ ".bin"]))]>
      info in
  let info :=
    <["pts_instance_mask_path" :=
        Val (VStr (osp_join "instance_mask" [sample_idx +:+ ".bin"]))]> info in
  let info :=
    <["pts_semantic_mask_path" :=
        Val (VStr (osp_join "semantic_mask" [sample_idx +:+ ".bin"]))]> info in
  if has_label then
    let annotations : gmap string pyval := ∅ in
    boxes_with_classes ← get_box_label self sample_idx;
    let gt_num := nd_shape0 boxes_with_classes in
    let annotations := <["gt_num" := VInt (Z.of_nat gt_num)]> annotations in
    annotations ←
      (if negb (bool_decide (gt_num = 0%nat))
       then lift (fill_annotations self boxes_with_classes gt_num annotations)
       else mret annotations);
    mret (<["annos" := Dict annotations]> info)
  else mret info.

(** [ThreadPoolExecutor(max_workers)]. *)
Definition ThreadPoolExecutor (max_workers : Z) : IO unit :=
  if max_workers <=? 0 then raise ValueError else mret tt.

(** A submitted call: its result or its exception is kept in the future. *)
Definition submit {B} (m : IO B) : IO (outcome B) :=
  fun w => let (r, w') := m w in (Return r, w').

(** [executor.map(fn, iterable)] followed by the shutdown of the pool at
    the end of the [with] block: every call has run by then, whether or
    not another one raised.  The calls are taken in submission order. *)
Fixpoint executor_map {A B} (fn : A -> IO B) (l : list A)
  : IO (list (outcome B)) :=
  match l with
  | [] => mret []
  | x :: l' =>
      r ← submit (fn x);
      rs ← executor_map fn l';
      mret (r :: rs)
  end.

(** [list(infos)] on the result iterator: the results in order, or the
    exception of the first call that raised. *)
Definition list_results {B} (rs : list (outcome B)) : outcome (list B) :=
  comprehension id rs.

(** [get_infos(self, num_workers, has_label, sample_id_list)]. *)
Definition get_infos (self : t) (num_workers : Z) (has_label : bool)
    (sample_id_list : option (list string)) : IO (list info) :=
  let sample_id_list :=
    match sample_id_list with
    | Some l => l
    | None => ScanNetData.sample_id_list self
    end in
  _ ← ThreadPoolExecutor num_workers;
  infos ← executor_map (process_single_scene self has_label) sample_id_list;
  lift (list_results infos).

End ScanNetData.

(** ** [class ScanNetSegData] *)

(** A valid index [k] of an axis of length [n]: negative indices count
    from the end, anything else is out of bounds. *)
Definition np_index (n : nat) (k : Z) : outcome nat :=
  if (0 <=? k) && (k <? Z.of_nat n) then Return (Z.to_nat k)
  else if (- Z.of_nat n <=? k) && (k <? 0) then Return (Z.to_nat (Z.of_nat n + k))
  else Raise IndexError.

(** [a[k] = v] on a one-dimensional array. *)
Definition np_setitem {A} (a : list A) (k : Z) (v : A) : outcome (list A) :=
  i ← np_index (length a) k;
  mret (<[i := v]> a).

(** [tbl[idx]] for an index array [idx]. *)
Definition np_take (tbl : list Z) (idx : ndarray) : outcome ndarray :=
  let item k := i ← np_index (length tbl) k; of_option IndexError (tbl !! i) in
  match idx with
  | Long (Arr1 l) => (fun l' => Long (Arr1 l')) <$> comprehension item l
  | Long (Arr2 n rows) =>
      (fun r => Long (Arr2 n r)) <$> comprehension (comprehension item) rows
  | Float _ => Raise IndexError
  end.

Definition float_nonzero (x : float64) : bool :=
  match x with
  | Fin q => negb (Qis_zero q)
  | _ => true
  end.

(** [mask[mask != 0]]: the selected elements, as a one-dimensional array. *)
Definition select_nonzero (mask : ndarray) : ndarray :=
  match mask with
  | Long a => Long (Arr1 (filter (fun z => z <> 0) (ravel a)))
  | Float a => Float (Arr1 (filter (fun x => float_nonzero x = true) (ravel a)))
  end.

(** [np.histogram(a, bins)[0]] for integer data and increasing integer
    bin edges: bin [i] counts the [x] with [edges[i] <= x < edges[i+1]],
    the last bin includes its right edge. *)
Definition np_histogram (data : list Z) (edges : list Z) : list Z :=
  let nbins := (length edges - 1)%nat in
  imap (fun i b =>
          let lo := b.1 in
          let hi := b.2 in
          Z.of_nat (length (filter
            (fun x => lo <= x /\ (x < hi \/ (S i = nbins /\ x = hi))) data)))
       (zip edges (tail edges)).

Definition nd_elems (a : ndarray) : list float64 :=
  match a with
  | Long x => of_int <$> ravel x
  | Float x => ravel x
  end.

Definition nd_longs (a : ndarray) : list Z :=
  match a with
  | Long x => ravel x
  | Float x => float_to_long <$> ravel x
  end.

(** An elementwise function on an array, as numpy broadcasts it. *)
Definition nd_map (f : float64 -> float64) (a : ndarray) : ndarray :=
  match a with
  | Long x => Float (array_map (fun z => f (of_int z)) x)
  | Float x => Float (array_map f x)
  end.

(** [a.sum()]. *)
Definition fsum (l : list float64) : float64 := foldl fadd (Fin 0) l.

(** A [for] loop with an accumulator. *)
Fixpoint for_each {A S} (body : S -> A -> IO S) (l : list A) (s : S) : IO S :=
  match l with
  | [] => mret s
  | x :: l' => s' ← body s x; for_each body l' s'
  end.

Inductive mask_arg : Type :=
| MaskPath (p : string)
| MaskArray (a : ndarray).

Module ScanNetSegData.

Record t : Type := Build {
  data_root : string;
  data_infos : list info;
  split : string;
  num_points : Z;
  all_ids : list Z;
  cat_ids : list Z;
  ignore_index : nat;
  cat_id2class : list Z;
  label_weight_func : ndarray -> outcome ndarray
}.

Definition seg_cat_ids : list Z :=
  [1; 2; 3; 4; 5; 6; 7; 8; 9; 10; 11; 12; 14; 16; 24; 28; 33; 34; 36; 39].

(** Lines 162-165: [np.ones(...) * ignore_index], then
    [cat_id2class[cat_id] = i] for [i, cat_id] in [enumerate(cat_ids)]. *)
Definition make_cat_id2class (all_ids cat_ids : list Z) (ignore_index : nat)
  : outcome (list Z) :=
  foldl (fun tbl p => tbl ← tbl; np_setitem tbl p.2 (Z.of_nat p.1))
        (Return (replicate (length all_ids) (1 * Z.of_nat ignore_index)))
        (enumerate cat_ids).

Section Init.

(** [np.log] on a scalar. *)
Variable np_log : float64 -> float64.

(** [lambda x: 1.0 / np.log(1.2 + x)]. *)
Definition default_label_weight_func (x : ndarray) : outcome ndarray :=
  Return (nd_map (fun v => fdiv (Fin 1) (np_log (fadd (Fin (12 # 10)) v))) x).

(** [__init__(self, data_root, ann_file, split, num_points,
    label_weight_func)]. *)
Definition __init__ (data_root ann_file split : string) (num_points : Z)
    (label_weight_func : option (ndarray -> outcome ndarray)) : IO t :=
  data_infos ← mmcv_load ann_file;
  let all_ids := Z.of_nat <$> seq 0 41 in
  let cat_ids := seg_cat_ids in
  let ignore_index := length cat_ids in
  cat_id2class ← lift (make_cat_id2class all_ids cat_ids ignore_index);
  let label_weight_func :=
    match label_weight_func with
    | None => default_label_weight_func
    | Some f => f
    end in
  mret (Build data_root data_infos split num_points all_ids cat_ids
              ignore_index cat_id2class label_weight_func).

End Init.

(** [_convert_to_label(self, mask)]. *)
Definition _convert_to_label (self : t) (mask : mask_arg) : IO ndarray :=
  mask ← match mask with
         | MaskPath p =>
             if endswith p "npy" then np_load p else np_fromfile_long p
         | MaskArray a => mret a
         end;
  let mask := select_nonzero mask in
  lift (np_take (cat_id2class self) mask).

(** [data_info['pts_semantic_mask_path']], as an argument of [osp.join]. *)
Definition mask_path_of (data_info : info) : outcome string :=
  e ← getitem KStr data_info "pts_semantic_mask_path";
  match e with
  | Val (VStr p) => Return p
  | _ => Raise TypeError
  end.

(** Lines 205-212 of [get_scene_idxs_and_label_weight]: the loop over the
    info records, with [num_point_all] and [label_weight] as its state. *)
Definition load_labels (self : t) : IO (list Z * list float64) :=
  let num_classes := length (cat_ids self) in
  for_each
    (fun st data_info =>
       p ← lift (mask_path_of data_info);
       label ← _convert_to_label self (MaskPath (osp_join (data_root self) [p]));
       let num_point_all := st.1 ++ [Z.of_nat (nd_shape0 label)] in
       let class_count :=
         np_histogram (nd_longs label)
                      (Z.of_nat <$> seq 0 (num_classes + 2)) in
       mret (num_point_all, zip_with fadd st.2 (of_int <$> class_count)))
    (data_infos self)
    ([], replicate (num_classes + 1) (Fin 0)).

(** [np.sum(num_point_all)]. *)
Definition np_sum (l : list Z) : Z := foldr Z.add 0 l.

(** Line 216: [int(np.sum(num_point_all) / float(self.num_points))]. *)
Definition num_iter_of (num_point_all : list Z) (num_points : Z) : outcome Z :=
  py_int (fdiv (of_int (np_sum num_point_all)) (of_int num_points)).

(** Lines 215-220: the resampled scene indices. *)
Definition resample (n_infos : nat) (num_point_all : list Z) (num_points : Z)
  : outcome ndarray :=
  let sample_prob :=
    (fun n => fdiv (of_int n) (of_int (np_sum num_point_all)))
      <$> num_point_all in
  num_iter ← num_iter_of num_point_all num_points;
  scene_idxs ← foldl
    (fun acc idx =>
       scene_idxs ← acc;
       p ← of_option IndexError (sample_prob !! idx);
       k ← py_round (fmul p (of_int num_iter));
       mret (scene_idxs ++ replicate (Z.to_nat k) (Z.of_nat idx)))
    (Return []) (seq 0 n_infos);
  mret (Long (Arr1 scene_idxs)).

(** Lines 223-225: the label weights from the accumulated histogram. *)
Definition weigh (self : t) (label_weight : list float64) : outcome ndarray :=
  let label_weight := astype_float32 (Float (Arr1 (slice_list 0 (-1) label_weight))) in
  let label_weight :=
    nd_map (fun x => fdiv x (fsum (nd_elems label_weight))) label_weight in
  astype_float32 <$> label_weight_func self label_weight.

(** [get_scene_idxs_and_label_weight(self)]. *)
Definition get_scene_idxs_and_label_weight (self : t)
  : IO (ndarray * ndarray) :=
  st ← load_labels self;
  scene_idxs ← lift (resample (length (data_infos self)) st.1 (num_points self));
  label_weight ← lift (weigh self st.2);
  mret (scene_idxs, label_weight).

(** [get_seg_infos(self)]. *)
Definition get_seg_infos (self : t) : IO unit :=
  r ← get_scene_idxs_and_label_weight self;
  let save_folder := osp_join (data_root self) ["seg_info"] in
  _ ← mkdir_or_exist save_folder;
  _ ← np_save (osp_join save_folder [split self +:+ "_resampled_scene_idxs.npy"])
              r.1;
  _ ← np_save (osp_join save_folder [split self +:+ "_label_weight.npy"]) r.2;
  print (split self +:+ " resampled scene index and label weight saved").

End ScanNetSegData.

(** ** The result of [process_single_scene] as a function of the files

    [process_single_scene] reads four [.npy] files and writes three
    [.bin] files; [scene_info] is what it returns, computed from the
    files alone.  The two are related in [process_single_scene_fst]. *)

Definition raw_path (self : ScanNetData.t) (sample_idx suffix : string)
  : string :=
  osp_join (ScanNetData.root_dir self)
           ["scannet_train_instance_data"; sample_idx +:+ suffix].

Definition read_npy (fs : gmap string file) (p : string) : outcome ndarray :=
  match fs !! p with
  | Some (NpyFile a) => Return a
  | Some _ => Raise ValueError
  | None => Raise (FileNotFoundError p)
  end.

Definition base_info (sample_idx : string) : info :=
  <["pts_semantic_mask_path" :=
      Val (VStr (osp_join "semantic_mask" [sample_idx +:+ ".bin"]))]>
  (<["pts_instance_mask_path" :=
      Val (VStr (osp_join "instance_mask" [sample_idx +:+ ".bin"]))]>
  (<["pts_path" := Val (VStr (osp_join "points" [sample_idx +:+ ".bin"]))]>
  (<["point_cloud" :=
      Dict (dict_of [("num_features", VInt 6); ("lidar_idx", VStr sample_idx)])]>
   ∅))).

Definition annotations_of (self : ScanNetData.t) (boxes_with_classes : ndarray)
  : outcome (gmap string pyval) :=
  let gt_num := nd_shape0 boxes_with_classes in
  let annotations : gmap string pyval :=
    <["gt_num" := VInt (Z.of_nat gt_num)]> ∅ in
  if negb (bool_decide (gt_num = 0%nat))
  then ScanNetData.fill_annotations self boxes_with_classes gt_num annotations
  else Return annotations.

Definition scene_info (self : ScanNetData.t) (has_label : bool)
    (sample_idx : string) (fs : gmap string file) : outcome info :=
  _ ← read_npy fs (raw_path self sample_idx "_vert.npy");
  _ ← read_npy fs (raw_path self sample_idx "_ins_label.npy");
  _ ← read_npy fs (raw_path self sample_idx "_sem_label.npy");
  if has_label then
    boxes ← read_npy fs (raw_path self sample_idx "_bbox.npy");
    annotations ← annotations_of self boxes;
    mret (<["annos" := Dict annotations]> (base_info sample_idx))
  else mret (base_info sample_idx).

(** Two file systems with the same [.npy] files. *)
Definition same_npy (fs1 fs2 : gmap string file) : Prop :=
  forall p, endswith p "npy" = true -> fs1 !! p = fs2 !! p.

(** The rows of a two-dimensional array, each transformed by [f]. *)
Definition map_rows (f : forall A, list A -> list A) (ncols : nat)
    (a : ndarray) : ndarray :=
  match a with
  | Long (Arr2 _ rows) => Long (Arr2 ncols (f Z <$> rows))
  | Float (Arr2 _ rows) => Float (Arr2 ncols (f float64 <$> rows))
  | _ => a
  end.

(** A box array: [K] rows of 6 box parameters and a class id. *)
Definition box_array (K : nat) (a : ndarray) : Prop :=
  match a with
  | Long (Arr2 n rows) =>
      n = 7%nat /\ length rows = K /\ Forall (fun r => length r = 7%nat) rows
  | Float (Arr2 n rows) =>
      n = 7%nat /\ length rows = K /\ Forall (fun r => length r = 7%nat) rows
  | _ => False
  end.

(** The class ids of a box array, as scalars. *)
Definition box_class_ids (a : ndarray) : list float64 :=
  match a with
  | Long (Arr2 _ rows) => omap (fun r => of_int <$> last r) rows
  | Float (Arr2 _ rows) => omap last rows
  | _ => []
  end.

(** The scalar [x] equals one of the keys of the dict [d]. *)
Definition is_key {V} (d : gmap Z V) (x : float64) : bool :=
  existsb (fun kv => float_eq_int x kv.1) (map_to_list d).

(** The dictionaries that [ScanNetData.__init__] builds. *)
Definition detection_cat2label : gmap string nat :=
  dict_of (zip ScanNetData.class_names (seq 0 18)).

Definition detection_label2cat : gmap nat string :=
  dict_of (zip (seq 0 18) ScanNetData.class_names).

Definition detection_cat_ids2class : gmap Z nat :=
  ScanNetData.make_cat_ids2class ScanNetData.nyu40ids.

(** ** Example inputs *)

Definition box_row (a b c d e f cls : Z) : list float64 :=
  of_int <$> [a; b; c; d; e; f; cls].

Definition example_files (boxes0 : ndarray) : gmap string file :=
  dict_of
    [("data/meta_data/scannetv2_train.txt", TextFile ["scene0"; "scene1"]);
     ("data/scannet_train_instance_data/scene0_vert.npy",
      NpyFile (Float (Arr2 6 [of_int <$> [1; 2; 3; 4; 5; 6]])));
     ("data/scannet_train_instance_data/scene0_ins_label.npy",
      NpyFile (Long (Arr1 [1])));
     ("data/scannet_train_instance_data/scene0_sem_label.npy",
      NpyFile (Long (Arr1 [5])));
     ("data/scannet_train_instance_data/scene0_bbox.npy", NpyFile boxes0);
     ("data/scannet_train_instance_data/scene1_vert.npy",
      NpyFile (Float (Arr2 6 [])));
     ("data/scannet_train_instance_data/scene1_ins_label.npy",
      NpyFile (Long (Arr1 [])));
     ("data/scannet_train_instance_data/scene1_sem_label.npy",
      NpyFile (Long (Arr1 [])));
     ("data/scannet_train_instance_data/scene1_bbox.npy",
      NpyFile (Float (Arr2 7 [])))].

Definition example_boxes : ndarray :=
  Float (Arr2 7 [box_row 1 2 3 4 5 6 5; box_row 7 8 9 10 11 12 39]).

(** Class id 13 is not in the detection table. *)
Definition unmapped_boxes : ndarray :=
  Float (Arr2 7 [box_row 1 2 3 4 5 6 5; box_row 7 8 9 10 11 12 13]).

Definition example_world : world := World (example_files example_boxes) ∅ [].
Definition unmapped_world : world := World (example_files unmapped_boxes) ∅ [].

Definition example_self : ScanNetData.t :=
  ScanNetData.Build "data" "train" "data" ScanNetData.class_names
    detection_cat2label detection_label2cat ScanNetData.nyu40ids
    detection_cat_ids2class ["scene0"; "scene1"].

Definition scene0_run : outcome info * world :=
  ScanNetData.process_single_scene example_self true "scene0" example_world.

Definition scene0_info : info :=
  match scene0_run.1 with
  | Return i => i
  | Raise _ => ∅
  end.

Definition example_run : outcome (list info) * world :=
  ScanNetData.get_infos example_self 4 true None example_world.

Definition example_infos : list info :=
  match example_run.1 with
  | Return l => l
  | Raise _ => []
  end.

(** ** The segmentation side, as the specification words it *)

(** The table that [ScanNetSegData.__init__] builds. *)
Definition seg_table : list Z :=
  [20; 0; 1; 2; 3; 4; 5; 6; 7; 8; 9; 10; 11; 20; 12; 20; 13; 20; 20; 20; 20;
   20; 20; 20; 14; 20; 20; 20; 15; 20; 20; 20; 20; 16; 17; 20; 18; 20; 20;
   19; 20].

(** The class of a raw id: its position in the id table, or the ignore
    index when it is not in the table. *)
Definition seg_class (id : Z) : Z :=
  match list_index id ScanNetSegData.seg_cat_ids with
  | Return i => Z.of_nat i
  | Raise _ => Z.of_nat (length ScanNetSegData.seg_cat_ids)
  end.

(** [floor(total_points / num_points)]. *)
Definition spec_num_iter (counts : list Z) (num_points : Z) : Z :=
  ScanNetSegData.np_sum counts / num_points.

(** [round((n / sum(counts)) * num_iter)]. *)
Definition spec_repeats (counts : list Z) (num_points : Z) (n : Z) : Z :=
  Qround_half_even
    (inject_Z n / inject_Z (ScanNetSegData.np_sum counts)
     * inject_Z (spec_num_iter counts num_points)).

(** Each scene index, in order, repeated [spec_repeats] times. *)
Definition spec_scene_idxs (counts : list Z) (num_points : Z) : list Z :=
  concat (imap (fun i n =>
                  replicate (Z.to_nat (spec_repeats counts num_points n))
                            (Z.of_nat i))
               counts).

(** A vector divided by its own sum. *)
Definition normalized (l : list float64) : list float64 :=
  (fun x => fdiv x (fsum l)) <$> l.


(** The lookup [cat_id2class[k]] of one element of an index array. *)
Definition table_item (k : Z) : outcome Z :=
  i ← np_index (length seg_table) k; of_option IndexError (seg_table !! i).

(** One iteration of the loop of lines 218-219. *)
Definition resample_step (sample_prob : list float64) (num_iter : Z)
    (acc : outcome (list Z)) (idx : nat) : outcome (list Z) :=
  scene_idxs ← acc;
  p ← of_option IndexError (sample_prob !! idx);
  k ← py_round (fmul p (of_int num_iter));
  mret (scene_idxs ++ replicate (Z.to_nat k) (Z.of_nat idx)).

(** ** Example inputs for the segmentation side *)

(** A rational stand-in for the logarithm, to run the examples:
    [2 (x - 1) / (x + 1)]. *)
Definition ln_approx (x : float64) : float64 :=
  match x with
  | Fin q => Fin (2 * (q - 1) / (q + 1))
  | _ => x
  end.

Definition seg_infos : list info :=
  [base_info "s0"; base_info "s1"; base_info "s2"].

(** Three masks with 100, 300 and 600 annotated points. *)
Definition seg_files : gmap string file :=
  dict_of
    [("data/infos.pkl", PklFile seg_infos);
     ("data/semantic_mask/s0.bin",
      BinFile (Long (Arr1 (replicate 60 3 ++ [0] ++ replicate 40 13 ++ [0]))));
     ("data/semantic_mask/s1.bin", BinFile (Long (Arr1 (replicate 300 5))));
     ("data/semantic_mask/s2.bin",
      BinFile (Long (Arr1 (replicate 500 39 ++ [0; 0; 0] ++ replicate 100 1))));
     ("data/semantic_mask/s0.txt", BinFile (Long (Arr1 [1; 0; 2; 13])))].

Definition seg_world : world := World seg_files ∅ [].

Definition example_seg : ScanNetSegData.t :=
  ScanNetSegData.Build "data" seg_infos "train" 100 (Z.of_nat <$> seq 0 41)
    ScanNetSegData.seg_cat_ids 20 seg_table
    (ScanNetSegData.default_label_weight_func ln_approx).

Definition seg_run : outcome (ndarray * ndarray) * world :=
  ScanNetSegData.get_scene_idxs_and_label_weight example_seg seg_world.

Definition seg_idxs : ndarray :=
  match seg_run.1 with
  | Return r => r.1
  | Raise _ => Long (Arr1 [])
  end.

Definition seg_weights : ndarray :=
  match seg_run.1 with
  | Return r => r.2
  | Raise _ => Float (Arr1 [])
  end.

(** ** The effects of [ScanNetData] on the file system *)

(** The file that [ScanNetData.__init__] reads. *)
Definition split_file (root split : string) : string :=
  osp_join root ["meta_data"; "scannetv2_" +:+ split +:+ ".txt"].

(** The directory part that [osp.join(root, ...)] puts before a relative
    component. *)
Definition root_prefix (root : string) : string :=
  if bool_decide (root = "") || endswith root "/" then root
  else root +:+ "/".

Definition bin_path (self : ScanNetData.t) (dir sample_idx : string) : string :=
  osp_join (ScanNetData.root_dir self) [dir; sample_idx +:+ ".bin"].

(** The world after [process_single_scene]: the message printed, and,
    when the three raw arrays load, the three directories and files. *)
Definition scene_world (self : ScanNetData.t) (sample_idx : string)
    (w : world) : world :=
  let out :=
    stdout w ++ [ScanNetData.split self +:+ " sample_idx: " +:+ sample_idx] in
  match read_npy (files w) (raw_path self sample_idx "_vert.npy"),
        read_npy (files w) (raw_path self sample_idx "_ins_label.npy"),
        read_npy (files w) (raw_path self sample_idx "_sem_label.npy") with
  | Return points, Return ins, Return sem =>
      World
        (<[bin_path self "semantic_mask" sample_idx := BinFile (astype_long sem)]>
         (<[bin_path self "instance_mask" sample_idx := BinFile (astype_long ins)]>
          (<[bin_path self "points" sample_idx := BinFile points]> (files w))))
        ({[osp_join (ScanNetData.root_dir self) ["semantic_mask"]]} ∪
         ({[osp_join (ScanNetData.root_dir self) ["instance_mask"]]} ∪
          ({[osp_join (ScanNetData.root_dir self) ["points"]]} ∪ dirs w)))
        out
  | _, _, _ => World (files w) (dirs w) out
  end.

(** A directory name: not empty, no slash at either end. *)
Definition plain_name (d : string) : Prop :=
  d <> "" /\ startswith d "/" = false /\ endswith d "/" = false.

(** The files that [process_single_scene] writes, in order. *)
Definition scene_writes (self : ScanNetData.t) (sample_idx : string)
    (fs : gmap string file) : list (string * file) :=
  match read_npy fs (raw_path self sample_idx "_vert.npy"),
        read_npy fs (raw_path self sample_idx "_ins_label.npy"),
        read_npy fs (raw_path self sample_idx "_sem_label.npy") with
  | Return points, Return ins, Return sem =>
      [(bin_path self "points" sample_idx, BinFile points);
       (bin_path self "instance_mask" sample_idx, BinFile (astype_long ins));
       (bin_path self "semantic_mask" sample_idx, BinFile (astype_long sem))]
  | _, _, _ => []
  end.

(** The directories it makes. *)
Definition scene_dirs (self : ScanNetData.t) (sample_idx : string)
    (fs : gmap string file) : gset string :=
  match read_npy fs (raw_path self sample_idx "_vert.npy"),
        read_npy fs (raw_path self sample_idx "_ins_label.npy"),
        read_npy fs (raw_path self sample_idx "_sem_label.npy") with
  | Return _, Return _, Return _ =>
      {[osp_join (ScanNetData.root_dir self) ["points"];
        osp_join (ScanNetData.root_dir self) ["instance_mask"];
        osp_join (ScanNetData.root_dir self) ["semantic_mask"]]}
  | _, _, _ => ∅
  end.

Definition apply_writes (ws : list (string * file)) (fs : gmap string file)
  : gmap string file :=
  foldl (fun m kv => <[kv.1 := kv.2]> m) fs ws.

(** The last file written to [p] by [ws]. *)
Fixpoint last_write (p : string) (ws : list (string * file)) : option file :=
  match ws with
  | [] => None
  | kv :: ws' =>
      match last_write p ws' with
      | Some f => Some f
      | None => if decide (kv.1 = p) then Some kv.2 else None
      end
  end.

(** The world after the pool has run every scene. *)
Definition pool_world (self : ScanNetData.t) (ids : list string) (w : world)
  : world :=
  foldl (fun w id => scene_world self id w) w ids.

(** ** The segmentation side: tables, loop state and saved files *)

(** The id whose table entry numpy reads for the index [z]: negative
    indices count from the end of the 41-entry table. *)
Definition wrapped_id (z : Z) : Z := if z <? 0 then z + 41 else z.

(** The state of the loop of [load_labels]: integer bins whose total is
    the number of points seen. *)
Definition histogram_state (w : world) (st : list Z * list float64)
    (wc : world) : Prop :=
  wc = w /\ Forall (fun n => 0 <= n) st.1 /\
  exists bins : list Z,
    st.2 = of_int <$> bins /\ length bins = 21%nat /\
    Forall (fun c => 0 <= c) bins /\
    ScanNetSegData.np_sum bins = ScanNetSegData.np_sum st.1.

(** The two files that [get_seg_infos] saves. *)
Definition seg_info_path (seg : ScanNetSegData.t) (name : string) : string :=
  osp_join (osp_join (ScanNetSegData.data_root seg) ["seg_info"])
           [ScanNetSegData.split seg +:+ name].

(** ** Further example inputs *)

(** A scene whose sample id is an absolute path, and a scene without a
    box file. *)
Definition partial_files : gmap string file :=
  dict_of
    [("/abs_vert.npy", NpyFile (Float (Arr2 6 [of_int <$> [1; 2; 3; 4; 5; 6]])));
     ("/abs_ins_label.npy", NpyFile (Long (Arr1 [1])));
     ("/abs_sem_label.npy", NpyFile (Long (Arr1 [5])));
     ("data/scannet_train_instance_data/scene2_vert.npy",
      NpyFile (Float (Arr2 6 [of_int <$> [1; 2; 3; 4; 5; 6]])));
     ("data/scannet_train_instance_data/scene2_ins_label.npy",
      NpyFile (Long (Arr1 [1])));
     ("data/scannet_train_instance_data/scene2_sem_label.npy",
      NpyFile (Long (Arr1 [5])))].

Definition partial_world : world := World partial_files ∅ [].

Definition small_infos : list info := [base_info "a"; base_info "b"].

(** Masks with a negative id, with unannotated points only ([z]) and
    with ids outside the class table only ([u]). *)
Definition small_files : gmap string file :=
  dict_of
    [("data/small.pkl", PklFile small_infos);
     ("data/semantic_mask/a.bin", BinFile (Long (Arr1 [3; 0; 13; -1])));
     ("data/semantic_mask/b.bin", BinFile (Long (Arr1 [5; 5; 39])));
     ("data/semantic_mask/z.bin", BinFile (Long (Arr1 [0; 0])));
     ("data/semantic_mask/u.bin", BinFile (Long (Arr1 [13; 15; 13])))].

Definition small_world : world := World small_files ∅ [].

Definition small_seg (infos : list info) (num_points : Z)
  : ScanNetSegData.t :=
  ScanNetSegData.Build "data" infos "train" num_points
    (Z.of_nat <$> seq 0 41) ScanNetSegData.seg_cat_ids 20 seg_table
    (ScanNetSegData.default_label_weight_func ln_approx).

(** The point counts and the histogram that [load_labels] returns. *)
Definition stats_of (seg : ScanNetSegData.t) (w : world)
  : list Z * list float64 :=
  match (ScanNetSegData.load_labels seg w).1 with
  | Return st => st
  | Raise _ => ([], [])
  end.

Definition small_run : outcome (ndarray * ndarray) * world :=
  ScanNetSegData.get_scene_idxs_and_label_weight
    (small_seg small_infos 2) small_world.

Definition small_result : ndarray * ndarray :=
  match small_run.1 with
  | Return r => r
  | Raise _ => (Long (Arr1 []), Float (Arr1 []))
  end.

(** Membership in a list that is written out. *)
Ltac in_list :=
  solve [repeat first [apply list_elem_of_here|apply list_elem_of_further]].

(** * Properties *)

(** ** The monads *)

Lemma IO_bind_Return {A B} (m : IO A) (k : A -> IO B) w b w' :
  (m ≫= k) w = (Return b, w') ->
  exists a w1, m w = (Return a, w1) /\ k a w1 = (Return b, w').
Proof.
  unfold mbind, IO_bind. destruct (m w) as [[e|a] w1]; [discriminate|].
  intros H. by exists a, w1.
Qed.

Lemma comprehension_length {A B} (f : A -> outcome B) l ys :
  comprehension f l = Return ys -> length ys = length l.
Proof.
  revert ys. induction l as [|x l IH]; intros ys; simpl.
  - by intros [= <-].
  - destruct (f x); [discriminate|].
    destruct (comprehension f l) as [|ys']; [discriminate|].
    intros [= <-]. simpl. f_equal. by apply IH.
Qed.

Lemma comprehension_lookup {A B} (f : A -> outcome B) l ys i x :
  comprehension f l = Return ys -> l !! i = Some x ->
  exists y, ys !! i = Some y /\ f x = Return y.
Proof.
  revert ys i. induction l as [|x0 l IH]; intros ys i; simpl; [done|].
  destruct (f x0) as [|y0] eqn:Hf; [discriminate|].
  destruct (comprehension f l) as [|ys']; [discriminate|].
  intros [= <-]. destruct i as [|i]; simpl.
  - intros [= <-]. eauto.
  - intros Hi. by apply IH.
Qed.

Lemma comprehension_Raise {A B} (f : A -> outcome B) l x e :
  x ∈ l -> f x = Raise e -> exists e', comprehension f l = Raise e'.
Proof.
  induction 1 as [x l|x y l Hin IH]; intros Hf; simpl.
  - rewrite Hf. eauto.
  - destruct (f y); [eauto|].
    destruct (IH Hf) as [e' ->]. eauto.
Qed.

(** ** Paths *)

Lemma chars_app s1 s2 : chars (s1 +:+ s2) = chars s1 ++ chars s2.
Proof.
  unfold chars. induction s1 as [|c s1 IH]; simpl; [done|]. by rewrite IH.
Qed.

Lemma endswith_app s1 s2 suf :
  endswith s2 suf = true -> endswith (s1 +:+ s2) suf = true.
Proof.
  unfold endswith. rewrite !bool_decide_eq_true, chars_app.
  apply suffix_app_r.
Qed.

Lemma endswith_join2 a b suf :
  endswith b suf = true -> endswith (osp_join2 a b) suf = true.
Proof.
  intros Hb. unfold osp_join2.
  destruct (startswith b "/"); [done|].
  destruct (bool_decide (a = "") || endswith a "/");
    repeat apply endswith_app; done.
Qed.

Lemma endswith_join a d b suf :
  endswith b suf = true -> endswith (osp_join a [d; b]) suf = true.
Proof. intros Hb. unfold osp_join. simpl. by apply endswith_join2. Qed.

Lemma npy_not_bin p q :
  endswith p "npy" = true -> endswith q "bin" = true -> p <> q.
Proof.
  unfold endswith. rewrite !bool_decide_eq_true.
  intros [k1 H1] [k2 H2] ->. rewrite H1 in H2.
  apply app_inj_2 in H2 as [_ H2]; [discriminate|reflexivity].
Qed.

Lemma raw_path_npy self idx suffix :
  endswith suffix "npy" = true ->
  endswith (raw_path self idx suffix) "npy" = true.
Proof. intros H. apply endswith_join. by apply endswith_app. Qed.

Lemma bin_path_bin root d idx :
  endswith (osp_join root [d; idx +:+ ".bin"]) "bin" = true.
Proof. apply endswith_join. by apply endswith_app. Qed.

(** ** [ScanNetData]: the tables *)

Lemma cat2label_table :
  ScanNetData.make_cat2label ScanNetData.class_names = Return detection_cat2label.
Proof. vm_compute. reflexivity. Qed.

Lemma label2cat_table :
  ScanNetData.make_label2cat detection_cat2label = Return detection_label2cat.
Proof. vm_compute. reflexivity. Qed.

Lemma init_inv root split w self w' :
  ScanNetData.__init__ root split w = (Return self, w') ->
  exists ids,
    self = ScanNetData.Build root split (osp_join root []) ScanNetData.class_names
      detection_cat2label detection_label2cat ScanNetData.nyu40ids
      detection_cat_ids2class ids.
Proof.
  unfold ScanNetData.__init__. intros H.
  apply IO_bind_Return in H as (c2l & w1 & H1 & H).
  unfold lift in H1. rewrite cat2label_table in H1. injection H1 as <- <-.
  apply IO_bind_Return in H as (l2c & w1 & H1 & H).
  unfold lift in H1. rewrite label2cat_table in H1. injection H1 as <- <-.
  destruct (negb _); [discriminate|].
  apply IO_bind_Return in H as ([] & w2 & _ & H).
  apply IO_bind_Return in H as (ids & w3 & _ & H).
  injection H as <- <-. by exists ids.
Qed.

(** C8. For an object built by [__init__], the raw id at position [i] of
    the detection id table is remapped by [cat_ids2class] to the class
    index [i], and [label2cat] gives for that index the name at position
    [i] of the class list. *)
Theorem detection_tables_round_trip root split w self w' i id :
  ScanNetData.__init__ root split w = (Return self, w') ->
  ScanNetData.cat_ids self !! i = Some id ->
  exists name,
    getitem_num (ScanNetData.cat_ids2class self) (of_int id) = Return i /\
    getitem (fun n => KNum (of_int (Z.of_nat n))) (ScanNetData.label2cat self) i = Return name /\
    ScanNetData.classes self !! i = Some name.
Proof.
  intros Hinit Hid. apply init_inv in Hinit as [ids ->]. simpl in *.
  do 18 (destruct i as [|i];
         [injection Hid as <-; eexists; vm_compute; repeat split|]).
  discriminate.
Qed.

Lemma detection_tables_round_trip_witness :
  exists name,
    getitem_num (ScanNetData.cat_ids2class example_self) (of_int 39) = Return 17%nat /\
    getitem (fun n => KNum (of_int (Z.of_nat n))) (ScanNetData.label2cat example_self) 17%nat = Return name /\
    ScanNetData.classes example_self !! 17%nat = Some name.
Proof.
  apply (detection_tables_round_trip "data" "train" example_world example_self example_world);
    [vm_compute; reflexivity | reflexivity].
Defined.

(** ** [ScanNetData]: running [process_single_scene] and [get_infos] *)

Lemma bind_run {A B} (m : IO A) (k : A -> IO B) w :
  (m ≫= k) w =
  match m w with
  | (Raise e, w') => (Raise e, w')
  | (Return a, w') => k a w'
  end.
Proof. reflexivity. Qed.

Lemma fmap_run {A B} (f : A -> B) (m : IO A) w :
  (f <$> m) w =
  match m w with
  | (Raise e, w') => (Raise e, w')
  | (Return a, w') => (Return (f a), w')
  end.
Proof. reflexivity. Qed.

Lemma np_load_run p w : np_load p w = (read_npy (files w) p, w).
Proof.
  unfold np_load, read_npy. destruct (files w !! p) as [[]|]; reflexivity.
Qed.

Lemma get_box_label_run self idx w :
  ScanNetData.get_box_label self idx w =
    (read_npy (files w) (raw_path self idx "_bbox.npy"), w).
Proof.
  unfold ScanNetData.get_box_label, raw_path. rewrite bind_run.
  unfold check_file_exist, np_load, read_npy.
  destruct (files w !! _) as [[]|] eqn:E; cbv beta iota; rewrite ?E; reflexivity.
Qed.

Lemma same_npy_refl fs : same_npy fs fs.
Proof. by intros p _. Qed.

Lemma same_npy_trans fs1 fs2 fs3 :
  same_npy fs1 fs2 -> same_npy fs2 fs3 -> same_npy fs1 fs3.
Proof. intros H1 H2 p Hp. by rewrite H1, H2. Qed.

Lemma same_npy_insert_bin fs q f :
  endswith q "bin" = true -> same_npy fs (<[q := f]> fs).
Proof.
  intros Hq p Hp. rewrite lookup_insert_ne; [done|].
  apply not_eq_sym. by apply npy_not_bin.
Qed.

Lemma read_npy_same fs1 fs2 p :
  same_npy fs1 fs2 -> endswith p "npy" = true -> read_npy fs1 p = read_npy fs2 p.
Proof. intros H Hp. unfold read_npy. by rewrite (H p Hp). Qed.

Lemma mkdir_or_exist_run d w :
  exists w', mkdir_or_exist d w = (Return tt, w') /\ files w' = files w.
Proof.
  unfold mkdir_or_exist. destruct (bool_decide (d = "")); eauto.
Qed.

Lemma tofile_run a p w :
  exists w', tofile a p w = (Return tt, w') /\
             files w' = <[p := BinFile a]> (files w).
Proof. unfold tofile, write_file. eauto. Qed.

Lemma annotations_run self boxes w :
  ((if negb (bool_decide (nd_shape0 boxes = 0%nat))
    then lift (ScanNetData.fill_annotations self boxes (nd_shape0 boxes)
                 (<["gt_num" := VInt (Z.of_nat (nd_shape0 boxes))]> ∅))
    else mret (<["gt_num" := VInt (Z.of_nat (nd_shape0 boxes))]> ∅)) : IO _) w
  = (annotations_of self boxes, w).
Proof.
  unfold annotations_of. destruct (negb _); reflexivity.
Qed.

Lemma process_single_scene_run self has_label idx w :
  exists w',
    ScanNetData.process_single_scene self has_label idx w =
      (scene_info self has_label idx (files w), w') /\
    same_npy (files w) (files w').
Proof.
  unfold ScanNetData.process_single_scene, scene_info.
  rewrite bind_run. unfold print at 1. cbv beta iota.
  set (w0 := World (files w) (dirs w) _).
  rewrite bind_run, np_load_run. fold (raw_path self idx "_vert.npy").
  change (files w0) with (files w).
  destruct (read_npy (files w) (raw_path self idx "_vert.npy")) as [e|points];
    [exists w0; split; [done|apply same_npy_refl]|].
  rewrite bind_run, fmap_run, np_load_run.
  fold (raw_path self idx "_ins_label.npy"). change (files w0) with (files w).
  destruct (read_npy (files w) (raw_path self idx "_ins_label.npy")) as [e|ins];
    [exists w0; split; [done|apply same_npy_refl]|].
  rewrite bind_run, fmap_run, np_load_run.
  fold (raw_path self idx "_sem_label.npy"). change (files w0) with (files w).
  destruct (read_npy (files w) (raw_path self idx "_sem_label.npy")) as [e|sem];
    [exists w0; split; [done|apply same_npy_refl]|].
  destruct (mkdir_or_exist_run (osp_join (ScanNetData.root_dir self) ["points"]) w0)
    as (w1 & E1 & F1).
  rewrite bind_run, E1.
  destruct (mkdir_or_exist_run
              (osp_join (ScanNetData.root_dir self) ["instance_mask"]) w1)
    as (w2 & E2 & F2).
  rewrite bind_run, E2.
  destruct (mkdir_or_exist_run
              (osp_join (ScanNetData.root_dir self) ["semantic_mask"]) w2)
    as (w3 & E3 & F3).
  rewrite bind_run, E3.
  destruct (tofile_run points
              (osp_join (ScanNetData.root_dir self) ["points"; idx +:+ ".bin"]) w3)
    as (w4 & E4 & F4).
  rewrite bind_run, E4.
  destruct (tofile_run (astype_long ins)
              (osp_join (ScanNetData.root_dir self)
                 ["instance_mask"; idx +:+ ".bin"]) w4)
    as (w5 & E5 & F5).
  rewrite bind_run, E5.
  destruct (tofile_run (astype_long sem)
              (osp_join (ScanNetData.root_dir self)
                 ["semantic_mask"; idx +:+ ".bin"]) w5)
    as (w6 & E6 & F6).
  rewrite bind_run, E6.
  assert (Hsame : same_npy (files w) (files w6)).
  { rewrite F6, F5, F4, F3, F2, F1. change (files w0) with (files w).
    repeat (eapply same_npy_trans;
            [|apply same_npy_insert_bin, bin_path_bin]).
    apply same_npy_refl. }
  destruct has_label; [|exists w6; split; [reflexivity|done]].
  rewrite bind_run, get_box_label_run.
  rewrite <- (read_npy_same (files w) (files w6)) by (done || by apply raw_path_npy).
  destruct (read_npy (files w) (raw_path self idx "_bbox.npy")) as [e|boxes];
    [exists w6; split; [reflexivity|done]|].
  rewrite bind_run, annotations_run. cbn [mbind outcome_bind].
  destruct (annotations_of self boxes) as [e|ann];
    exists w6; (split; [reflexivity|exact Hsame]).
Qed.

Lemma scene_info_same self has_label idx fs1 fs2 :
  same_npy fs1 fs2 ->
  scene_info self has_label idx fs1 = scene_info self has_label idx fs2.
Proof.
  intros H. unfold scene_info.
  rewrite !(read_npy_same fs1 fs2) by (done || by apply raw_path_npy).
  reflexivity.
Qed.

Lemma executor_map_run self has_label ids w :
  exists w',
    ScanNetData.executor_map (ScanNetData.process_single_scene self has_label)
      ids w =
      (Return (map (fun id => scene_info self has_label id (files w)) ids), w')
    /\ same_npy (files w) (files w').
Proof.
  revert w. induction ids as [|id ids IH]; intros w; simpl.
  - exists w. split; [reflexivity|apply same_npy_refl].
  - destruct (process_single_scene_run self has_label id w) as (w1 & E1 & S1).
    destruct (IH w1) as (w2 & E2 & S2).
    exists w2. split; [|by eapply same_npy_trans].
    rewrite bind_run. unfold ScanNetData.submit at 1. rewrite E1.
    rewrite bind_run, E2.
    replace (map (fun id => scene_info self has_label id (files w1)) ids)
      with (map (fun id => scene_info self has_label id (files w)) ids);
      [reflexivity|].
    apply map_ext. intros id'. by apply scene_info_same.
Qed.

Lemma get_infos_run self num_workers has_label sample_id_list w :
  0 < num_workers ->
  exists w',
    ScanNetData.get_infos self num_workers has_label sample_id_list w =
      (ScanNetData.list_results
         (map (fun id => scene_info self has_label id (files w))
              (default (ScanNetData.sample_id_list self) sample_id_list)), w').
Proof.
  intros Hn. unfold ScanNetData.get_infos, ScanNetData.ThreadPoolExecutor.
  destruct (Z.leb_spec num_workers 0) as [?|_]; [lia|].
  set (ids := match sample_id_list with Some l => l | None => _ end).
  replace (default _ sample_id_list) with ids by (by destruct sample_id_list).
  destruct (executor_map_run self has_label ids w) as (w' & E & _).
  exists w'. rewrite bind_run. cbn [mret IO_ret]. cbv beta iota.
  rewrite bind_run, E. reflexivity.
Qed.

Lemma get_infos_no_workers self num_workers has_label sample_id_list w :
  num_workers <= 0 ->
  ScanNetData.get_infos self num_workers has_label sample_id_list w =
    (Raise ValueError, w).
Proof.
  intros Hn. unfold ScanNetData.get_infos, ScanNetData.ThreadPoolExecutor.
  destruct (Z.leb_spec num_workers 0) as [_|?]; [reflexivity|lia].
Qed.

Lemma bind_Return {A B} (m : outcome A) (k : A -> outcome B) b :
  m ≫= k = Return b -> exists a, m = Return a /\ k a = Return b.
Proof. destruct m as [e|a]; [discriminate|]. intros H. by exists a. Qed.

Lemma scene_info_point_cloud self has_label idx fs info :
  scene_info self has_label idx fs = Return info ->
  exists pc, info !! "point_cloud" = Some (Dict pc) /\
             pc !! "lidar_idx" = Some (VStr idx).
Proof.
  unfold scene_info. intros H.
  apply bind_Return in H as (_ & _ & H).
  apply bind_Return in H as (_ & _ & H).
  apply bind_Return in H as (_ & _ & H).
  assert (Hb : exists pc, base_info idx !! "point_cloud" = Some (Dict pc) /\
             pc !! "lidar_idx" = Some (VStr idx)).
  { eexists. split; [reflexivity|]. reflexivity. }
  destruct has_label.
  - apply bind_Return in H as (boxes & _ & H).
    apply bind_Return in H as (ann & _ & H).
    injection H as <-. by rewrite lookup_insert_ne.
  - by injection H as <-.
Qed.

(** C9. When [get_infos] returns, the list has one info record per sample
    id, in the order of the id list (the argument, or the list loaded by
    the constructor when the argument is [None]), and the [lidar_idx] of
    the i-th record's [point_cloud] is the i-th id. *)
Theorem get_infos_order self num_workers has_label sample_id_list w infos w' :
  ScanNetData.get_infos self num_workers has_label sample_id_list w =
    (Return infos, w') ->
  let ids := default (ScanNetData.sample_id_list self) sample_id_list in
  length infos = length ids /\
  forall i id, ids !! i = Some id ->
    exists info pc,
      infos !! i = Some info /\
      info !! "point_cloud" = Some (Dict pc) /\
      pc !! "lidar_idx" = Some (VStr id).
Proof.
  intros H ids.
  destruct (Z.leb_spec num_workers 0) as [Hn|Hn].
  { by rewrite get_infos_no_workers in H. }
  destruct (get_infos_run self num_workers has_label sample_id_list w Hn)
    as (w2 & E).
  rewrite E in H. injection H as H _. fold ids in H.
  unfold ScanNetData.list_results in H. split.
  - apply comprehension_length in H. by rewrite length_map in H.
  - intros i id Hi.
    destruct (comprehension_lookup _ _ _ i (scene_info self has_label id (files w)) H)
      as (info & Hinfo & Hscene).
    { by rewrite list_lookup_fmap, Hi. }
    apply scene_info_point_cloud in Hscene as (pc & ? & ?).
    by exists info, pc.
Qed.

(** ** [ScanNetData]: annotations *)

Lemma process_single_scene_Return self has_label idx w info w' :
  ScanNetData.process_single_scene self has_label idx w = (Return info, w') ->
  scene_info self has_label idx (files w) = Return info.
Proof.
  intros H.
  destruct (process_single_scene_run self has_label idx w) as (w2 & E & _).
  rewrite E in H. by injection H as ->.
Qed.

Lemma read_npy_Some fs p a : fs !! p = Some (NpyFile a) -> read_npy fs p = Return a.
Proof. unfold read_npy. by intros ->. Qed.

(** C7. When the four raw files of a scene load and its box array has no
    rows, [process_single_scene] returns an info record whose [annos]
    block is the dictionary with the single entry [gt_num = 0]: no
    name, location, dimensions, box, index or class entry. *)
Theorem empty_box_array_annotations self idx w points ins sem boxes :
  files w !! raw_path self idx "_vert.npy" = Some (NpyFile points) ->
  files w !! raw_path self idx "_ins_label.npy" = Some (NpyFile ins) ->
  files w !! raw_path self idx "_sem_label.npy" = Some (NpyFile sem) ->
  files w !! raw_path self idx "_bbox.npy" = Some (NpyFile boxes) ->
  nd_shape0 boxes = 0%nat ->
  exists info w',
    ScanNetData.process_single_scene self true idx w = (Return info, w') /\
    info !! "annos" = Some (Dict {["gt_num" := VInt 0]}).
Proof.
  intros Hp Hi Hs Hb H0.
  destruct (process_single_scene_run self true idx w) as (w' & E & _).
  unfold scene_info in E.
  rewrite (read_npy_Some _ _ _ Hp), (read_npy_Some _ _ _ Hi),
    (read_npy_Some _ _ _ Hs), (read_npy_Some _ _ _ Hb) in E.
  cbn [mbind outcome_bind] in E. unfold annotations_of in E.
  rewrite H0, bool_decide_eq_true_2 in E by reflexivity.
  cbn [negb mbind outcome_bind mret outcome_ret] in E.
  eexists _, w'. split; [exact E|].
  rewrite lookup_insert_eq. change (Z.of_nat 0) with 0. by rewrite insert_empty.
Qed.

(** *** Slices of box rows *)

Lemma slice_box_params {A} (r : list A) :
  length r = 7%nat -> slice_list 0 (-1) r = take 6 r.
Proof. intros H. unfold slice_list. rewrite H. reflexivity. Qed.

Lemma slice_location {A} (r : list A) :
  length r = 7%nat -> slice_list 0 3 (take 6 r) = take 3 r.
Proof.
  intros H. unfold slice_list. rewrite length_take, H.
  cbn [slice_bound Z.ltb Z.compare Z.to_nat Pos.to_nat Pos.iter_op Nat.add Nat.min drop].
  by rewrite take_take.
Qed.

Lemma slice_dimensions {A} (r : list A) :
  length r = 7%nat -> slice_list 3 6 (take 6 r) = take 3 (drop 3 r).
Proof.
  intros H. unfold slice_list. rewrite length_take, H.
  change (slice_bound (6 `min` 7) 3) with 3%nat.
  change (slice_bound (6 `min` 7) 6) with 6%nat.
  rewrite take_take. change (6 `min` 6)%nat with 6%nat.
  by rewrite take_drop_commute.
Qed.

Lemma box_rows_slices {A} (rows : list (list A)) :
  Forall (fun r => length r = 7%nat) rows ->
  slice_list 0 (-1) <$> rows = take 6 <$> rows /\
  slice_list 0 3 <$> (take 6 <$> rows) = take 3 <$> rows /\
  slice_list 3 6 <$> (take 6 <$> rows) = (fun r => take 3 (drop 3 r)) <$> rows.
Proof.
  intros H. rewrite <- !list_fmap_compose. repeat split;
    apply Forall_fmap_ext_1; eapply Forall_impl; [exact H| |exact H| |exact H|];
    intros r Hr; simpl.
  - by apply slice_box_params.
  - by apply slice_location.
  - by apply slice_dimensions.
Qed.

Lemma fill_annotations_box self boxes K ann0 ann :
  box_array K boxes ->
  ScanNetData.fill_annotations self boxes K ann0 = Return ann ->
  exists names cls,
    length names = K /\ length cls = K /\
    ann =
      <["class" := VNd (Long (Arr1 cls))]>
      (<["index" := VNd (np_arange K)]>
      (<["gt_boxes_upright_depth" := VNd (map_rows (fun A => take 6) 6 boxes)]>
      (<["dimensions" :=
          VNd (map_rows (fun A r => take 3 (drop 3 r)) 3 boxes)]>
      (<["location" := VNd (map_rows (fun A => take 3) 3 boxes)]>
      (<["name" := VStrs names]> ann0))))).
Proof.
  intros Hbox H. unfold ScanNetData.fill_annotations in H. cbv zeta in H.
  apply bind_Return in H as (mm & Hmm & H).
  apply bind_Return in H as (classes & Hc & H).
  apply bind_Return in H as (names & Hn & H).
  apply bind_Return in H as (loc & Hloc & H).
  apply bind_Return in H as (dims & Hdims & H).
  apply bind_Return in H as (cls & Hcls & H).
  injection H as <-.
  apply comprehension_length in Hn, Hcls. rewrite length_seq in Hn, Hcls.
  exists names, cls. split; [done|]. split; [done|].
  destruct boxes as [[l|n rows]|[l|n rows]]; try done;
    destruct Hbox as (-> & _ & Hrows);
    destruct (box_rows_slices rows Hrows) as (E1 & E2 & E3);
    cbn in Hmm; rewrite E1 in Hmm; injection Hmm as <-;
    cbn in Hloc; rewrite E2 in Hloc; injection Hloc as <-;
    cbn in Hdims; rewrite E3 in Hdims; injection Hdims as <-;
    reflexivity.
Qed.

(** C6. For a box array of [K > 0] rows of 6 box parameters and a class
    id, the annotation block of the returned info record has [gt_num = K]
    and arrays [name], [location], [dimensions],
    [gt_boxes_upright_depth], [index], [class] of length [K]; [index] is
    [0, 1, ..., K-1], [location] holds the first 3 parameters of each
    row, [dimensions] the last 3 of the 6, [gt_boxes_upright_depth] all
    6. *)
Theorem annotation_arrays self idx w K boxes info w' :
  files w !! raw_path self idx "_bbox.npy" = Some (NpyFile boxes) ->
  box_array K boxes -> (0 < K)%nat ->
  ScanNetData.process_single_scene self true idx w = (Return info, w') ->
  exists ann names cls,
    info !! "annos" = Some (Dict ann) /\
    ann !! "gt_num" = Some (VInt (Z.of_nat K)) /\
    ann !! "name" = Some (VStrs names) /\ length names = K /\
    ann !! "location" = Some (VNd (map_rows (fun A => take 3) 3 boxes)) /\
    ann !! "dimensions" =
      Some (VNd (map_rows (fun A r => take 3 (drop 3 r)) 3 boxes)) /\
    ann !! "gt_boxes_upright_depth" =
      Some (VNd (map_rows (fun A => take 6) 6 boxes)) /\
    ann !! "index" = Some (VNd (Long (Arr1 (Z.of_nat <$> seq 0 K)))) /\
    ann !! "class" = Some (VNd (Long (Arr1 cls))) /\ length cls = K /\
    nd_shape0 (map_rows (fun A => take 3) 3 boxes) = K /\
    nd_shape0 (map_rows (fun A r => take 3 (drop 3 r)) 3 boxes) = K /\
    nd_shape0 (map_rows (fun A => take 6) 6 boxes) = K /\
    length (Z.of_nat <$> seq 0 K) = K.
Proof.
  intros Hb Hbox HK H. apply process_single_scene_Return in H.
  unfold scene_info in H.
  apply bind_Return in H as (_ & _ & H).
  apply bind_Return in H as (_ & _ & H).
  apply bind_Return in H as (_ & _ & H).
  rewrite (read_npy_Some _ _ _ Hb) in H. cbn [mbind outcome_bind] in H.
  apply bind_Return in H as (ann & Hann & H). injection H as <-.
  assert (HK' : nd_shape0 boxes = K).
  { destruct boxes as [[l|n rows]|[l|n rows]]; try done; by destruct Hbox as (_ & ? & _). }
  unfold annotations_of in Hann. rewrite HK' in Hann.
  rewrite bool_decide_eq_false_2 in Hann by lia. cbn [negb] in Hann.
  apply (fill_annotations_box _ _ _ _ _ Hbox) in Hann
    as (names & cls & Hn & Hc & ->).
  eexists _, names, cls. rewrite lookup_insert_eq.
  split; [reflexivity|].
  repeat (split; [done || by simplify_map_eq|]).
  repeat split.
  all: try by rewrite length_fmap, length_seq.
  all: destruct boxes as [[l|n rows]|[l|n rows]]; try done;
    destruct Hbox as (_ & <- & _); simpl; by rewrite length_fmap.
Qed.

(** ** [ScanNetData]: unmapped class ids *)

Lemma float_eq_int_floor q k :
  Qeq_bool q (inject_Z k) = true -> Qfloor q = k.
Proof.
  intros H. apply Qeq_bool_iff in H. rewrite (Qfloor_comp _ _ H).
  apply Qfloor_Z.
Qed.

Lemma is_key_lookup {V} (d : gmap Z V) x :
  is_key d x = true <-> exists k v, float_eq_int x k = true /\ d !! k = Some v.
Proof.
  unfold is_key. rewrite existsb_exists. split.
  - intros ([k v] & Hin & Hk). exists k, v. split; [done|].
    apply elem_of_map_to_list. by apply list_elem_of_In.
  - intros (k & v & Hk & Hd). exists (k, v). split; [|done].
    apply list_elem_of_In. by apply elem_of_map_to_list.
Qed.

Lemma getitem_num_Return {V} (d : gmap Z V) x v :
  getitem_num d x = Return v -> is_key d x = true.
Proof.
  unfold getitem_num. destruct x as [q| | |]; try discriminate.
  destruct (Qeq_bool q (inject_Z (Qfloor q))) eqn:E; [|discriminate].
  destruct (d !! Qfloor q) as [v'|] eqn:Hd; [|discriminate]. intros _.
  apply is_key_lookup. by exists (Qfloor q), v'.
Qed.

Lemma getitem_num_Raise {V} (d : gmap Z V) x e :
  getitem_num d x = Raise e -> e = KeyError (KNum x) /\ is_key d x = false.
Proof.
  intros H. split.
  - unfold getitem_num in H. destruct x as [q| | |]; try congruence.
    destruct (Qeq_bool _ _); [|congruence].
    destruct (d !! _); simpl in H; congruence.
  - destruct (is_key d x) eqn:E; [|done].
    apply is_key_lookup in E as (k & v & Hk & Hd).
    unfold getitem_num in H. destruct x as [q| | |]; try discriminate.
    simpl in Hk. pose proof (float_eq_int_floor q k Hk) as Hf.
    rewrite Hf, Hk, Hd in H. discriminate.
Qed.

Lemma getitem_num_not_key {V} (d : gmap Z V) x :
  is_key d x = false -> getitem_num d x = Raise (KeyError (KNum x)).
Proof.
  intros H. destruct (getitem_num d x) as [e|v] eqn:E.
  - apply getitem_num_Raise in E as [-> _]. reflexivity.
  - apply getitem_num_Return in E. congruence.
Qed.

Lemma comprehension_Raise_inv {A B} (f : A -> outcome B) l e :
  comprehension f l = Raise e -> exists x, x ∈ l /\ f x = Raise e.
Proof.
  induction l as [|x l IH]; simpl; [discriminate|].
  destruct (f x) as [e'|y] eqn:Hf.
  - intros [= <-]. exists x. split; [left|done].
  - destruct (comprehension f l) as [e'|ys]; [|discriminate].
    intros [= <-]. destruct IH as (x' & Hin & Hx'); [done|].
    exists x'. split; [by right|done].
Qed.

Lemma comprehension_app_Raise {A B} (f : A -> outcome B) pre x post e :
  Forall (fun a => exists y, f a = Return y) pre -> f x = Raise e ->
  comprehension f (pre ++ x :: post) = Raise e.
Proof.
  intros Hpre Hx. induction Hpre as [|a pre [y Hy] _ IH]; simpl.
  - by rewrite Hx.
  - by rewrite Hy, IH.
Qed.

Lemma last_col_rows {A} (rows : list (list A)) :
  Forall (fun r => length r = 7%nat) rows ->
  last_col (Arr2 7 rows) = Return (Arr1 (omap last rows)) /\
  length (omap last rows) = length rows.
Proof.
  intros H. unfold last_col. simpl.
  induction H as [|r rows Hr _ [IH1 IH2]]; [done|].
  cbn [comprehension omap list_omap]. destruct (last r) as [a|] eqn:E.
  - cbn [of_option]. destruct (comprehension _ rows); [discriminate|].
    injection IH1 as ->. split; [done|]. simpl. by rewrite IH2.
  - apply last_None in E. by subst r.
Qed.

Lemma omap_last_of_int (rows : list (list Z)) :
  omap (fun r => of_int <$> last r) rows = of_int <$> omap last rows.
Proof.
  induction rows as [|r rows IH]; [done|].
  change (omap (fun r => of_int <$> last r) (r :: rows))
    with (match of_int <$> last r with
          | Some y => y :: omap (fun r => of_int <$> last r) rows
          | None => omap (fun r => of_int <$> last r) rows
          end).
  change (omap last (r :: rows))
    with (match last r with
          | Some y => y :: omap last rows
          | None => omap last rows
          end).
  rewrite IH. by destruct (last r).
Qed.

Lemma box_classes K boxes :
  box_array K boxes ->
  exists classes,
    nd_last_col boxes = Return classes /\
    (forall i, nd_item classes i = of_option IndexError (box_class_ids boxes !! i)) /\
    length (box_class_ids boxes) = K.
Proof.
  destruct boxes as [[l|n rows]|[l|n rows]]; try done;
    intros (-> & <- & Hrows); destruct (last_col_rows rows Hrows) as [E L].
  - exists (Long (Arr1 (omap last rows))). cbn [nd_last_col box_class_ids].
    rewrite E, omap_last_of_int. split; [done|]. split.
    + intros i. unfold nd_item. by rewrite list_lookup_fmap.
    + by rewrite length_fmap.
  - exists (Float (Arr1 (omap last rows))). cbn [nd_last_col box_class_ids].
    rewrite E. done.
Qed.

Lemma detection_label_total c k :
  getitem_num detection_cat_ids2class c = Return k ->
  exists name,
    getitem (fun n => KNum (of_int (Z.of_nat n))) detection_label2cat k =
      Return name.
Proof.
  assert (Hall : map_Forall (fun _ k => is_Some (detection_label2cat !! k))
                            detection_cat_ids2class).
  { apply (bool_decide_unpack _). vm_compute. exact I. }
  unfold getitem_num. destruct c as [q| | |]; try discriminate.
  destruct (Qeq_bool _ _); [|discriminate].
  destruct (detection_cat_ids2class !! Qfloor q) as [k'|] eqn:E; [|discriminate].
  intros [= <-]. destruct (Hall _ _ E) as [name Hname].
  exists name. unfold getitem. by rewrite Hname.
Qed.

Lemma fill_annotations_unmapped root split w0 self w1 K boxes i x :
  ScanNetData.__init__ root split w0 = (Return self, w1) ->
  box_array K boxes ->
  box_class_ids boxes !! i = Some x ->
  is_key (ScanNetData.cat_ids2class self) x = false ->
  exists j y,
    box_class_ids boxes !! j = Some y /\
    is_key (ScanNetData.cat_ids2class self) y = false /\
    forall ann0,
      ScanNetData.fill_annotations self boxes K ann0 =
        Raise (KeyError (KNum y)).
Proof.
  intros Hinit Hbox Hi Hx. apply init_inv in Hinit as [ids ->].
  cbn [ScanNetData.cat_ids2class] in *.
  destruct (box_classes K boxes Hbox) as (classes & Hlast & Hitem & Hlen).
  set (f := fun i : nat =>
              c ← nd_item classes i;
              k ← getitem_num detection_cat_ids2class c;
              getitem (fun n => KNum (of_int (Z.of_nat n)))
                      detection_label2cat k).
  assert (Hf : forall j y, box_class_ids boxes !! j = Some y ->
             f j = Raise (KeyError (KNum y)) /\ is_key detection_cat_ids2class y = false
             \/ exists name, f j = Return name).
  { intros j y Hj. unfold f. rewrite Hitem, Hj. cbn [of_option mbind outcome_bind].
    destruct (getitem_num detection_cat_ids2class y) as [e|k] eqn:E.
    - apply getitem_num_Raise in E as [-> ?]. by left.
    - right. by apply detection_label_total in E. }
  assert (Hraise : exists j y, box_class_ids boxes !! j = Some y /\
             is_key detection_cat_ids2class y = false /\
             comprehension f (seq 0 K) = Raise (KeyError (KNum y))).
  { destruct (comprehension f (seq 0 K)) as [e|names] eqn:E.
    - apply comprehension_Raise_inv in E as (j & Hj & Hfj).
      apply elem_of_seq in Hj as [_ Hj]. rewrite <- Hlen in Hj.
      destruct (lookup_lt_is_Some_2 _ _ Hj) as [y Hy].
      destruct (Hf j y Hy) as [[E' ?]|[name E']]; rewrite E' in Hfj; [|done].
      injection Hfj as <-. by exists j, y.
    - assert (Hlt : (i < K)%nat) by (rewrite <- Hlen; by eapply lookup_lt_Some).
      destruct (comprehension_lookup f _ _ i i E) as (name & _ & Hfi).
      { by apply lookup_seq_lt. }
      destruct (Hf i x Hi) as [[_ Hk]|[name' E']].
      + unfold f in Hfi. rewrite Hitem, Hi in Hfi. cbn [of_option mbind outcome_bind] in Hfi.
        by rewrite (getitem_num_not_key _ _ Hx) in Hfi.
      + unfold f in E'. rewrite Hitem, Hi in E'. cbn [of_option mbind outcome_bind] in E'.
        by rewrite (getitem_num_not_key _ _ Hx) in E'. }
  destruct Hraise as (j & y & Hj & Hy & Hc). exists j, y.
  split; [done|]. split; [done|]. intros ann0.
  unfold ScanNetData.fill_annotations. rewrite Hlast.
  cbn [ScanNetData.cat_ids2class ScanNetData.label2cat].
  unfold f in Hc.
  destruct boxes as [[l|n rows]|[l|n rows]]; try done;
    cbn [nd_slice_cols slice_cols fmap outcome_fmap mbind outcome_bind] in Hc |- *;
    by rewrite Hc.
Qed.

Lemma scene_info_unmapped self idx fs points ins sem boxes K y :
  fs !! raw_path self idx "_vert.npy" = Some (NpyFile points) ->
  fs !! raw_path self idx "_ins_label.npy" = Some (NpyFile ins) ->
  fs !! raw_path self idx "_sem_label.npy" = Some (NpyFile sem) ->
  fs !! raw_path self idx "_bbox.npy" = Some (NpyFile boxes) ->
  box_array K boxes -> (0 < K)%nat ->
  (forall ann0, ScanNetData.fill_annotations self boxes K ann0 =
                  Raise (KeyError (KNum y))) ->
  scene_info self true idx fs = Raise (KeyError (KNum y)).
Proof.
  intros Hp Hi Hs Hb Hbox HK Hfill. unfold scene_info.
  rewrite (read_npy_Some _ _ _ Hp), (read_npy_Some _ _ _ Hi),
    (read_npy_Some _ _ _ Hs), (read_npy_Some _ _ _ Hb).
  cbn [mbind outcome_bind]. unfold annotations_of.
  assert (HK' : nd_shape0 boxes = K).
  { destruct boxes as [[l|n rows]|[l|n rows]]; try done;
      by destruct Hbox as (_ & ? & _). }
  rewrite HK', bool_decide_eq_false_2 by lia. cbn [negb].
  by rewrite Hfill.
Qed.

(** C1. If some row of the box array of a scene has a class id that is
    not a key of [cat_ids2class], the construction of the annotations
    raises the [KeyError] of an unmapped class id of that array, so does
    [process_single_scene], and [get_infos] on any id list with that
    scene raises: no info record, hence no partly filled annotation
    block, is returned.  When the scenes before it succeed, the
    exception of [get_infos] is that [KeyError]. *)
Theorem unmapped_class_id_raises root split w0 self w1 idx w
    points ins sem boxes K i x :
  ScanNetData.__init__ root split w0 = (Return self, w1) ->
  files w !! raw_path self idx "_vert.npy" = Some (NpyFile points) ->
  files w !! raw_path self idx "_ins_label.npy" = Some (NpyFile ins) ->
  files w !! raw_path self idx "_sem_label.npy" = Some (NpyFile sem) ->
  files w !! raw_path self idx "_bbox.npy" = Some (NpyFile boxes) ->
  box_array K boxes ->
  box_class_ids boxes !! i = Some x ->
  is_key (ScanNetData.cat_ids2class self) x = false ->
  exists j y,
    box_class_ids boxes !! j = Some y /\
    is_key (ScanNetData.cat_ids2class self) y = false /\
    (forall ann0, ScanNetData.fill_annotations self boxes K ann0 =
                    Raise (KeyError (KNum y))) /\
    (exists w', ScanNetData.process_single_scene self true idx w =
                  (Raise (KeyError (KNum y)), w')) /\
    (forall num_workers sample_id_list,
        idx ∈ default (ScanNetData.sample_id_list self) sample_id_list ->
        exists e w',
          ScanNetData.get_infos self num_workers true sample_id_list w =
            (Raise e, w')) /\
    (forall num_workers pre post,
        0 < num_workers ->
        Forall (fun id => exists info w'',
                  ScanNetData.process_single_scene self true id w =
                    (Return info, w'')) pre ->
        exists w',
          ScanNetData.get_infos self num_workers true
            (Some (pre ++ idx :: post)) w = (Raise (KeyError (KNum y)), w')).
Proof.
  intros Hinit Hp Hi Hs Hb Hbox Hx Hkey.
  destruct (fill_annotations_unmapped _ _ _ _ _ _ _ _ _ Hinit Hbox Hx Hkey)
    as (j & y & Hj & Hy & Hfill).
  assert (HK : (0 < K)%nat).
  { destruct (box_classes K boxes Hbox) as (_ & _ & _ & <-).
    apply lookup_lt_Some in Hx. lia. }
  pose proof (scene_info_unmapped self idx (files w) _ _ _ _ _ y
                Hp Hi Hs Hb Hbox HK Hfill) as Hscene.
  exists j, y. repeat (split; [assumption|]). split; [|split].
  - destruct (process_single_scene_run self true idx w) as (w' & E & _).
    exists w'. rewrite E, Hscene. reflexivity.
  - intros nw ids Hin. destruct (Z.leb_spec nw 0) as [Hn|Hn].
    { rewrite get_infos_no_workers by assumption. eexists _, _. reflexivity. }
    destruct (get_infos_run self nw true ids w Hn) as (w' & ->).
    destruct (comprehension_Raise id
                (map (fun id => scene_info self true id (files w))
                     (default (ScanNetData.sample_id_list self) ids))
                (scene_info self true idx (files w)) (KeyError (KNum y)))
      as [e He]; [| rewrite Hscene; reflexivity|].
    { apply list_elem_of_fmap. exists idx. split; [reflexivity|assumption]. }
    exists e, w'. unfold ScanNetData.list_results. rewrite He. reflexivity.
  - intros nw pre post Hn Hpre.
    destruct (get_infos_run self nw true (Some (pre ++ idx :: post)) w Hn)
      as (w' & ->).
    exists w'. f_equal.
    change (default (ScanNetData.sample_id_list self) (Some (pre ++ idx :: post)))
      with (pre ++ idx :: post).
    rewrite map_app. cbn [map]. unfold ScanNetData.list_results.
    apply comprehension_app_Raise; [|exact Hscene].
    apply Forall_forall. intros r Hr. apply list_elem_of_In, in_map_iff in Hr as (id0 & <- & Hid).
    rewrite Forall_forall in Hpre. 
    destruct (Hpre id0) as (info & w'' & Hrun).
    { apply list_elem_of_In. exact Hid. }
    exists info. apply process_single_scene_Return in Hrun. exact Hrun.
Qed.

(** ** [ScanNetData]: the properties on the example scenes *)

Lemma empty_box_array_annotations_witness :
  exists info w',
    ScanNetData.process_single_scene example_self true "scene1" example_world =
      (Return info, w') /\
    info !! "annos" = Some (Dict {["gt_num" := VInt 0]}).
Proof.
  apply (empty_box_array_annotations example_self "scene1" example_world
           (Float (Arr2 6 [])) (Long (Arr1 [])) (Long (Arr1 []))
           (Float (Arr2 7 []))); vm_compute; reflexivity.
Defined.

Lemma get_infos_order_witness :
  length example_infos = 2%nat /\
  forall i id, ["scene0"; "scene1"] !! i = Some id ->
    exists info pc,
      example_infos !! i = Some info /\
      info !! "point_cloud" = Some (Dict pc) /\
      pc !! "lidar_idx" = Some (VStr id).
Proof.
  apply (get_infos_order example_self 4 true None example_world example_infos
           example_run.2).
  vm_compute. reflexivity.
Defined.

Lemma annotation_arrays_witness :
  exists ann names cls,
    scene0_info !! "annos" = Some (Dict ann) /\
    ann !! "gt_num" = Some (VInt (Z.of_nat 2)) /\
    ann !! "name" = Some (VStrs names) /\ length names = 2%nat /\
    ann !! "location" = Some (VNd (map_rows (fun A => take 3) 3 example_boxes)) /\
    ann !! "dimensions" =
      Some (VNd (map_rows (fun A r => take 3 (drop 3 r)) 3 example_boxes)) /\
    ann !! "gt_boxes_upright_depth" =
      Some (VNd (map_rows (fun A => take 6) 6 example_boxes)) /\
    ann !! "index" = Some (VNd (Long (Arr1 (Z.of_nat <$> seq 0 2)))) /\
    ann !! "class" = Some (VNd (Long (Arr1 cls))) /\ length cls = 2%nat /\
    nd_shape0 (map_rows (fun A => take 3) 3 example_boxes) = 2%nat /\
    nd_shape0 (map_rows (fun A r => take 3 (drop 3 r)) 3 example_boxes) = 2%nat /\
    nd_shape0 (map_rows (fun A => take 6) 6 example_boxes) = 2%nat /\
    length (Z.of_nat <$> seq 0 2) = 2%nat.
Proof.
  apply (annotation_arrays example_self "scene0" example_world 2 example_boxes
           scene0_info scene0_run.2).
  - vm_compute. reflexivity.
  - repeat constructor.
  - repeat constructor.
  - vm_compute. reflexivity.
Defined.

Lemma unmapped_class_id_raises_witness :
  exists j y,
    box_class_ids unmapped_boxes !! j = Some y /\
    is_key (ScanNetData.cat_ids2class example_self) y = false /\
    (forall ann0, ScanNetData.fill_annotations example_self unmapped_boxes 2 ann0 =
                    Raise (KeyError (KNum y))) /\
    (exists w', ScanNetData.process_single_scene example_self true "scene0"
                  unmapped_world = (Raise (KeyError (KNum y)), w')) /\
    (forall num_workers sample_id_list,
        "scene0" ∈ default (ScanNetData.sample_id_list example_self) sample_id_list ->
        exists e w',
          ScanNetData.get_infos example_self num_workers true sample_id_list
            unmapped_world = (Raise e, w')) /\
    (forall num_workers pre post,
        0 < num_workers ->
        Forall (fun id => exists info w'',
                  ScanNetData.process_single_scene example_self true id
                    unmapped_world = (Return info, w'')) pre ->
        exists w',
          ScanNetData.get_infos example_self num_workers true
            (Some (pre ++ "scene0" :: post)) unmapped_world =
            (Raise (KeyError (KNum y)), w')).
Proof.
  apply (unmapped_class_id_raises "data" "train" example_world example_self
           example_world "scene0" unmapped_world
           (Float (Arr2 6 [of_int <$> [1; 2; 3; 4; 5; 6]]))
           (Long (Arr1 [1])) (Long (Arr1 [5])) unmapped_boxes 2 1 (of_int 13)).
  - vm_compute. reflexivity.
  - vm_compute. reflexivity.
  - vm_compute. reflexivity.
  - vm_compute. reflexivity.
  - vm_compute. reflexivity.
  - repeat constructor.
  - reflexivity.
  - vm_compute. reflexivity.
Defined.

(** ** [ScanNetSegData]: the class table and [_convert_to_label] *)

Lemma seg_table_built :
  ScanNetSegData.make_cat_id2class (Z.of_nat <$> seq 0 41)
    ScanNetSegData.seg_cat_ids (length ScanNetSegData.seg_cat_ids) =
  Return seg_table.
Proof. vm_compute. reflexivity. Qed.

Lemma seg_init_inv np_log data_root ann_file split num_points lwf w self w' :
  ScanNetSegData.__init__ np_log data_root ann_file split num_points lwf w =
    (Return self, w') ->
  exists infos,
    self = ScanNetSegData.Build data_root infos split num_points
             (Z.of_nat <$> seq 0 41) ScanNetSegData.seg_cat_ids 20 seg_table
             (match lwf with
              | None => ScanNetSegData.default_label_weight_func np_log
              | Some f => f
              end).
Proof.
  unfold ScanNetSegData.__init__. intros H.
  apply IO_bind_Return in H as (infos & w1 & _ & H).
  apply IO_bind_Return in H as (tbl & w2 & Ht & H).
  unfold lift in Ht. rewrite seg_table_built in Ht. injection Ht as <- <-.
  injection H as <- <-. by exists infos.
Qed.

Lemma table_item_in_range k :
  0 <= k <= 40 -> table_item k = Return (seg_class k).
Proof.
  intros Hk.
  assert (Hall : forallb (fun z => match table_item z with
                                   | Return v => v =? seg_class z
                                   | Raise _ => false
                                   end)
                         (Z.of_nat <$> seq 0 41) = true)
    by (vm_compute; reflexivity).
  rewrite forallb_forall in Hall.
  specialize (Hall k). destruct (table_item k) as [e|v].
  - discriminate Hall. apply in_map_iff. exists (Z.to_nat k).
    split; [lia|]. apply in_seq. lia.
  - f_equal. apply Z.eqb_eq, Hall. apply in_map_iff. exists (Z.to_nat k).
    split; [lia|]. apply in_seq. lia.
Qed.

Lemma table_item_out_of_range k :
  k < -41 \/ 40 < k -> table_item k = Raise IndexError.
Proof.
  intros Hk. unfold table_item, np_index.
  change (length seg_table) with 41%nat.
  destruct (Z.leb_spec 0 k), (Z.ltb_spec k (Z.of_nat 41)),
    (Z.leb_spec (- Z.of_nat 41) k), (Z.ltb_spec k 0); simpl; try reflexivity; lia.
Qed.

Lemma np_take_in_range (l : list Z) :
  Forall (fun z => 0 <= z <= 40) l ->
  np_take seg_table (Long (Arr1 l)) = Return (Long (Arr1 (seg_class <$> l))).
Proof.
  intros H. unfold np_take. fold table_item.
  assert (E : comprehension table_item l = Return (seg_class <$> l)).
  { induction H as [|z l Hz _ IH]; simpl; [done|].
    by rewrite (table_item_in_range z Hz), IH. }
  change (fun k : Z => i ← np_index (length seg_table) k;
                       of_option IndexError (seg_table !! i)) with table_item.
  by rewrite E.
Qed.

Lemma np_take_out_of_range (l : list Z) z :
  z ∈ l -> z < -41 \/ 40 < z ->
  np_take seg_table (Long (Arr1 l)) = Raise IndexError.
Proof.
  intros Hin Hz. unfold np_take.
  change (fun k : Z => i ← np_index (length seg_table) k;
                       of_option IndexError (seg_table !! i)) with table_item.
  destruct (comprehension table_item l) as [e|ys] eqn:E.
  - apply comprehension_Raise_inv in E as (x & _ & Hx).
    unfold table_item in Hx. destruct (np_index _ x) as [e'|i] eqn:Ei.
    + unfold np_index in Ei. repeat case_match; simplify_eq. by injection Hx as <-.
    + simpl in Hx. destruct (seg_table !! i); simpl in Hx; by simplify_eq.
  - apply list_elem_of_lookup in Hin as [i Hi].
    destruct (comprehension_lookup _ _ _ _ _ E Hi) as (y & _ & Hy).
    by rewrite (table_item_out_of_range z Hz) in Hy.
Qed.

Lemma list_index_not_in {A} `{EqDecision A} (x : A) l :
  x ∉ l -> list_index x l = Raise ValueError.
Proof.
  induction l as [|y l IH]; simpl; [done|].
  intros Hx. apply not_elem_of_cons in Hx as [Hne Hx].
  destruct (decide (x = y)); [done|]. by rewrite IH.
Qed.

Lemma convert_array_run self a w :
  ScanNetSegData._convert_to_label self (MaskArray a) w =
    (np_take (ScanNetSegData.cat_id2class self) (select_nonzero a), w).
Proof. reflexivity. Qed.

Lemma filter_in_range (l : list Z) :
  Forall (fun z => 0 <= z <= 40) l ->
  Forall (fun z => 0 <= z <= 40) (filter (fun z => z <> 0) l).
Proof.
  rewrite !Forall_forall. intros H z Hz.
  apply list_elem_of_filter in Hz as [_ Hz]. by apply H.
Qed.

(** C4, as amended.  For an object built by [__init__] the ignore index
    is the size of the id table, 20.  On a mask whose ids are all in
    0..40, [_convert_to_label] discards the zeros and maps every other id
    to its position in the table, or to the ignore index when it is not
    in the table.  A mask with an id above 40 (or below -41) raises
    [IndexError]. *)
Theorem convert_to_label_in_range np_log data_root ann_file split num_points
    lwf w0 self w1 (l : list Z) w :
  ScanNetSegData.__init__ np_log data_root ann_file split num_points lwf w0 =
    (Return self, w1) ->
  ScanNetSegData.ignore_index self = length (ScanNetSegData.cat_ids self) /\
  ScanNetSegData.ignore_index self = 20%nat /\
  (forall i z, ScanNetSegData.cat_ids self !! i = Some z ->
               seg_class z = Z.of_nat i) /\
  (forall z, z ∉ ScanNetSegData.cat_ids self ->
             seg_class z = Z.of_nat (ScanNetSegData.ignore_index self)) /\
  (Forall (fun z => 0 <= z <= 40) l ->
   ScanNetSegData._convert_to_label self (MaskArray (Long (Arr1 l))) w =
     (Return (Long (Arr1 (seg_class <$> filter (fun z => z <> 0) l))), w)) /\
  (forall z, z ∈ l -> z < -41 \/ 40 < z ->
   ScanNetSegData._convert_to_label self (MaskArray (Long (Arr1 l))) w =
     (Raise IndexError, w)).
Proof.
  intros Hinit. apply seg_init_inv in Hinit as [infos ->].
  cbn [ScanNetSegData.ignore_index ScanNetSegData.cat_ids].
  split; [reflexivity|]. split; [reflexivity|]. split; [|split; [|split]].
  - intros i z Hi.
    do 20 (destruct i as [|i]; [injection Hi as <-; reflexivity|]).
    discriminate.
  - intros z Hz. unfold seg_class. by rewrite list_index_not_in.
  - intros Hl. rewrite convert_array_run.
    cbn [ScanNetSegData.cat_id2class select_nonzero ravel].
    by rewrite np_take_in_range by by apply filter_in_range.
  - intros z Hz Hout. rewrite convert_array_run.
    cbn [ScanNetSegData.cat_id2class select_nonzero ravel].
    rewrite (np_take_out_of_range _ z); [done| |done].
    apply list_elem_of_filter. split; [lia|done].
Qed.

Lemma convert_to_label_in_range_witness :
  ScanNetSegData._convert_to_label example_seg
    (MaskArray (Long (Arr1 [1; 0; 13; 40; 39]))) seg_world =
    (Return (Long (Arr1 (seg_class <$> filter (fun z => z <> 0) [1; 0; 13; 40; 39]))),
     seg_world).
Proof.
  apply (convert_to_label_in_range ln_approx "data" "data/infos.pkl" "train" 100
           None seg_world example_seg seg_world).
  - vm_compute. reflexivity.
  - repeat constructor; lia.
Defined.

(** C4, counterexample: the id 41 is outside the table and is not mapped
    to the ignore index: the conversion raises [IndexError]; the id -2
    is mapped to class 19. *)
Lemma convert_to_label_out_of_range :
  (ScanNetSegData._convert_to_label example_seg
     (MaskArray (Long (Arr1 [41]))) seg_world).1 = Raise IndexError /\
  (ScanNetSegData._convert_to_label example_seg
     (MaskArray (Long (Arr1 [41]))) seg_world).1 <> Return (Long (Arr1 [20])) /\
  (ScanNetSegData._convert_to_label example_seg
     (MaskArray (Long (Arr1 [-2]))) seg_world).1 = Return (Long (Arr1 [19])).
Proof. vm_compute. repeat split. discriminate. Qed.




(** ** [ScanNetSegData]: resampling *)

Lemma Qtrunc_div s n :
  0 <= s -> 0 < n -> Qtrunc (inject_Z s / inject_Z n) = s / n.
Proof.
  intros Hs Hn. destruct n as [|p|p]; try lia.
  unfold Qtrunc, Qdiv, Qinv, Qmult, inject_Z. cbn [Qnum Qden].
  rewrite Z.mul_1_r, Pos.mul_1_l. apply Z.quot_div_nonneg; lia.
Qed.

Lemma Qis_zero_inject z : Qis_zero (inject_Z z) = (z =? 0).
Proof. reflexivity. Qed.

Lemma num_iter_floor counts num_points :
  0 <= ScanNetSegData.np_sum counts -> 0 < num_points ->
  ScanNetSegData.num_iter_of counts num_points =
    Return (spec_num_iter counts num_points).
Proof.
  intros Hs Hn. unfold ScanNetSegData.num_iter_of, spec_num_iter, of_int, fdiv.
  rewrite Qis_zero_inject. destruct (Z.eqb_spec num_points 0); [lia|].
  cbn [py_int]. by rewrite Qtrunc_div.
Qed.

Lemma resample_unfold n_infos counts num_points :
  ScanNetSegData.resample n_infos counts num_points =
    num_iter ← ScanNetSegData.num_iter_of counts num_points;
    scene_idxs ← foldl
      (resample_step
         ((fun n => fdiv (of_int n) (of_int (ScanNetSegData.np_sum counts)))
            <$> counts) num_iter)
      (Return []) (seq 0 n_infos);
    mret (Long (Arr1 scene_idxs)).
Proof. reflexivity. Qed.

Lemma foldl_resample_Raise probs num_iter e l :
  foldl (resample_step probs num_iter) (Raise e) l = Raise e.
Proof. induction l as [|x l IH]; simpl; [done|]. exact IH. Qed.

Lemma resample_step_Return probs num_iter acc idx p r :
  probs !! idx = Some p ->
  py_round (fmul p (of_int num_iter)) = Return r ->
  resample_step probs num_iter (Return acc) idx =
    Return (acc ++ replicate (Z.to_nat r) (Z.of_nat idx)).
Proof. intros Hp Hr. unfold resample_step. simpl. by rewrite Hp; simpl; rewrite Hr. Qed.

Lemma resample_loop probs num_iter (P : Z -> float64) (R : Z -> Z) l :
  (forall x, py_round (fmul (P x) (of_int num_iter)) = Return (R x)) ->
  forall k acc,
    (forall i x, l !! i = Some x -> probs !! (k + i)%nat = Some (P x)) ->
    foldl (resample_step probs num_iter) (Return acc) (seq k (length l)) =
      Return (acc ++ concat (imap (fun i x => replicate (Z.to_nat (R x))
                                                 (Z.of_nat (k + i))) l)).
Proof.
  intros HR. induction l as [|x l IH]; intros k acc Hl.
  - simpl. by rewrite app_nil_r.
  - cbn [length seq foldl].
    rewrite (resample_step_Return probs num_iter acc k (P x) (R x)).
    + rewrite IH.
      * rewrite <- app_assoc, imap_cons. cbn [concat]. rewrite Nat.add_0_r.
        rewrite (imap_ext
                   (fun i y => replicate (Z.to_nat (R y)) (Z.of_nat (S k + i)))
                   ((fun i y => replicate (Z.to_nat (R y)) (Z.of_nat (k + i)))
                      ∘ S) l); [reflexivity|].
        intros i y _. simpl. do 2 f_equal. lia.
      * intros i y Hi. rewrite Nat.add_succ_comm. by apply (Hl (S i)).
    + rewrite <- (Nat.add_0_r k). by apply (Hl 0%nat).
    + apply HR.
Qed.

Lemma resample_spec counts num_points :
  0 < ScanNetSegData.np_sum counts -> 0 < num_points ->
  ScanNetSegData.resample (length counts) counts num_points =
    Return (Long (Arr1 (spec_scene_idxs counts num_points))).
Proof.
  intros Hs Hn. rewrite resample_unfold, num_iter_floor by lia.
  cbn [mbind outcome_bind].
  rewrite (resample_loop _ _
             (fun x => fdiv (of_int x) (of_int (ScanNetSegData.np_sum counts)))
             (spec_repeats counts num_points)).
  - reflexivity.
  - intros x. unfold fdiv, of_int. rewrite Qis_zero_inject.
    destruct (Z.eqb_spec (ScanNetSegData.np_sum counts) 0); [lia|]. reflexivity.
  - intros i x Hi. cbn [Nat.add]. by rewrite list_lookup_fmap, Hi.
Qed.

(** *** Order and range of the resampled indices *)

Lemma resample_loop_sorted probs num_iter n :
  forall k acc res,
    foldl (resample_step probs num_iter) (Return acc) (seq k n) = Return res ->
    StronglySorted Z.le acc ->
    Forall (fun i => 0 <= i < Z.of_nat k) acc ->
    StronglySorted Z.le res /\
    Forall (fun i => 0 <= i < Z.of_nat (k + n)) res.
Proof.
  induction n as [|n IH]; intros k acc res; cbn [seq foldl].
  - intros [= <-] Hs Hb. split; [done|]. by rewrite Nat.add_0_r.
  - destruct (resample_step probs num_iter (Return acc) k) as [e|acc'] eqn:E.
    { by rewrite foldl_resample_Raise. }
    intros Hres Hs Hb.
    unfold resample_step in E. cbn [mbind outcome_bind] in E.
    apply bind_Return in E as (p & _ & E).
    apply bind_Return in E as (r & _ & E). injection E as <-.
    apply IH in Hres.
    + destruct Hres as [? Hres]. split; [done|].
      eapply Forall_impl; [exact Hres|]. intros i Hi. simpl in Hi. lia.
    + apply StronglySorted_app_2; [|done|].
      * intros x1 x2 H1 H2. apply elem_of_replicate in H2 as [-> _].
        rewrite Forall_forall in Hb. specialize (Hb x1 H1). lia.
      * generalize (Z.to_nat r). intros m. induction m as [|m IHm]; simpl.
        -- constructor.
        -- constructor; [done|]. apply Forall_forall.
           intros x Hx. apply elem_of_replicate in Hx as [-> _]. lia.
    + apply Forall_app. split.
      * eapply Forall_impl; [exact Hb|]. intros i Hi. simpl in Hi. lia.
      * apply Forall_forall. intros x Hx.
        apply elem_of_replicate in Hx as [-> _]. lia.
Qed.

Lemma resample_sorted n_infos counts num_points a :
  ScanNetSegData.resample n_infos counts num_points = Return a ->
  exists l, a = Long (Arr1 l) /\
    StronglySorted Z.le l /\
    Forall (fun i => 0 <= i < Z.of_nat n_infos) l.
Proof.
  rewrite resample_unfold. intros H.
  apply bind_Return in H as (num_iter & _ & H).
  apply bind_Return in H as (l & Hl & H). injection H as <-.
  exists l. split; [done|].
  apply resample_loop_sorted in Hl; [exact Hl|constructor|constructor].
Qed.

Lemma np_histogram_length data edges :
  length (np_histogram data edges) = (length edges - 1)%nat.
Proof.
  unfold np_histogram. rewrite length_imap, length_zip_with.
  destruct edges; cbn [length tail]; lia.
Qed.

Lemma for_each_lengths {A} (body : list Z * list float64 -> A ->
                                   IO (list Z * list float64)) n :
  (forall st x w st' w',
      body st x w = (Return st', w') -> length st.2 = n ->
      length st'.1 = S (length st.1) /\ length st'.2 = n) ->
  forall l st w st' w',
    for_each body l st w = (Return st', w') -> length st.2 = n ->
    length st'.1 = (length st.1 + length l)%nat /\ length st'.2 = n.
Proof.
  intros Hbody. induction l as [|x l IH]; intros st w st' w'; simpl.
  - intros [= <- <-] Hn. split; [lia|done].
  - intros H Hn. apply IO_bind_Return in H as (st1 & w1 & H1 & H).
    destruct (Hbody _ _ _ _ _ H1 Hn) as [E1 E2].
    destruct (IH _ _ _ _ H E2) as [E3 E4]. split; [lia|done].
Qed.

Lemma load_labels_lengths self w counts hist w' :
  ScanNetSegData.load_labels self w = (Return (counts, hist), w') ->
  length counts = length (ScanNetSegData.data_infos self) /\
  length hist = (length (ScanNetSegData.cat_ids self) + 1)%nat.
Proof.
  unfold ScanNetSegData.load_labels. intros H.
  apply (for_each_lengths _ (length (ScanNetSegData.cat_ids self) + 1)) in H;
    [exact H| |cbn [snd]; by rewrite length_replicate].
  clear. intros st x w st' w' H Hn.
  apply IO_bind_Return in H as (p & w1 & _ & H).
  apply IO_bind_Return in H as (label & w2 & _ & H).
  injection H as <- _. cbn [fst snd]. split.
  - rewrite length_app. simpl. lia.
  - rewrite length_zip_with, length_fmap, np_histogram_length, length_fmap,
      length_seq. lia.
Qed.

Lemma get_scene_idxs_run self w st w' :
  ScanNetSegData.load_labels self w = (Return st, w') ->
  ScanNetSegData.get_scene_idxs_and_label_weight self w =
    (scene_idxs ← ScanNetSegData.resample
                    (length (ScanNetSegData.data_infos self)) st.1
                    (ScanNetSegData.num_points self);
     label_weight ← ScanNetSegData.weigh self st.2;
     mret (scene_idxs, label_weight), w').
Proof.
  intros H. unfold ScanNetSegData.get_scene_idxs_and_label_weight.
  rewrite bind_run, H. rewrite bind_run. unfold lift at 1.
  destruct (ScanNetSegData.resample _ _ _) as [e|idxs]; [reflexivity|].
  rewrite bind_run. unfold lift at 1. cbn [mbind outcome_bind].
  destruct (ScanNetSegData.weigh self st.2); reflexivity.
Qed.

Lemma get_scene_idxs_Return self w idxs lw w' :
  ScanNetSegData.get_scene_idxs_and_label_weight self w =
    (Return (idxs, lw), w') ->
  exists counts hist,
    ScanNetSegData.load_labels self w = (Return (counts, hist), w') /\
    ScanNetSegData.resample (length (ScanNetSegData.data_infos self)) counts
      (ScanNetSegData.num_points self) = Return idxs /\
    ScanNetSegData.weigh self hist = Return lw.
Proof.
  intros H. destruct (ScanNetSegData.load_labels self w) as [[e|[counts hist]] w1] eqn:E.
  { unfold ScanNetSegData.get_scene_idxs_and_label_weight in H.
    rewrite bind_run, E in H. discriminate. }
  rewrite (get_scene_idxs_run _ _ _ _ E) in H. injection H as H <-.
  cbn [fst snd] in H.
  apply bind_Return in H as (idxs' & Hi & H).
  apply bind_Return in H as (lw' & Hw & H). injection H as <- <-.
  by exists counts, hist.
Qed.



(** C10.  The scene indices returned by
    [get_scene_idxs_and_label_weight] are in nondecreasing order and each
    of them is in [0, len(data_infos)). *)
Theorem scene_idxs_sorted self w idxs lw w' :
  ScanNetSegData.get_scene_idxs_and_label_weight self w =
    (Return (idxs, lw), w') ->
  exists l, idxs = Long (Arr1 l) /\
    StronglySorted Z.le l /\
    Sorted Z.le l /\
    Forall (fun i => 0 <= i < Z.of_nat (length (ScanNetSegData.data_infos self))) l.
Proof.
  intros H. apply get_scene_idxs_Return in H as (counts & hist & _ & Hr & _).
  apply resample_sorted in Hr as (l & -> & Hs & Hb).
  exists l. split; [done|]. split; [done|].
  split; [by apply StronglySorted_Sorted|done].
Qed.

Lemma scene_idxs_sorted_witness :
  exists l, seg_idxs = Long (Arr1 l) /\
    StronglySorted Z.le l /\
    Sorted Z.le l /\
    Forall (fun i => 0 <= i < Z.of_nat (length (ScanNetSegData.data_infos example_seg))) l.
Proof.
  apply (scene_idxs_sorted example_seg seg_world seg_idxs seg_weights seg_run.2).
  vm_compute. reflexivity.
Defined.

(** ** [ScanNetSegData]: label weights *)

Lemma weigh_elementwise self hist g :
  length hist = 21%nat ->
  (forall a, ScanNetSegData.label_weight_func self a = Return (nd_map g a)) ->
  ScanNetSegData.weigh self hist =
    Return (Float (Arr1 (g <$> normalized (take 20 hist)))).
Proof.
  intros Hlen Hf. unfold ScanNetSegData.weigh.
  assert (E : slice_list 0 (-1) hist = take 20 hist).
  { unfold slice_list. rewrite Hlen. reflexivity. }
  rewrite E, Hf. reflexivity.
Qed.




(** ** When the operations return

    The properties above of a returned record or array are not vacuous:
    with loadable files, class ids that are all keys of the table,
    a positive number of workers, a positive total of points and a
    positive [num_points], the operations return. *)

Lemma comprehension_Return_all {A B} (f : A -> outcome B) l :
  (forall x, x ∈ l -> exists y, f x = Return y) ->
  exists ys, comprehension f l = Return ys.
Proof.
  induction l as [|x l IH]; intros H; simpl; [by eexists|].
  destruct (H x) as [y ->]; [left|].
  destruct IH as [ys ->]; [|by eexists].
  intros x' Hx'. apply H. by right.
Qed.

Lemma getitem_num_key {V} (d : gmap Z V) x :
  is_key d x = true -> exists v, getitem_num d x = Return v.
Proof.
  intros H. destruct (getitem_num d x) as [e|v] eqn:E; [|by eexists].
  apply getitem_num_Raise in E as [_ E]. congruence.
Qed.

Lemma fill_annotations_returns root split w0 self w1 K boxes ann0 :
  ScanNetData.__init__ root split w0 = (Return self, w1) ->
  box_array K boxes ->
  Forall (fun x => is_key (ScanNetData.cat_ids2class self) x = true)
         (box_class_ids boxes) ->
  exists ann, ScanNetData.fill_annotations self boxes K ann0 = Return ann.
Proof.
  intros Hinit Hbox Hkeys. apply init_inv in Hinit as [ids ->].
  cbn [ScanNetData.cat_ids2class] in *.
  destruct (box_classes K boxes Hbox) as (classes & Hlast & Hitem & Hlen).
  assert (Hc : forall i, i ∈ seq 0 K -> exists y k,
               nd_item classes i = Return y /\
               getitem_num detection_cat_ids2class y = Return k).
  { intros i Hi. apply elem_of_seq in Hi as [_ Hi]. rewrite <- Hlen in Hi.
    destruct (lookup_lt_is_Some_2 _ _ Hi) as [y Hy].
    rewrite Forall_forall in Hkeys.
    destruct (getitem_num_key detection_cat_ids2class y) as [k Hk].
    { apply Hkeys. by eapply list_elem_of_lookup_2. }
    exists y, k. by rewrite Hitem, Hy. }
  destruct (comprehension_Return_all
              (fun i => c ← nd_item classes i;
                        k ← getitem_num detection_cat_ids2class c;
                        getitem (fun n => KNum (of_int (Z.of_nat n)))
                                detection_label2cat k) (seq 0 K))
    as [names Hnames].
  { intros i Hi. destruct (Hc i Hi) as (y & k & -> & Hk).
    cbn [mbind outcome_bind]. rewrite Hk. cbn [mbind outcome_bind].
    by apply detection_label_total in Hk. }
  destruct (comprehension_Return_all
              (fun i => c ← nd_item classes i;
                        Z.of_nat <$> getitem_num detection_cat_ids2class c)
              (seq 0 K))
    as [cls Hcls].
  { intros i Hi. destruct (Hc i Hi) as (y & k & -> & Hk).
    cbn [mbind outcome_bind]. rewrite Hk. by eexists. }
  unfold ScanNetData.fill_annotations. rewrite Hlast.
  cbn [ScanNetData.cat_ids2class ScanNetData.label2cat].
  destruct boxes as [[l|n rows]|[l|n rows]]; try done;
    cbn [nd_slice_cols slice_cols fmap outcome_fmap mbind outcome_bind]
      in Hnames, Hcls |- *;
    rewrite Hnames, Hcls; by eexists.
Qed.

Lemma process_single_scene_returns root split w0 self w1 idx w
    points ins sem boxes K :
  ScanNetData.__init__ root split w0 = (Return self, w1) ->
  files w !! raw_path self idx "_vert.npy" = Some (NpyFile points) ->
  files w !! raw_path self idx "_ins_label.npy" = Some (NpyFile ins) ->
  files w !! raw_path self idx "_sem_label.npy" = Some (NpyFile sem) ->
  files w !! raw_path self idx "_bbox.npy" = Some (NpyFile boxes) ->
  box_array K boxes ->
  Forall (fun x => is_key (ScanNetData.cat_ids2class self) x = true)
         (box_class_ids boxes) ->
  exists info w',
    ScanNetData.process_single_scene self true idx w = (Return info, w').
Proof.
  intros Hinit Hp Hi Hs Hb Hbox Hkeys.
  destruct (process_single_scene_run self true idx w) as (w' & E & _).
  unfold scene_info in E.
  rewrite (read_npy_Some _ _ _ Hp), (read_npy_Some _ _ _ Hi),
    (read_npy_Some _ _ _ Hs), (read_npy_Some _ _ _ Hb) in E.
  cbn [mbind outcome_bind] in E. unfold annotations_of in E.
  assert (HK : nd_shape0 boxes = K).
  { destruct boxes as [[l|n rows]|[l|n rows]]; try contradiction;
      destruct Hbox as (_ & HK & _); exact HK. }
  rewrite HK in E.
  destruct (fill_annotations_returns _ _ _ _ _ K boxes
              (<["gt_num" := VInt (Z.of_nat K)]> ∅) Hinit Hbox Hkeys)
    as [ann Hann].
  rewrite Hann in E.
  destruct (bool_decide (K = 0%nat)); cbn [negb mbind outcome_bind] in E;
    eexists _, w'; exact E.
Qed.

Lemma comprehension_id_Return {B} (rs : list (outcome B)) :
  Forall (fun r => exists b, r = Return b) rs ->
  exists bs, comprehension id rs = Return bs.
Proof.
  intros H. apply comprehension_Return_all. intros r Hr.
  rewrite Forall_forall in H. by apply H.
Qed.

Lemma get_infos_returns self num_workers has_label sample_id_list w :
  0 < num_workers ->
  Forall (fun id => exists info w'',
            ScanNetData.process_single_scene self has_label id w =
              (Return info, w''))
         (default (ScanNetData.sample_id_list self) sample_id_list) ->
  exists infos w',
    ScanNetData.get_infos self num_workers has_label sample_id_list w =
      (Return infos, w').
Proof.
  intros Hn Hall.
  destruct (get_infos_run self num_workers has_label sample_id_list w Hn)
    as (w' & ->).
  destruct (comprehension_id_Return
              (map (fun id => scene_info self has_label id (files w))
                   (default (ScanNetData.sample_id_list self) sample_id_list)))
    as [infos Hinfos].
  { apply Forall_forall. intros r Hr.
    apply list_elem_of_In, in_map_iff in Hr as (id0 & <- & Hid).
    rewrite Forall_forall in Hall.
    destruct (Hall id0) as (info & w'' & Hrun).
    { apply list_elem_of_In. exact Hid. }
    exists info. apply process_single_scene_Return in Hrun. exact Hrun. }
  exists infos, w'. unfold ScanNetData.list_results. rewrite Hinfos. reflexivity.
Qed.

Lemma get_scene_idxs_and_label_weight_returns np_log data_root ann_file split
    num_points lwf w0 self w1 w counts hist w' g :
  ScanNetSegData.__init__ np_log data_root ann_file split num_points lwf w0 =
    (Return self, w1) ->
  ScanNetSegData.load_labels self w = (Return (counts, hist), w') ->
  (forall a, ScanNetSegData.label_weight_func self a = Return (nd_map g a)) ->
  0 < ScanNetSegData.num_points self ->
  0 < ScanNetSegData.np_sum counts ->
  ScanNetSegData.get_scene_idxs_and_label_weight self w =
    (Return (Long (Arr1 (spec_scene_idxs counts (ScanNetSegData.num_points self))),
             Float (Arr1 (g <$> normalized (take 20 hist)))), w').
Proof.
  intros Hinit Hload Hg Hn Hs.
  rewrite (get_scene_idxs_run _ _ _ _ Hload). cbn [fst snd].
  destruct (load_labels_lengths _ _ _ _ _ Hload) as [<- Hlen].
  rewrite resample_spec by assumption.
  apply seg_init_inv in Hinit as [infos ->].
  rewrite (weigh_elementwise _ hist g); [reflexivity|exact Hlen|exact Hg].
Qed.

(** * Further properties: errors, effects and edge cases *)

(** ** [ScanNetData.__init__] *)

Lemma init_tables_run root split w :
  ScanNetData.__init__ root split w =
    if negb (bool_decide (split ∈ ["train"; "val"; "test"]))
    then (Raise AssertionError, w)
    else
      match files w !! split_file root split with
      | Some (TextFile lines) =>
          (Return (ScanNetData.Build root split (osp_join root [])
                     ScanNetData.class_names detection_cat2label
                     detection_label2cat ScanNetData.nyu40ids
                     detection_cat_ids2class lines), w)
      | Some _ => (Raise Unmodelled, w)
      | None => (Raise (FileNotFoundError (split_file root split)), w)
      end.
Proof.
  unfold ScanNetData.__init__. rewrite bind_run. unfold lift at 1.
  rewrite cat2label_table. rewrite bind_run. unfold lift at 1.
  rewrite label2cat_table.
  destruct (negb _); [reflexivity|].
  rewrite bind_run. unfold check_file_exist, split_file.
  destruct (files w !! _) as [f|] eqn:E; [|reflexivity].
  rewrite bind_run. unfold list_from_file. rewrite E.
  destruct f; reflexivity.
Qed.

(** X1.  The errors of [ScanNetData.__init__].  A split other than
    ['train'], ['val'] or ['test'] raises [AssertionError], whatever the
    files are and without touching them.  With one of the three splits the
    constructor never raises [AssertionError], and when the split file
    [root/meta_data/scannetv2_<split>.txt] does not exist it raises
    [FileNotFoundError] for that path and leaves the world as it was. *)
Theorem init_errors root split w :
  (split ∉ ["train"; "val"; "test"] ->
   ScanNetData.__init__ root split w = (Raise AssertionError, w)) /\
  (split ∈ ["train"; "val"; "test"] ->
   (ScanNetData.__init__ root split w).1 <> Raise AssertionError /\
   (files w !! split_file root split = None ->
    ScanNetData.__init__ root split w =
      (Raise (FileNotFoundError (split_file root split)), w))).
Proof.
  rewrite init_tables_run. split; intros H.
  - by rewrite bool_decide_eq_false_2.
  - rewrite bool_decide_eq_true_2 by done. cbn [negb]. split.
    + destruct (files w !! _) as [[]|]; discriminate.
    + by intros ->.
Qed.

(** ** Paths built by [osp.join] *)

Lemma chars_inj s1 s2 : chars s1 = chars s2 -> s1 = s2.
Proof.
  unfold chars. intros H.
  rewrite <- (string_of_list_ascii_of_string s1),
          <- (string_of_list_ascii_of_string s2). by rewrite H.
Qed.

Lemma append_assoc_str a b c : (a +:+ b) +:+ c = a +:+ (b +:+ c).
Proof.
  apply chars_inj. by rewrite !chars_app, app_assoc.
Qed.

Lemma endswith_slash_app X d :
  d <> "" -> endswith (X +:+ d) "/" = endswith d "/".
Proof.
  intros Hd. unfold endswith. rewrite chars_app.
  assert (Hne : chars d <> []).
  { intros E. apply Hd. apply chars_inj. exact E. }
  destruct (chars d) as [|c l _] using rev_ind; [done|].
  apply bool_decide_ext. change (chars "/") with ([] ++ ["/"%char]).
  rewrite app_assoc. split; intros H.
  - apply suffix_snoc_inv_1 in H as <-. by apply suffix_app_r.
  - apply suffix_snoc_inv_1 in H as <-. by apply suffix_app_r.
Qed.

Lemma join2_relative root b :
  startswith b "/" = false -> osp_join2 root b = root_prefix root +:+ b.
Proof.
  intros Hb. unfold osp_join2, root_prefix. rewrite Hb.
  destruct (bool_decide (root = "") || endswith root "/"); [done|].
  by rewrite append_assoc_str.
Qed.

Lemma join2_absolute root b : startswith b "/" = true -> osp_join2 root b = b.
Proof. intros Hb. unfold osp_join2. by rewrite Hb. Qed.

Lemma join_plain root d b :
  plain_name d -> startswith b "/" = false ->
  osp_join root [d; b] = root_prefix root +:+ d +:+ "/" +:+ b.
Proof.
  intros (Hne & Hs & He) Hb. unfold osp_join. cbn [foldl].
  rewrite (join2_relative root d Hs). unfold osp_join2. rewrite Hb.
  rewrite endswith_slash_app, He by done.
  rewrite bool_decide_eq_false_2.
  - cbn [orb]. by rewrite append_assoc_str.
  - intros E. apply Hne. apply (f_equal chars) in E. rewrite chars_app in E.
    apply chars_inj. apply app_eq_nil in E. by destruct E as [_ ->].
Qed.

Lemma join_absolute root d b :
  startswith b "/" = true -> osp_join root [d; b] = b.
Proof. intros Hb. unfold osp_join. cbn [foldl]. by apply join2_absolute. Qed.


Lemma plain_semantic_mask : plain_name "semantic_mask".
Proof. by repeat split. Qed.

Lemma startswith_app_bin idx :
  startswith (idx +:+ ".bin") "/" = startswith idx "/".
Proof.
  destruct idx as [|c idx]; [reflexivity|].
  unfold startswith. apply bool_decide_ext. cbn.
  split; intros H; apply prefix_cons_inv_1 in H as <-;
    apply prefix_cons, prefix_nil.
Qed.

Lemma join_nonempty root d : d <> "" -> osp_join root [d] <> "".
Proof.
  intros Hd E. unfold osp_join in E. cbn [foldl] in E.
  assert (H : endswith (osp_join2 root d) d = true).
  { apply endswith_join2. unfold endswith. by apply bool_decide_eq_true_2. }
  rewrite E in H. unfold endswith in H. apply bool_decide_eq_true_1 in H.
  apply suffix_nil_inv in H. apply Hd, chars_inj. exact H.
Qed.

(** ** [ScanNetData]: the effect of [process_single_scene] *)

Lemma mkdir_or_exist_nonempty d w :
  d <> "" ->
  mkdir_or_exist d w = (Return tt, World (files w) ({[d]} ∪ dirs w) (stdout w)).
Proof. intros H. unfold mkdir_or_exist. by rewrite bool_decide_eq_false_2. Qed.

Lemma process_single_scene_effect self has_label idx w :
  ScanNetData.process_single_scene self has_label idx w =
    (scene_info self has_label idx (files w), scene_world self idx w).
Proof.
  unfold ScanNetData.process_single_scene, scene_info, scene_world.
  rewrite bind_run. unfold print at 1. cbv beta iota zeta.
  set (w0 := World (files w) (dirs w) _).
  rewrite bind_run, np_load_run. fold (raw_path self idx "_vert.npy").
  change (files w0) with (files w).
  destruct (read_npy (files w) (raw_path self idx "_vert.npy")) as [e|points];
    [reflexivity|].
  rewrite bind_run, fmap_run, np_load_run.
  fold (raw_path self idx "_ins_label.npy"). change (files w0) with (files w).
  destruct (read_npy (files w) (raw_path self idx "_ins_label.npy")) as [e|ins];
    [reflexivity|].
  rewrite bind_run, fmap_run, np_load_run.
  fold (raw_path self idx "_sem_label.npy"). change (files w0) with (files w).
  destruct (read_npy (files w) (raw_path self idx "_sem_label.npy")) as [e|sem];
    [reflexivity|].
  rewrite bind_run, mkdir_or_exist_nonempty by (by apply join_nonempty).
  rewrite bind_run, mkdir_or_exist_nonempty by (by apply join_nonempty).
  rewrite bind_run, mkdir_or_exist_nonempty by (by apply join_nonempty).
  rewrite bind_run. unfold tofile at 1, write_file at 1.
  rewrite bind_run. unfold tofile at 1, write_file at 1.
  rewrite bind_run. unfold tofile at 1, write_file at 1.
  cbn [files dirs stdout]. fold (bin_path self "points" idx).
  fold (bin_path self "instance_mask" idx).
  fold (bin_path self "semantic_mask" idx).
  set (fs' := <[bin_path self "semantic_mask" idx := _]> _).
  set (w6 := World fs' _ _).
  destruct has_label; [|reflexivity].
  rewrite bind_run, get_box_label_run.
  assert (Hsame : same_npy (files w) fs').
  { unfold fs'. repeat (eapply same_npy_trans;
            [|apply same_npy_insert_bin, bin_path_bin]).
    apply same_npy_refl. }
  change (files w6) with fs'.
  rewrite <- (read_npy_same (files w) fs') by (done || by apply raw_path_npy).
  destruct (read_npy (files w) (raw_path self idx "_bbox.npy")) as [e|boxes];
    [reflexivity|].
  rewrite bind_run, annotations_run. cbn [mbind outcome_bind].
  destruct (annotations_of self boxes) as [e|ann]; reflexivity.
Qed.


Lemma bin_path_absolute self d idx :
  startswith idx "/" = true -> bin_path self d idx = idx +:+ ".bin".
Proof.
  intros H. apply join_absolute. by rewrite startswith_app_bin.
Qed.

Lemma scene_world_loaded self idx w points ins sem :
  files w !! raw_path self idx "_vert.npy" = Some (NpyFile points) ->
  files w !! raw_path self idx "_ins_label.npy" = Some (NpyFile ins) ->
  files w !! raw_path self idx "_sem_label.npy" = Some (NpyFile sem) ->
  scene_world self idx w =
    World
      (<[bin_path self "semantic_mask" idx := BinFile (astype_long sem)]>
       (<[bin_path self "instance_mask" idx := BinFile (astype_long ins)]>
        (<[bin_path self "points" idx := BinFile points]> (files w))))
      ({[osp_join (ScanNetData.root_dir self) ["semantic_mask"]]} ∪
       ({[osp_join (ScanNetData.root_dir self) ["instance_mask"]]} ∪
        ({[osp_join (ScanNetData.root_dir self) ["points"]]} ∪ dirs w)))
      (stdout w ++ [ScanNetData.split self +:+ " sample_idx: " +:+ idx]).
Proof.
  intros Hp Hi Hs. unfold scene_world.
  by rewrite (read_npy_Some _ _ _ Hp), (read_npy_Some _ _ _ Hi),
    (read_npy_Some _ _ _ Hs).
Qed.

(** X3.  With [has_label=False], [process_single_scene]
    needs only the three raw arrays of the scene: it returns a record with
    exactly the four keys [point_cloud], [pts_path],
    [pts_instance_mask_path] and [pts_semantic_mask_path], no [annos]
    entry, and the three relative paths [<dir>/<sample_idx>.bin]; the box
    file is not read. *)
Theorem record_without_labels self idx w points ins sem :
  files w !! raw_path self idx "_vert.npy" = Some (NpyFile points) ->
  files w !! raw_path self idx "_ins_label.npy" = Some (NpyFile ins) ->
  files w !! raw_path self idx "_sem_label.npy" = Some (NpyFile sem) ->
  exists info w',
    ScanNetData.process_single_scene self false idx w = (Return info, w') /\
    info !! "annos" = None /\
    dom info = ({["point_cloud"; "pts_path"; "pts_instance_mask_path";
                  "pts_semantic_mask_path"]} : gset string) /\
    info !! "pts_path" =
      Some (Val (VStr (osp_join "points" [idx +:+ ".bin"]))) /\
    info !! "pts_instance_mask_path" =
      Some (Val (VStr (osp_join "instance_mask" [idx +:+ ".bin"]))) /\
    info !! "pts_semantic_mask_path" =
      Some (Val (VStr (osp_join "semantic_mask" [idx +:+ ".bin"]))).
Proof.
  intros Hp Hi Hs. rewrite process_single_scene_effect. unfold scene_info.
  rewrite (read_npy_Some _ _ _ Hp), (read_npy_Some _ _ _ Hi),
    (read_npy_Some _ _ _ Hs).
  cbn [mbind outcome_bind mret outcome_ret].
  eexists _, _. split; [reflexivity|]. unfold base_info.
  split; [reflexivity|]. split; [|repeat split].
  rewrite !dom_insert_L, dom_empty_L. set_solver.
Qed.

Lemma record_without_labels_witness :
  exists info w',
    ScanNetData.process_single_scene example_self false "scene0"
      example_world = (Return info, w') /\
    info !! "annos" = None /\
    dom info = ({["point_cloud"; "pts_path"; "pts_instance_mask_path";
                  "pts_semantic_mask_path"]} : gset string) /\
    info !! "pts_path" =
      Some (Val (VStr (osp_join "points" ["scene0" +:+ ".bin"]))) /\
    info !! "pts_instance_mask_path" =
      Some (Val (VStr (osp_join "instance_mask" ["scene0" +:+ ".bin"]))) /\
    info !! "pts_semantic_mask_path" =
      Some (Val (VStr (osp_join "semantic_mask" ["scene0" +:+ ".bin"]))).
Proof.
  apply (record_without_labels example_self "scene0" example_world
           (Float (Arr2 6 [of_int <$> [1; 2; 3; 4; 5; 6]]))
           (Long (Arr1 [1])) (Long (Arr1 [5])));
    vm_compute; reflexivity.
Defined.

(** X4.  When one of the three raw arrays of a scene
    ([_vert.npy], [_ins_label.npy], [_sem_label.npy]) does not exist,
    [process_single_scene] raises before it creates a directory or writes
    a file: files and directories are as before.  For a missing
    [_vert.npy] the exception is [FileNotFoundError] of that path. *)
Theorem failed_load_writes_nothing self has_label idx w suffix :
  suffix ∈ ["_vert.npy"; "_ins_label.npy"; "_sem_label.npy"] ->
  files w !! raw_path self idx suffix = None ->
  exists e w',
    ScanNetData.process_single_scene self has_label idx w = (Raise e, w') /\
    files w' = files w /\ dirs w' = dirs w /\
    (suffix = "_vert.npy" ->
     e = FileNotFoundError (raw_path self idx "_vert.npy")).
Proof.
  intros Hsuf Hf. rewrite process_single_scene_effect.
  assert (Hr : read_npy (files w) (raw_path self idx suffix) =
               Raise (FileNotFoundError (raw_path self idx suffix))).
  { unfold read_npy. by rewrite Hf. }
  unfold scene_info, scene_world.
  assert (Hcases : suffix = "_vert.npy" \/ suffix <> "_vert.npy" /\
            (suffix = "_ins_label.npy" \/ suffix = "_sem_label.npy")).
  { apply elem_of_cons in Hsuf as [->|Hsuf]; [by left|right].
    apply elem_of_cons in Hsuf as [->|Hsuf]; [by split; [|left]|].
    apply elem_of_cons in Hsuf as [->|Hsuf]; [by split; [|right]|].
    by apply elem_of_nil in Hsuf. }
  destruct Hcases as [->|[Hne Hcases]].
  { rewrite Hr. eexists _, _. split; [reflexivity|]. by repeat split. }
  destruct (read_npy (files w) (raw_path self idx "_vert.npy")) as [e|p];
    [eexists _, _; split; [reflexivity|]; by repeat split|].
  destruct Hcases as [->| ->].
  { rewrite Hr. eexists _, _. split; [reflexivity|]. by repeat split. }
  destruct (read_npy (files w) (raw_path self idx "_ins_label.npy")) as [e|i];
    [eexists _, _; split; [reflexivity|]; by repeat split|].
  rewrite Hr. eexists _, _. split; [reflexivity|]. by repeat split.
Qed.

Lemma failed_load_writes_nothing_witness :
  exists e w',
    ScanNetData.process_single_scene example_self true "scene9"
      example_world = (Raise e, w') /\
    files w' = files example_world /\ dirs w' = dirs example_world /\
    ("_vert.npy" = "_vert.npy" ->
     e = FileNotFoundError (raw_path example_self "scene9" "_vert.npy")).
Proof.
  apply (failed_load_writes_nothing example_self true "scene9" example_world
           "_vert.npy").
  - in_list.
  - vm_compute. reflexivity.
Defined.



(** X6.  A sample id that starts with [/] makes
    [osp.join] drop the root and the directory: the three output paths of
    [process_single_scene] are the same path [<id>.bin], the three dumps
    overwrite one another, and the file is left holding the semantic mask,
    the last one written.  No other path changes. *)
Theorem absolute_sample_id_collision self has_label idx w points ins sem :
  files w !! raw_path self idx "_vert.npy" = Some (NpyFile points) ->
  files w !! raw_path self idx "_ins_label.npy" = Some (NpyFile ins) ->
  files w !! raw_path self idx "_sem_label.npy" = Some (NpyFile sem) ->
  startswith idx "/" = true ->
  let w' := (ScanNetData.process_single_scene self has_label idx w).2 in
  bin_path self "points" idx = idx +:+ ".bin" /\
  bin_path self "instance_mask" idx = idx +:+ ".bin" /\
  bin_path self "semantic_mask" idx = idx +:+ ".bin" /\
  files w' !! (idx +:+ ".bin") = Some (BinFile (astype_long sem)) /\
  (forall p, p <> idx +:+ ".bin" -> files w' !! p = files w !! p).
Proof.
  intros Hp Hi Hs Hidx. rewrite process_single_scene_effect. cbn [snd].
  rewrite (scene_world_loaded _ _ _ _ _ _ Hp Hi Hs). cbn [files].
  rewrite !bin_path_absolute by done. repeat split.
  - by rewrite lookup_insert_eq.
  - intros p Hne. by rewrite !lookup_insert_ne.
Qed.

Lemma absolute_sample_id_collision_witness :
  let w' := (ScanNetData.process_single_scene example_self false "/abs"
               partial_world).2 in
  bin_path example_self "points" "/abs" = "/abs" +:+ ".bin" /\
  bin_path example_self "instance_mask" "/abs" = "/abs" +:+ ".bin" /\
  bin_path example_self "semantic_mask" "/abs" = "/abs" +:+ ".bin" /\
  files w' !! ("/abs" +:+ ".bin") =
    Some (BinFile (astype_long (Long (Arr1 [5])))) /\
  (forall p, p <> "/abs" +:+ ".bin" ->
             files w' !! p = files partial_world !! p).
Proof.
  apply (absolute_sample_id_collision example_self false "/abs" partial_world
           (Float (Arr2 6 [of_int <$> [1; 2; 3; 4; 5; 6]]))
           (Long (Arr1 [1])) (Long (Arr1 [5])));
    vm_compute; reflexivity.
Defined.

(** X7.  With [has_label=True] and no box file for the scene,
    [process_single_scene] raises [FileNotFoundError] of
    [root/scannet_train_instance_data/<id>_bbox.npy], from [get_box_label],
    only after the dumps are written: the semantic mask dump is in the
    world it leaves.  The same scene with [has_label=False] returns its
    record. *)
Theorem missing_box_file self idx w points ins sem :
  files w !! raw_path self idx "_vert.npy" = Some (NpyFile points) ->
  files w !! raw_path self idx "_ins_label.npy" = Some (NpyFile ins) ->
  files w !! raw_path self idx "_sem_label.npy" = Some (NpyFile sem) ->
  files w !! raw_path self idx "_bbox.npy" = None ->
  exists w',
    ScanNetData.process_single_scene self true idx w =
      (Raise (FileNotFoundError (raw_path self idx "_bbox.npy")), w') /\
    files w' !! bin_path self "semantic_mask" idx =
      Some (BinFile (astype_long sem)) /\
    (ScanNetData.process_single_scene self false idx w).1 =
      Return (base_info idx).
Proof.
  intros Hp Hi Hs Hb. rewrite !process_single_scene_effect.
  unfold scene_info.
  rewrite (read_npy_Some _ _ _ Hp), (read_npy_Some _ _ _ Hi),
    (read_npy_Some _ _ _ Hs).
  cbn [mbind outcome_bind]. unfold read_npy at 1. rewrite Hb.
  eexists. split; [reflexivity|].
  rewrite (scene_world_loaded _ _ _ _ _ _ Hp Hi Hs). cbn [files].
  split; [by rewrite lookup_insert_eq|reflexivity].
Qed.

Lemma missing_box_file_witness :
  exists w',
    ScanNetData.process_single_scene example_self true "scene2"
      partial_world =
      (Raise (FileNotFoundError (raw_path example_self "scene2" "_bbox.npy")),
       w') /\
    files w' !! bin_path example_self "semantic_mask" "scene2" =
      Some (BinFile (astype_long (Long (Arr1 [5])))) /\
    (ScanNetData.process_single_scene example_self false "scene2"
       partial_world).1 = Return (base_info "scene2").
Proof.
  apply (missing_box_file example_self "scene2" partial_world
           (Float (Arr2 6 [of_int <$> [1; 2; 3; 4; 5; 6]]))
           (Long (Arr1 [1])) (Long (Arr1 [5])));
    vm_compute; reflexivity.
Defined.

Lemma convert_dump_run seg p w a :
  endswith p "npy" = false ->
  files w !! p = Some (BinFile (Long a)) ->
  ScanNetSegData._convert_to_label seg (MaskPath p) w =
    (np_take (ScanNetSegData.cat_id2class seg)
             (select_nonzero (Long (Arr1 (ravel a)))), w).
Proof.
  intros He Hf. unfold ScanNetSegData._convert_to_label.
  rewrite He, bind_run. unfold np_fromfile_long. by rewrite Hf.
Qed.

Lemma mask_path_joined root b :
  osp_join root [osp_join "semantic_mask" [b]] =
  osp_join root ["semantic_mask"; b].
Proof.
  destruct (startswith b "/") eqn:Hb.
  - rewrite (join_absolute root "semantic_mask" b Hb).
    unfold osp_join. cbn [foldl].
    by rewrite (join2_absolute "semantic_mask" b Hb), (join2_absolute root b Hb).
  - rewrite (join_plain root "semantic_mask" b plain_semantic_mask Hb).
    unfold osp_join. cbn [foldl].
    assert (E : osp_join2 "semantic_mask" b = "semantic_mask" +:+ "/" +:+ b).
    { unfold osp_join2. by rewrite Hb. }
    rewrite E. by apply join2_relative.
Qed.

(** X8.  The two classes fit together: the
    [pts_semantic_mask_path] of a record returned by
    [process_single_scene], joined to the data root as
    [get_scene_idxs_and_label_weight] does, is the path of the dump the
    call wrote, and [_convert_to_label] on that path gives what it gives
    on the scene's semantic mask array itself. *)
Theorem converted_mask_read_back self seg has_label idx w info w'
    points ins sem :
  files w !! raw_path self idx "_vert.npy" = Some (NpyFile points) ->
  files w !! raw_path self idx "_ins_label.npy" = Some (NpyFile ins) ->
  files w !! raw_path self idx "_sem_label.npy" = Some (NpyFile sem) ->
  ScanNetData.process_single_scene self has_label idx w = (Return info, w') ->
  ScanNetSegData.data_root seg = ScanNetData.root_dir self ->
  exists p,
    ScanNetSegData.mask_path_of info = Return p /\
    osp_join (ScanNetSegData.data_root seg) [p] =
      bin_path self "semantic_mask" idx /\
    ScanNetSegData._convert_to_label seg
      (MaskPath (osp_join (ScanNetSegData.data_root seg) [p])) w' =
    ScanNetSegData._convert_to_label seg (MaskArray (astype_long sem)) w'.
Proof.
  intros Hp Hi Hs Hrun Hroot. rewrite process_single_scene_effect in Hrun.
  injection Hrun as Hinfo <-.
  exists (osp_join "semantic_mask" [idx +:+ ".bin"]).
  assert (Hpath : osp_join (ScanNetSegData.data_root seg)
                    [osp_join "semantic_mask" [idx +:+ ".bin"]] =
                  bin_path self "semantic_mask" idx).
  { rewrite Hroot. apply mask_path_joined. }
  split; [|split; [exact Hpath|]].
  - unfold scene_info in Hinfo.
    rewrite (read_npy_Some _ _ _ Hp), (read_npy_Some _ _ _ Hi),
      (read_npy_Some _ _ _ Hs) in Hinfo.
    cbn [mbind outcome_bind] in Hinfo.
    unfold ScanNetSegData.mask_path_of, getitem.
    destruct has_label.
    + apply bind_Return in Hinfo as (boxes & _ & Hinfo).
      apply bind_Return in Hinfo as (ann & _ & Hinfo). injection Hinfo as <-.
      by rewrite lookup_insert_ne.
    + by injection Hinfo as <-.
  - rewrite Hpath.
    rewrite convert_array_run.
    rewrite (scene_world_loaded _ _ _ _ _ _ Hp Hi Hs).
    destruct (astype_long sem) as [a|a] eqn:Ea;
      [|destruct sem; discriminate].
    rewrite (convert_dump_run seg _ _ a).
    + reflexivity.
    + destruct (endswith (bin_path self "semantic_mask" idx) "npy") eqn:E;
        [|done].
      exfalso. by eapply npy_not_bin; [exact E|apply bin_path_bin|].
    + cbn [files]. by rewrite lookup_insert_eq.
Qed.

Lemma converted_mask_read_back_witness :
  exists p,
    ScanNetSegData.mask_path_of scene0_info = Return p /\
    osp_join (ScanNetSegData.data_root example_seg) [p] =
      bin_path example_self "semantic_mask" "scene0" /\
    ScanNetSegData._convert_to_label example_seg
      (MaskPath (osp_join (ScanNetSegData.data_root example_seg) [p]))
      scene0_run.2 =
    ScanNetSegData._convert_to_label example_seg
      (MaskArray (astype_long (Long (Arr1 [5])))) scene0_run.2.
Proof.
  apply (converted_mask_read_back example_self example_seg true "scene0"
           example_world scene0_info scene0_run.2
           (Float (Arr2 6 [of_int <$> [1; 2; 3; 4; 5; 6]]))
           (Long (Arr1 [1])) (Long (Arr1 [5])));
    vm_compute; reflexivity.
Defined.

(** ** [ScanNetData]: the effect of [get_infos] *)

Lemma apply_writes_lookup ws : forall fs p,
  apply_writes ws fs !! p =
    match last_write p ws with
    | Some f => Some f
    | None => fs !! p
    end.
Proof.
  induction ws as [|kv ws IH]; intros fs p; [reflexivity|].
  unfold apply_writes in *. cbn [foldl last_write]. rewrite IH.
  destruct (last_write p ws); [reflexivity|].
  destruct (decide (kv.1 = p)) as [<-|Hne].
  - by rewrite lookup_insert_eq.
  - by rewrite lookup_insert_ne.
Qed.

Lemma apply_writes_idempotent ws fs :
  apply_writes ws (apply_writes ws fs) = apply_writes ws fs.
Proof.
  apply map_eq. intros p. rewrite !apply_writes_lookup.
  by destruct (last_write p ws).
Qed.

Lemma apply_writes_app ws1 ws2 fs :
  apply_writes (ws1 ++ ws2) fs = apply_writes ws2 (apply_writes ws1 fs).
Proof. unfold apply_writes. by rewrite foldl_app. Qed.

Lemma scene_world_files self idx w :
  files (scene_world self idx w) =
    apply_writes (scene_writes self idx (files w)) (files w).
Proof.
  unfold scene_world, scene_writes.
  destruct (read_npy _ _); [reflexivity|].
  destruct (read_npy _ _); [reflexivity|].
  destruct (read_npy _ _); reflexivity.
Qed.

Lemma scene_world_dirs self idx w :
  dirs (scene_world self idx w) = scene_dirs self idx (files w) ∪ dirs w.
Proof.
  unfold scene_world, scene_dirs.
  destruct (read_npy _ _); [by rewrite (left_id_L ∅ (∪))|].
  destruct (read_npy _ _); [by rewrite (left_id_L ∅ (∪))|].
  destruct (read_npy _ _); [by rewrite (left_id_L ∅ (∪))|].
  cbn [dirs]. set_solver.
Qed.

Lemma scene_writes_same self idx fs1 fs2 :
  same_npy fs1 fs2 ->
  scene_writes self idx fs1 = scene_writes self idx fs2 /\
  scene_dirs self idx fs1 = scene_dirs self idx fs2.
Proof.
  intros H. unfold scene_writes, scene_dirs.
  by rewrite !(read_npy_same fs1 fs2) by (done || by apply raw_path_npy).
Qed.

Lemma scene_world_same_npy self idx w :
  same_npy (files w) (files (scene_world self idx w)).
Proof.
  destruct (process_single_scene_run self true idx w) as (w' & E & H).
  rewrite process_single_scene_effect in E. by injection E as <-.
Qed.

Lemma pool_world_same_npy self ids : forall w,
  same_npy (files w) (files (pool_world self ids w)).
Proof.
  induction ids as [|id ids IH]; intros w; [apply same_npy_refl|].
  unfold pool_world in *. cbn [foldl].
  eapply same_npy_trans; [apply scene_world_same_npy|apply IH].
Qed.

Lemma pool_world_files self ids : forall w fs0,
  same_npy fs0 (files w) ->
  files (pool_world self ids w) =
    apply_writes (concat (map (fun id => scene_writes self id fs0) ids))
                 (files w) /\
  dirs (pool_world self ids w) =
    ⋃ (map (fun id => scene_dirs self id fs0) ids) ∪ dirs w.
Proof.
  induction ids as [|id ids IH]; intros w fs0 H0.
  - split; [reflexivity|]. cbn. set_solver.
  - unfold pool_world in *. cbn [foldl map concat].
    destruct (IH (scene_world self id w) fs0) as [E1 E2].
    { eapply same_npy_trans; [exact H0|apply scene_world_same_npy]. }
    destruct (scene_writes_same self id fs0 (files w) H0) as [Ew Ed].
    rewrite E1, E2, apply_writes_app, scene_world_files, scene_world_dirs,
      Ew, Ed.
    split; [reflexivity|]. cbn [union_list foldr]. set_solver.
Qed.

Lemma executor_map_effect self has_label ids : forall w,
  ScanNetData.executor_map (ScanNetData.process_single_scene self has_label)
    ids w =
    (Return (map (fun id => scene_info self has_label id (files w)) ids),
     pool_world self ids w).
Proof.
  induction ids as [|id ids IH]; intros w; [reflexivity|].
  cbn [ScanNetData.executor_map]. rewrite bind_run.
  unfold ScanNetData.submit at 1. rewrite process_single_scene_effect.
  rewrite bind_run, IH. cbn [map]. unfold pool_world. cbn [foldl].
  replace (map (fun id' => scene_info self has_label id'
                             (files (scene_world self id w))) ids)
    with (map (fun id' => scene_info self has_label id' (files w)) ids);
    [reflexivity|].
  apply map_ext. intros id'. apply scene_info_same, scene_world_same_npy.
Qed.

Lemma get_infos_effect self num_workers has_label sample_id_list w :
  0 < num_workers ->
  ScanNetData.get_infos self num_workers has_label sample_id_list w =
    (ScanNetData.list_results
       (map (fun id => scene_info self has_label id (files w))
            (default (ScanNetData.sample_id_list self) sample_id_list)),
     pool_world self
       (default (ScanNetData.sample_id_list self) sample_id_list) w).
Proof.
  intros Hn. unfold ScanNetData.get_infos, ScanNetData.ThreadPoolExecutor.
  destruct (Z.leb_spec num_workers 0) as [?|_]; [lia|].
  set (ids := match sample_id_list with Some l => l | None => _ end).
  replace (default _ sample_id_list) with ids by (by destruct sample_id_list).
  rewrite bind_run. cbn [mret IO_ret]. cbv beta iota.
  rewrite bind_run, executor_map_effect. reflexivity.
Qed.

(** X9.  [get_infos] is idempotent on the file system: a
    second call with the same arguments in the world the first call left
    gives the same result (the same records, or the same exception) and
    leaves the same files and directories. *)
Theorem get_infos_idempotent self num_workers has_label sample_id_list w
    r1 w1 :
  ScanNetData.get_infos self num_workers has_label sample_id_list w =
    (r1, w1) ->
  exists w2,
    ScanNetData.get_infos self num_workers has_label sample_id_list w1 =
      (r1, w2) /\
    files w2 = files w1 /\ dirs w2 = dirs w1.
Proof.
  intros H1. destruct (Z.leb_spec num_workers 0) as [Hn|Hn].
  { rewrite get_infos_no_workers in H1 by done. injection H1 as <- <-.
    exists w. by rewrite get_infos_no_workers. }
  rewrite get_infos_effect in H1 by done. injection H1 as <- <-.
  set (ids := default (ScanNetData.sample_id_list self) sample_id_list).
  pose proof (pool_world_same_npy self ids w) as Hsame.
  eexists. split; [|split].
  - rewrite get_infos_effect by done. fold ids. f_equal. f_equal.
    apply map_ext. intros id. symmetry. by apply scene_info_same.
  - destruct (pool_world_files self ids w (files w) (same_npy_refl _))
      as [E1 _].
    destruct (pool_world_files self ids (pool_world self ids w) (files w) Hsame)
      as [E2 _].
    rewrite E2, E1. apply apply_writes_idempotent.
  - destruct (pool_world_files self ids w (files w) (same_npy_refl _))
      as [_ E1].
    destruct (pool_world_files self ids (pool_world self ids w) (files w) Hsame)
      as [_ E2].
    rewrite E2, E1. set_solver.
Qed.

Lemma get_infos_idempotent_witness :
  exists w2,
    ScanNetData.get_infos example_self 4 true None example_run.2 =
      (example_run.1, w2) /\
    files w2 = files example_run.2 /\ dirs w2 = dirs example_run.2.
Proof.
  apply (get_infos_idempotent example_self 4 true None example_world
           example_run.1 example_run.2).
  unfold example_run. by destruct (ScanNetData.get_infos _ _ _ _ _).
Defined.

(** ** [ScanNetData]: what [get_infos] leaves on disk *)










(** X11.  The files, the directories and the
    lines printed by [get_infos] are the same with [has_label=True] and
    with [has_label=False]: the labels change the result only. *)
Theorem get_infos_effects_ignore_labels self num_workers sample_id_list w :
  (ScanNetData.get_infos self num_workers true sample_id_list w).2 =
  (ScanNetData.get_infos self num_workers false sample_id_list w).2.
Proof.
  destruct (Z.leb_spec num_workers 0) as [Hn|Hn].
  - by rewrite !get_infos_no_workers.
  - by rewrite !get_infos_effect.
Qed.

(** X2.  When the split is valid and the split file holds text
    lines, [ScanNetData.__init__] returns an object whose [sample_id_list]
    is these lines, whose length ([__len__]) is their number, and it
    changes nothing in the world.  Every list of info records that
    [get_infos] returns for this object without an explicit
    [sample_id_list] has [__len__] entries. *)
Theorem init_loads_split root split w lines :
  split ∈ ["train"; "val"; "test"] ->
  files w !! split_file root split = Some (TextFile lines) ->
  exists self,
    ScanNetData.__init__ root split w = (Return self, w) /\
    ScanNetData.sample_id_list self = lines /\
    ScanNetData.__len__ self = length lines /\
    ScanNetData.root_dir self = root /\
    ScanNetData.split self = split /\
    forall num_workers has_label w1 infos w2,
      ScanNetData.get_infos self num_workers has_label None w1 =
        (Return infos, w2) ->
      length infos = ScanNetData.__len__ self.
Proof.
  intros Hs Hf. rewrite init_tables_run, bool_decide_eq_true_2 by done.
  cbn [negb]. rewrite Hf. eexists. split; [reflexivity|].
  repeat split. intros num_workers has_label w1 infos w2 Hrun.
  destruct (Z.leb_spec num_workers 0) as [Hn|Hn].
  { by rewrite get_infos_no_workers in Hrun. }
  rewrite get_infos_effect in Hrun by done. injection Hrun as Hrun _.
  apply comprehension_length in Hrun. rewrite length_map in Hrun.
  exact Hrun.
Qed.

Lemma init_loads_split_witness :
  exists self,
    ScanNetData.__init__ "data" "train" example_world =
      (Return self, example_world) /\
    ScanNetData.sample_id_list self = ["scene0"; "scene1"] /\
    ScanNetData.__len__ self = 2%nat /\
    ScanNetData.root_dir self = "data" /\
    ScanNetData.split self = "train" /\
    forall num_workers has_label w1 infos w2,
      ScanNetData.get_infos self num_workers has_label None w1 =
        (Return infos, w2) ->
      length infos = ScanNetData.__len__ self.
Proof.
  apply (init_loads_split "data" "train" example_world ["scene0"; "scene1"]).
  - in_list.
  - vm_compute. reflexivity.
Defined.

(** ** [ScanNetSegData.__init__] *)


(** ** [ScanNetSegData]: the range of the labels *)

Lemma table_item_wrapped z :
  -41 <= z <= 40 -> table_item z = Return (seg_class (wrapped_id z)).
Proof.
  intros Hz.
  assert (Hall : forallb (fun z => match table_item z with
                                   | Return v => v =? seg_class (wrapped_id z)
                                   | Raise _ => false
                                   end)
                         ((fun n => Z.of_nat n - 41) <$> seq 0 82) = true)
    by (vm_compute; reflexivity).
  rewrite forallb_forall in Hall. specialize (Hall z).
  assert (Hin : In z ((fun n => Z.of_nat n - 41) <$> seq 0 82)).
  { apply in_map_iff. exists (Z.to_nat (z + 41)). split; [lia|].
    apply in_seq. lia. }
  specialize (Hall Hin). destruct (table_item z) as [e|v]; [discriminate|].
  f_equal. by apply Z.eqb_eq.
Qed.

Lemma table_item_range z v : table_item z = Return v -> 0 <= v <= 20.
Proof.
  unfold table_item. intros H.
  apply bind_Return in H as (i & _ & H).
  assert (Hall : Forall (fun v => 0 <= v <= 20) seg_table).
  { apply Forall_forall. intros x Hx.
    assert (Hb : forallb (fun v => (0 <=? v) && (v <=? 20)) seg_table = true)
      by reflexivity.
    rewrite forallb_forall in Hb. specialize (Hb x).
    apply andb_prop in Hb as [H1 H2]; [lia|]. by apply list_elem_of_In. }
  destruct (seg_table !! i) as [x|] eqn:E; [|discriminate].
  injection H as <-. rewrite Forall_forall in Hall. apply Hall.
  by eapply list_elem_of_lookup_2.
Qed.

Lemma np_take_table (l : list Z) a :
  np_take seg_table (Long (Arr1 l)) = Return a ->
  exists l', a = Long (Arr1 l') /\ length l' = length l /\
             Forall (fun v => 0 <= v <= 20) l'.
Proof.
  unfold np_take.
  change (fun k : Z => i ← np_index (length seg_table) k;
                       of_option IndexError (seg_table !! i)) with table_item.
  destruct (comprehension table_item l) as [e|l'] eqn:E; [discriminate|].
  intros [= <-]. exists l'. split; [done|]. split.
  - by apply comprehension_length in E.
  - apply Forall_forall. intros v Hv.
    apply list_elem_of_lookup in Hv as [i Hi].
    assert (Hlen : (i < length l)%nat).
    { apply comprehension_length in E. rewrite <- E. by eapply lookup_lt_Some. }
    destruct (lookup_lt_is_Some_2 _ _ Hlen) as [z Hz].
    destruct (comprehension_lookup _ _ _ _ _ E Hz) as (y & Hy & Hitem).
    rewrite Hi in Hy. injection Hy as <-. by eapply table_item_range.
Qed.

Lemma convert_to_label_world seg mask w :
  (ScanNetSegData._convert_to_label seg mask w).2 = w.
Proof.
  unfold ScanNetSegData._convert_to_label. rewrite bind_run.
  destruct mask as [p|a].
  - destruct (endswith p "npy").
    + rewrite np_load_run. by destruct (read_npy _ _).
    + unfold np_fromfile_long.
      destruct (files w !! p) as [[| |[]|]|]; reflexivity.
  - reflexivity.
Qed.

Lemma convert_to_label_loaded seg mask w a w' :
  ScanNetSegData._convert_to_label seg mask w = (Return a, w') ->
  exists m, np_take (ScanNetSegData.cat_id2class seg) (select_nonzero m) =
              Return a.
Proof.
  unfold ScanNetSegData._convert_to_label. intros H.
  apply IO_bind_Return in H as (m & w1 & _ & H). exists m.
  unfold lift in H. by injection H as ->.
Qed.

(** X13.  Whatever the mask (a path or an array),
    [_convert_to_label] of an initialised object changes nothing in the
    world, and when it returns, the result is a one-dimensional integer
    array whose entries all lie between 0 and [ignore_index]. *)
Theorem labels_in_range np_log data_root ann_file split num_points lwf w0
    seg w1 mask w a w' :
  ScanNetSegData.__init__ np_log data_root ann_file split num_points lwf w0 =
    (Return seg, w1) ->
  ScanNetSegData._convert_to_label seg mask w = (Return a, w') ->
  w' = w /\
  exists l, a = Long (Arr1 l) /\
    Forall (fun v => 0 <= v <= Z.of_nat (ScanNetSegData.ignore_index seg)) l /\
    nd_shape0 a = length l.
Proof.
  intros Hinit Hrun. split.
  { pose proof (convert_to_label_world seg mask w) as E.
    by rewrite Hrun in E. }
  apply convert_to_label_loaded in Hrun as [m Hm].
  apply seg_init_inv in Hinit as [infos ->].
  cbn [ScanNetSegData.cat_id2class ScanNetSegData.ignore_index] in *.
  destruct m as [x|x]; cbn [select_nonzero] in Hm; [|discriminate].
  apply np_take_table in Hm as (l' & -> & _ & Hl').
  exists l'. by repeat split.
Qed.

Lemma labels_in_range_witness :
  small_world = small_world /\
  exists l, Long (Arr1 [2; 20; 20]) = Long (Arr1 l) /\
    Forall (fun v => 0 <= v <=
              Z.of_nat (ScanNetSegData.ignore_index (small_seg small_infos 2)))
           l /\
    nd_shape0 (Long (Arr1 [2; 20; 20])) = length l.
Proof.
  apply (labels_in_range ln_approx "data" "data/small.pkl" "train" 2 None
           small_world (small_seg small_infos 2) small_world
           (MaskPath "data/semantic_mask/a.bin") small_world
           (Long (Arr1 [2; 20; 20])) small_world);
    vm_compute; reflexivity.
Defined.

(** X14.  Negative class ids are not rejected: for ids
    between -41 and 40, [_convert_to_label] drops the zeros and gives each
    remaining id [z] the class of [z + 41] when [z] is negative (numpy
    indexing from the end of the table), the class of [z] otherwise. *)
Theorem negative_ids_wrap np_log data_root ann_file split num_points lwf w0
    seg w1 (l : list Z) w :
  ScanNetSegData.__init__ np_log data_root ann_file split num_points lwf w0 =
    (Return seg, w1) ->
  Forall (fun z => -41 <= z <= 40) l ->
  ScanNetSegData._convert_to_label seg (MaskArray (Long (Arr1 l))) w =
    (Return (Long (Arr1 ((fun z => seg_class (wrapped_id z))
                           <$> filter (fun z => z <> 0) l))), w).
Proof.
  intros Hinit Hl. apply seg_init_inv in Hinit as [infos ->].
  rewrite convert_array_run.
  cbn [ScanNetSegData.cat_id2class select_nonzero ravel]. unfold np_take.
  change (fun k : Z => i ← np_index (length seg_table) k;
                       of_option IndexError (seg_table !! i)) with table_item.
  assert (E : forall l0, Forall (fun z => -41 <= z <= 40) l0 ->
            comprehension table_item l0 =
              Return ((fun z => seg_class (wrapped_id z)) <$> l0)).
  { intros l0 H0. induction H0 as [|z l0 Hz _ IH]; [reflexivity|].
    cbn [comprehension]. by rewrite (table_item_wrapped z Hz), IH. }
  rewrite E; [reflexivity|].
  rewrite Forall_forall in Hl. apply Forall_forall. intros z Hz.
  apply list_elem_of_filter in Hz as [_ Hz]. by apply Hl.
Qed.

Lemma negative_ids_wrap_witness :
  ScanNetSegData._convert_to_label (small_seg small_infos 2)
    (MaskArray (Long (Arr1 [3; 0; 13; -1; -41; -2]))) small_world =
    (Return (Long (Arr1 ((fun z => seg_class (wrapped_id z))
                           <$> filter (fun z => z <> 0)
                                 [3; 0; 13; -1; -41; -2]))), small_world).
Proof.
  apply (negative_ids_wrap ln_approx "data" "data/small.pkl" "train" 2 None
           small_world (small_seg small_infos 2) small_world
           [3; 0; 13; -1; -41; -2] small_world).
  - vm_compute. reflexivity.
  - repeat constructor; lia.
Defined.

(** ** [ScanNetSegData]: the histogram of the labels *)

Lemma np_sum_app l1 l2 :
  ScanNetSegData.np_sum (l1 ++ l2) =
  ScanNetSegData.np_sum l1 + ScanNetSegData.np_sum l2.
Proof. induction l1 as [|x l1 IH]; simpl; lia. Qed.

Lemma np_sum_zip_add : forall l1 l2,
  length l1 = length l2 ->
  ScanNetSegData.np_sum (zip_with Z.add l1 l2) =
  ScanNetSegData.np_sum l1 + ScanNetSegData.np_sum l2.
Proof.
  induction l1 as [|x l1 IH]; intros [|y l2] Hlen; simpl in *; try lia.
  rewrite IH by lia. lia.
Qed.

Lemma fadd_of_int a b : fadd (of_int a) (of_int b) = of_int (a + b).
Proof.
  unfold fadd, of_int, Qplus, inject_Z. cbn [Qnum Qden].
  do 2 f_equal. lia.
Qed.

Lemma zip_fadd_of_int : forall l1 l2,
  zip_with fadd (of_int <$> l1) (of_int <$> l2) =
  of_int <$> zip_with Z.add l1 l2.
Proof.
  induction l1 as [|x l1 IH]; intros [|y l2]; try reflexivity.
  cbn [fmap list_fmap zip_with]. f_equal; [apply fadd_of_int|apply IH].
Qed.

(** *** One bin of the histogram *)

Lemma length_filter_ext {A} (P Q : A -> Prop)
    `{forall x, Decision (P x)} `{forall x, Decision (Q x)} (l : list A) :
  Forall (fun x => P x <-> Q x) l ->
  length (filter P l) = length (filter Q l).
Proof.
  induction 1 as [|x l Hx _ IH]; [reflexivity|].
  rewrite !filter_cons.
  destruct (decide (P x)), (decide (Q x)); simpl; tauto || lia.
Qed.

Lemma histogram_bin data m i :
  (i < m)%nat ->
  Forall (fun x => 0 <= x < Z.of_nat m) data ->
  np_histogram data (Z.of_nat <$> seq 0 (S m)) !! i =
    Some (Z.of_nat (length (filter (fun x => x = Z.of_nat i) data))).
Proof.
  intros Hi Hdata. unfold np_histogram.
  rewrite list_lookup_imap, lookup_zip_with.
  rewrite list_lookup_fmap, lookup_seq_lt by lia.
  cbn [fmap option_fmap option_map mbind option_bind].
  change (tail (Z.of_nat <$> seq 0 (S m))) with (Z.of_nat <$> seq 1 m).
  rewrite list_lookup_fmap, lookup_seq_lt by lia.
  cbn [fmap option_fmap option_map mbind option_bind fst snd].
  rewrite length_fmap, length_seq. do 2 f_equal.
  apply length_filter_ext. eapply Forall_impl; [exact Hdata|].
  intros x Hx. cbn beta in Hx. lia.
Qed.

Lemma indicator_sum x m :
  0 <= x ->
  ScanNetSegData.np_sum
    ((fun i => if decide (x = Z.of_nat i) then 1 else 0) <$> seq 0 m) =
  if decide (x < Z.of_nat m) then 1 else 0.
Proof.
  intros Hx. induction m as [|m IH].
  - simpl. destruct (decide _); lia.
  - rewrite seq_S, fmap_app, np_sum_app, IH. simpl.
    repeat destruct (decide _); lia.
Qed.

Lemma count_sum data m :
  Forall (fun x => 0 <= x < Z.of_nat m) data ->
  ScanNetSegData.np_sum
    ((fun i => Z.of_nat (length (filter (fun x => x = Z.of_nat i) data)))
       <$> seq 0 m) = Z.of_nat (length data).
Proof.
  induction 1 as [|x data Hx _ IH].
  - induction (seq 0 m) as [|i l IHl]; [reflexivity|].
    unfold ScanNetSegData.np_sum in *. cbn [fmap list_fmap foldr].
    rewrite IHl. reflexivity.
  - transitivity
      (ScanNetSegData.np_sum
         (zip_with Z.add
            ((fun i => if decide (x = Z.of_nat i) then 1 else 0) <$> seq 0 m)
            ((fun i => Z.of_nat (length (filter (fun x => x = Z.of_nat i) data)))
               <$> seq 0 m))).
    + f_equal. generalize (seq 0 m). intros l.
      induction l as [|i l IHl]; [reflexivity|].
      cbn [fmap list_fmap zip_with]. f_equal; [|exact IHl].
      rewrite filter_cons. destruct (decide (x = Z.of_nat i)); simpl; lia.
    + rewrite np_sum_zip_add by (by rewrite !length_fmap).
      rewrite IH, indicator_sum by lia.
      destruct (decide _); cbn [length]; lia.
Qed.

Lemma histogram_counts data m :
  Forall (fun x => 0 <= x < Z.of_nat m) data ->
  np_histogram data (Z.of_nat <$> seq 0 (S m)) =
    (fun i => Z.of_nat (length (filter (fun x => x = Z.of_nat i) data)))
      <$> seq 0 m.
Proof.
  intros Hdata. apply list_eq. intros i.
  destruct (decide (i < m)%nat) as [Hi|Hi].
  - rewrite histogram_bin by done.
    by rewrite list_lookup_fmap, lookup_seq_lt.
  - rewrite !lookup_ge_None_2; [done|..].
    + rewrite length_fmap, length_seq. lia.
    + rewrite np_histogram_length, length_fmap, length_seq. lia.
Qed.

Lemma histogram_total data m :
  Forall (fun x => 0 <= x < Z.of_nat m) data ->
  ScanNetSegData.np_sum (np_histogram data (Z.of_nat <$> seq 0 (S m))) =
    Z.of_nat (length data).
Proof. intros H. rewrite histogram_counts by done. by apply count_sum. Qed.

Lemma histogram_nonneg data edges :
  Forall (fun c => 0 <= c) (np_histogram data edges).
Proof.
  unfold np_histogram. apply Forall_forall. intros c Hc.
  apply list_elem_of_lookup in Hc as [i Hi].
  rewrite list_lookup_imap in Hi.
  destruct (zip edges (tail edges) !! i); [|discriminate].
  injection Hi as <-. lia.
Qed.

Lemma for_each_invariant {A S} (body : S -> A -> IO S)
    (I : S -> world -> Prop) :
  (forall s x w s' w', I s w -> body s x w = (Return s', w') -> I s' w') ->
  forall l s w s' w',
    I s w -> for_each body l s w = (Return s', w') -> I s' w'.
Proof.
  intros Hbody. induction l as [|x l IH]; intros s w s' w' Hs H.
  - by injection H as <- <-.
  - cbn [for_each] in H. apply IO_bind_Return in H as (s1 & w1 & H1 & H).
    eapply IH; [|exact H]. by eapply Hbody.
Qed.

Lemma convert_labels seg mask w a w' :
  ScanNetSegData.cat_id2class seg = seg_table ->
  ScanNetSegData._convert_to_label seg mask w = (Return a, w') ->
  w' = w /\
  exists l, a = Long (Arr1 l) /\ Forall (fun v => 0 <= v <= 20) l.
Proof.
  intros Htbl Hrun. split.
  { pose proof (convert_to_label_world seg mask w) as E.
    by rewrite Hrun in E. }
  apply convert_to_label_loaded in Hrun as [m Hm]. rewrite Htbl in Hm.
  destruct m as [x|x]; cbn [select_nonzero] in Hm; [|discriminate].
  apply np_take_table in Hm as (l' & -> & _ & Hl'). by exists l'.
Qed.

Lemma histogram_state_step seg w st info wc st' wc' :
  ScanNetSegData.cat_id2class seg = seg_table ->
  histogram_state w st wc ->
  (p ← lift (ScanNetSegData.mask_path_of info);
   label ← ScanNetSegData._convert_to_label seg
             (MaskPath (osp_join (ScanNetSegData.data_root seg) [p]));
   mret (st.1 ++ [Z.of_nat (nd_shape0 label)],
         zip_with fadd st.2
           (of_int <$> np_histogram (nd_longs label)
                         (Z.of_nat <$> seq 0 (20 + 2))))) wc = (Return st', wc') ->
  histogram_state w st' wc'.
Proof.
  intros Htbl (-> & Hc & bins & Hst & Hlen & Hnn & Hsum) H.
  apply IO_bind_Return in H as (p & w2 & Hp & H).
  unfold lift in Hp. injection Hp as _ <-.
  apply IO_bind_Return in H as (label & w3 & Hconv & H).
  apply convert_labels in Hconv as (-> & l & -> & Hl); [|exact Htbl].
  injection H as <- <-. cbn [nd_shape0 shape0 nd_longs ravel].
  split; [reflexivity|]. cbn [fst snd]. split.
  { apply Forall_app. split; [exact Hc|]. constructor; [lia|constructor]. }
  exists (zip_with Z.add bins (np_histogram l (Z.of_nat <$> seq 0 (20 + 2)))).
  assert (Hhl : length (np_histogram l (Z.of_nat <$> seq 0 (20 + 2))) = 21%nat).
  { by rewrite np_histogram_length, length_fmap, length_seq. }
  rewrite Hst. split.
  { transitivity (zip_with fadd (of_int <$> bins)
                    (of_int <$> np_histogram l (Z.of_nat <$> seq 0 (20 + 2))));
      [reflexivity|apply zip_fadd_of_int]. }
  split.
  { rewrite length_zip_with. lia. }
  split.
  { apply Forall_forall. intros c Hc'.
    apply list_elem_of_lookup in Hc' as [i Hi].
    apply lookup_zip_with_Some in Hi as (a & b & -> & Ha & Hb).
    rewrite Forall_forall in Hnn.
    pose proof (Hnn a (list_elem_of_lookup_2 _ _ _ Ha)).
    pose proof (histogram_nonneg l (Z.of_nat <$> seq 0 (20 + 2))) as Hh.
    rewrite Forall_forall in Hh.
    pose proof (Hh b (list_elem_of_lookup_2 _ _ _ Hb)). lia. }
  assert (Ht : ScanNetSegData.np_sum
                 (np_histogram l (Z.of_nat <$> seq 0 (20 + 2))) =
               Z.of_nat (length l)).
  { apply (histogram_total l 21).
    eapply Forall_impl; [exact Hl|]. intros v Hv. cbn beta in Hv. lia. }
  rewrite np_sum_zip_add, np_sum_app, Hsum, Ht by lia.
  unfold ScanNetSegData.np_sum at 3. simpl. lia.
Qed.

(** X15.  The loop of
    [get_scene_idxs_and_label_weight] over the info records changes
    nothing in the world and, when it succeeds, leaves one point count for
    each record and a histogram of 21 bins of non-negative integers whose
    total is the total number of points: every point is counted in
    exactly one bin, the last bin included. *)
Theorem histogram_total_mass np_log data_root ann_file split num_points lwf
    w0 seg w1 w counts hist w' :
  ScanNetSegData.__init__ np_log data_root ann_file split num_points lwf w0 =
    (Return seg, w1) ->
  ScanNetSegData.load_labels seg w = (Return (counts, hist), w') ->
  w' = w /\
  length counts = length (ScanNetSegData.data_infos seg) /\
  Forall (fun n => 0 <= n) counts /\
  exists bins : list Z,
    hist = of_int <$> bins /\
    length bins = 21%nat /\
    Forall (fun c => 0 <= c) bins /\
    ScanNetSegData.np_sum bins = ScanNetSegData.np_sum counts.
Proof.
  intros Hinit Hload.
  destruct (load_labels_lengths _ _ _ _ _ Hload) as [Hlen _].
  apply seg_init_inv in Hinit as [infos ->].
  unfold ScanNetSegData.load_labels in Hload.
  cbn [ScanNetSegData.cat_ids] in Hload.
  change (length ScanNetSegData.seg_cat_ids) with 20%nat in Hload.
  apply (for_each_invariant _ (histogram_state w)) in Hload.
  - destruct Hload as (-> & Hc & Hbins). by repeat split.
  - intros st info wc st' wc' Hst H.
    by eapply histogram_state_step; [|exact Hst|exact H].
  - split; [reflexivity|]. split; [constructor|].
    exists (replicate 21 0). repeat split.
    apply Forall_forall. intros c Hc. apply elem_of_replicate in Hc as [-> _].
    lia.
Qed.

Lemma histogram_total_mass_witness :
  small_world = small_world /\
  length (stats_of (small_seg small_infos 2) small_world).1 =
    length (ScanNetSegData.data_infos (small_seg small_infos 2)) /\
  Forall (fun n => 0 <= n) (stats_of (small_seg small_infos 2) small_world).1 /\
  exists bins : list Z,
    (stats_of (small_seg small_infos 2) small_world).2 = of_int <$> bins /\
    length bins = 21%nat /\
    Forall (fun c => 0 <= c) bins /\
    ScanNetSegData.np_sum bins =
      ScanNetSegData.np_sum (stats_of (small_seg small_infos 2) small_world).1.
Proof.
  apply (histogram_total_mass ln_approx "data" "data/small.pkl" "train" 2 None
           small_world (small_seg small_infos 2) small_world small_world
           (stats_of (small_seg small_infos 2) small_world).1
           (stats_of (small_seg small_infos 2) small_world).2 small_world);
    vm_compute; reflexivity.
Defined.

(** ** [ScanNetSegData]: what the statistics pass leaves untouched *)

Lemma for_each_world {A S} (body : S -> A -> IO S) :
  (forall s x w, (body s x w).2 = w) ->
  forall l s w, (for_each body l s w).2 = w.
Proof.
  intros Hbody. induction l as [|x l IH]; intros s w; [reflexivity|].
  cbn [for_each]. rewrite bind_run.
  pose proof (Hbody s x w) as Hw.
  destruct (body s x w) as [[e|s1] w1]; cbn [snd] in Hw; subst w1;
    [reflexivity|apply IH].
Qed.

Lemma load_labels_world seg w : (ScanNetSegData.load_labels seg w).2 = w.
Proof.
  unfold ScanNetSegData.load_labels. apply for_each_world.
  clear. intros st info w. rewrite bind_run. unfold lift at 1.
  destruct (ScanNetSegData.mask_path_of info) as [e|p]; [reflexivity|].
  rewrite bind_run.
  pose proof (convert_to_label_world seg
                (MaskPath (osp_join (ScanNetSegData.data_root seg) [p])) w) as Hw.
  destruct (ScanNetSegData._convert_to_label _ _ _) as [[e|label] w1];
    cbn [snd] in Hw; subst w1; reflexivity.
Qed.

Lemma load_labels_nonneg seg w counts hist w' :
  ScanNetSegData.load_labels seg w = (Return (counts, hist), w') ->
  Forall (fun n => 0 <= n) counts.
Proof.
  unfold ScanNetSegData.load_labels. intros H.
  apply (for_each_invariant _ (fun st _ => Forall (fun n => 0 <= n) st.1))
    in H; [exact H| |constructor].
  clear. intros st info w st' w' Hst H.
  apply IO_bind_Return in H as (p & w1 & _ & H).
  apply IO_bind_Return in H as (label & w2 & _ & H).
  injection H as <- _. cbn [fst]. apply Forall_app. split; [exact Hst|].
  constructor; [lia|constructor].
Qed.

Lemma statistics_world seg w :
  (ScanNetSegData.get_scene_idxs_and_label_weight seg w).2 = w.
Proof.
  unfold ScanNetSegData.get_scene_idxs_and_label_weight. rewrite bind_run.
  pose proof (load_labels_world seg w) as Hw.
  destruct (ScanNetSegData.load_labels seg w) as [[e|st] w1];
    cbn [snd] in Hw; subst w1; [reflexivity|].
  rewrite bind_run. unfold lift at 1.
  destruct (ScanNetSegData.resample _ _ _) as [e|idxs]; [reflexivity|].
  rewrite bind_run. unfold lift at 1.
  destruct (ScanNetSegData.weigh seg st.2); reflexivity.
Qed.

(** X16.  [_convert_to_label] and
    [get_scene_idxs_and_label_weight] only read: whether they return or
    raise, files, directories and standard output are as before. *)
Theorem statistics_read_only seg mask w :
  (ScanNetSegData._convert_to_label seg mask w).2 = w /\
  (ScanNetSegData.get_scene_idxs_and_label_weight seg w).2 = w.
Proof. split; [apply convert_to_label_world|apply statistics_world]. Qed.

(** ** [ScanNetSegData]: [get_seg_infos] *)

Lemma startswith_slash_app s t :
  startswith t "/" = false ->
  startswith (s +:+ t) "/" = startswith s "/".
Proof.
  intros Ht. destruct s as [|c s]; [exact Ht|].
  unfold startswith. apply bool_decide_ext. cbn.
  split; intros H; apply prefix_cons_inv_1 in H as <-;
    apply prefix_cons, prefix_nil.
Qed.

Lemma join2_suffix_inj folder s t1 t2 :
  startswith t1 "/" = false -> startswith t2 "/" = false ->
  osp_join2 folder (s +:+ t1) = osp_join2 folder (s +:+ t2) -> t1 = t2.
Proof.
  intros H1 H2. unfold osp_join2.
  rewrite !startswith_slash_app by done.
  intros E. apply chars_inj.
  destruct (startswith s "/");
    [|destruct (bool_decide (folder = "") || endswith folder "/")];
    apply (f_equal chars) in E; rewrite !chars_app in E;
    repeat apply app_inv_head in E; exact E.
Qed.

Lemma seg_info_paths_distinct seg :
  seg_info_path seg "_resampled_scene_idxs.npy" <>
  seg_info_path seg "_label_weight.npy".
Proof.
  unfold seg_info_path, osp_join. cbn [foldl]. intros E.
  apply join2_suffix_inj in E; [discriminate|reflexivity|reflexivity].
Qed.

Lemma get_seg_infos_run seg w :
  ScanNetSegData.get_seg_infos seg w =
    match ScanNetSegData.get_scene_idxs_and_label_weight seg w with
    | (Raise e, _) => (Raise e, w)
    | (Return r, _) =>
        (Return tt,
         World (<[seg_info_path seg "_label_weight.npy" := NpyFile r.2]>
                (<[seg_info_path seg "_resampled_scene_idxs.npy" :=
                     NpyFile r.1]> (files w)))
               ({[osp_join (ScanNetSegData.data_root seg) ["seg_info"]]} ∪
                dirs w)
               (stdout w ++
                [ScanNetSegData.split seg +:+
                 " resampled scene index and label weight saved"]))
    end.
Proof.
  unfold ScanNetSegData.get_seg_infos. rewrite bind_run.
  pose proof (statistics_world seg w) as Hw.
  destruct (ScanNetSegData.get_scene_idxs_and_label_weight seg w)
    as [[e|r] w1]; cbn [snd] in Hw; subst w1; [reflexivity|].
  rewrite bind_run, mkdir_or_exist_nonempty
    by (apply join_nonempty; discriminate).
  reflexivity.
Qed.

(** X17.  When the statistics are computed,
    [get_seg_infos] returns and the two arrays can be loaded back:
    [np.load] of [data_root/seg_info/<split>_resampled_scene_idxs.npy]
    gives the scene indices and of
    [data_root/seg_info/<split>_label_weight.npy] the label weights (the
    two paths never coincide).  No other file changes, the directory
    [seg_info] exists, and one line is printed. *)
Theorem seg_infos_saved seg w idxs lw w1 :
  ScanNetSegData.get_scene_idxs_and_label_weight seg w =
    (Return (idxs, lw), w1) ->
  exists w',
    ScanNetSegData.get_seg_infos seg w = (Return tt, w') /\
    np_load (seg_info_path seg "_resampled_scene_idxs.npy") w' =
      (Return idxs, w') /\
    np_load (seg_info_path seg "_label_weight.npy") w' = (Return lw, w') /\
    (forall p, p <> seg_info_path seg "_resampled_scene_idxs.npy" ->
               p <> seg_info_path seg "_label_weight.npy" ->
               files w' !! p = files w !! p) /\
    osp_join (ScanNetSegData.data_root seg) ["seg_info"] ∈ dirs w' /\
    stdout w' =
      stdout w ++ [ScanNetSegData.split seg +:+
                   " resampled scene index and label weight saved"].
Proof.
  intros Hrun. rewrite get_seg_infos_run, Hrun. cbn [fst snd].
  eexists. split; [reflexivity|].
  pose proof (seg_info_paths_distinct seg) as Hne.
  unfold np_load. cbn [files dirs stdout].
  rewrite lookup_insert_ne, !lookup_insert_eq by congruence.
  repeat split.
  - intros p H1 H2. by rewrite !lookup_insert_ne.
  - set_solver.
Qed.

Lemma seg_infos_saved_witness :
  exists w',
    ScanNetSegData.get_seg_infos (small_seg small_infos 2) small_world =
      (Return tt, w') /\
    np_load (seg_info_path (small_seg small_infos 2)
               "_resampled_scene_idxs.npy") w' =
      (Return small_result.1, w') /\
    np_load (seg_info_path (small_seg small_infos 2) "_label_weight.npy") w' =
      (Return small_result.2, w') /\
    (forall p,
       p <> seg_info_path (small_seg small_infos 2)
              "_resampled_scene_idxs.npy" ->
       p <> seg_info_path (small_seg small_infos 2) "_label_weight.npy" ->
       files w' !! p = files small_world !! p) /\
    osp_join (ScanNetSegData.data_root (small_seg small_infos 2)) ["seg_info"]
      ∈ dirs w' /\
    stdout w' =
      stdout small_world ++
        [ScanNetSegData.split (small_seg small_infos 2) +:+
         " resampled scene index and label weight saved"].
Proof.
  apply (seg_infos_saved (small_seg small_infos 2) small_world
           small_result.1 small_result.2 small_world).
  vm_compute. reflexivity.
Defined.

(** X18.  When [get_scene_idxs_and_label_weight] raises,
    [get_seg_infos] raises the same exception and leaves the world as it
    was: no directory is made, nothing is saved or printed. *)
Theorem seg_infos_failure seg w e w1 :
  ScanNetSegData.get_scene_idxs_and_label_weight seg w = (Raise e, w1) ->
  ScanNetSegData.get_seg_infos seg w = (Raise e, w).
Proof. intros Hrun. by rewrite get_seg_infos_run, Hrun. Qed.

Lemma seg_infos_failure_witness :
  ScanNetSegData.get_seg_infos (small_seg [base_info "z"] 2) small_world =
    (Raise ValueError, small_world).
Proof.
  apply (seg_infos_failure (small_seg [base_info "z"] 2) small_world
           ValueError small_world).
  vm_compute. reflexivity.
Defined.

(** ** [ScanNetSegData]: degenerate totals *)

Lemma np_sum_zero_head c counts :
  Forall (fun n => 0 <= n) (c :: counts) ->
  ScanNetSegData.np_sum (c :: counts) = 0 -> c = 0.
Proof.
  intros H Hs. apply Forall_cons in H as [Hc H].
  assert (0 <= ScanNetSegData.np_sum counts).
  { clear -H. induction H as [|x l Hx _ IH]; cbn; [lia|].
    unfold ScanNetSegData.np_sum in IH. lia. }
  cbn in Hs. unfold ScanNetSegData.np_sum in *. lia.
Qed.

Lemma np_sum_nonneg counts :
  Forall (fun n => 0 <= n) counts -> 0 <= ScanNetSegData.np_sum counts.
Proof.
  induction 1 as [|x l Hx _ IH]; cbn; [lia|].
  unfold ScanNetSegData.np_sum in IH. lia.
Qed.

Lemma resample_zero_num_points n counts :
  ScanNetSegData.resample n counts 0 =
    Raise (if ScanNetSegData.np_sum counts =? 0 then ValueError
           else OverflowError).
Proof.
  rewrite resample_unfold. unfold ScanNetSegData.num_iter_of, of_int, fdiv.
  rewrite !Qis_zero_inject. cbn [Z.eqb].
  destruct (Z.eqb_spec (ScanNetSegData.np_sum counts) 0); [reflexivity|].
  by destruct (Qis_pos _).
Qed.

Lemma resample_no_points n c counts num_points :
  ScanNetSegData.np_sum (c :: counts) = 0 ->
  Forall (fun n => 0 <= n) (c :: counts) ->
  ScanNetSegData.resample (S n) (c :: counts) num_points = Raise ValueError.
Proof.
  intros Hs Hnn. pose proof (np_sum_zero_head _ _ Hnn Hs) as ->.
  rewrite resample_unfold, Hs.
  destruct (ScanNetSegData.num_iter_of _ _) as [e|k] eqn:Hk.
  - cbn [mbind outcome_bind].
    unfold ScanNetSegData.num_iter_of, of_int, fdiv in Hk.
    rewrite Hs, !Qis_zero_inject in Hk. cbn [Z.eqb] in Hk.
    destruct (num_points =? 0); [|discriminate].
    cbn in Hk. by injection Hk as <-.
  - cbn [mbind outcome_bind seq foldl fmap list_fmap].
    unfold resample_step at 2. cbn. by rewrite foldl_resample_Raise.
Qed.

(** X19.  With [num_points = 0] the division that
    gives [num_iter] produces inf or nan rather than an exception, and
    [int] of it fails: [get_scene_idxs_and_label_weight] raises
    [OverflowError] when there is at least one point and [ValueError] when
    there is none. *)
Theorem zero_num_points_raises seg w counts hist w' :
  ScanNetSegData.load_labels seg w = (Return (counts, hist), w') ->
  ScanNetSegData.num_points seg = 0 ->
  ScanNetSegData.get_scene_idxs_and_label_weight seg w =
    (Raise (if ScanNetSegData.np_sum counts =? 0 then ValueError
            else OverflowError), w).
Proof.
  intros Hload Hn.
  pose proof (load_labels_world seg w) as Hw. rewrite Hload in Hw.
  cbn [snd] in Hw. subst w'.
  rewrite (get_scene_idxs_run _ _ _ _ Hload). cbn [fst snd].
  by rewrite Hn, resample_zero_num_points.
Qed.

Lemma zero_num_points_raises_witness :
  ScanNetSegData.get_scene_idxs_and_label_weight (small_seg small_infos 0)
    small_world =
    (Raise (if ScanNetSegData.np_sum
                 (stats_of (small_seg small_infos 0) small_world).1 =? 0
            then ValueError else OverflowError), small_world).
Proof.
  apply (zero_num_points_raises (small_seg small_infos 0) small_world
           (stats_of (small_seg small_infos 0) small_world).1
           (stats_of (small_seg small_infos 0) small_world).2 small_world).
  - vm_compute. reflexivity.
  - reflexivity.
Defined.

(** X20.  When there is at least one info record
    and no scene has a point left after the unannotated ones are dropped,
    every sampling probability is [0 / 0 = nan] and
    [get_scene_idxs_and_label_weight] raises [ValueError], from [int] or
    from [round], whatever [num_points] is. *)
Theorem no_annotated_points_raises seg w counts hist w' :
  ScanNetSegData.load_labels seg w = (Return (counts, hist), w') ->
  ScanNetSegData.data_infos seg <> [] ->
  ScanNetSegData.np_sum counts = 0 ->
  Forall (fun n => n = 0) counts /\
  ScanNetSegData.get_scene_idxs_and_label_weight seg w =
    (Raise ValueError, w).
Proof.
  intros Hload Hne Hs.
  pose proof (load_labels_world seg w) as Hw. rewrite Hload in Hw.
  cbn [snd] in Hw. subst w'.
  pose proof (load_labels_nonneg _ _ _ _ _ Hload) as Hnn.
  destruct (load_labels_lengths _ _ _ _ _ Hload) as [Hlen _].
  split.
  { clear -Hnn Hs. induction counts as [|c counts IH]; [constructor|].
    pose proof (np_sum_zero_head _ _ Hnn Hs) as ->.
    constructor; [reflexivity|]. apply IH.
    - exact Hs.
    - by apply Forall_cons in Hnn as [_ ?]. }
  rewrite (get_scene_idxs_run _ _ _ _ Hload). cbn [fst snd].
  destruct (ScanNetSegData.data_infos seg) as [|i infos]; [done|].
  destruct counts as [|c counts]; [discriminate|].
  cbn [length]. by rewrite resample_no_points.
Qed.

Lemma no_annotated_points_raises_witness :
  Forall (fun n => n = 0)
         (stats_of (small_seg [base_info "z"] 2) small_world).1 /\
  ScanNetSegData.get_scene_idxs_and_label_weight
    (small_seg [base_info "z"] 2) small_world = (Raise ValueError, small_world).
Proof.
  apply (no_annotated_points_raises (small_seg [base_info "z"] 2) small_world
           (stats_of (small_seg [base_info "z"] 2) small_world).1
           (stats_of (small_seg [base_info "z"] 2) small_world).2 small_world).
  - vm_compute. reflexivity.
  - discriminate.
  - vm_compute. reflexivity.
Defined.

(** ** [ScanNetSegData]: no point in any class *)

Lemma fsum_zeros n : fsum (replicate n (Fin 0)) = Fin 0.
Proof. unfold fsum. induction n as [|n IH]; [reflexivity|exact IH]. Qed.

Lemma normalize_zeros n :
  (fun x => fdiv x (fsum (replicate n (Fin 0)))) <$> replicate n (Fin 0) =
  replicate n NaN.
Proof. rewrite fsum_zeros, fmap_replicate. reflexivity. Qed.

Lemma Forall_eq_replicate {A} (x : A) l :
  Forall (fun y => y = x) l -> l = replicate (length l) x.
Proof. induction 1 as [|y l -> _ IH]; cbn; [reflexivity|]. by f_equal. Qed.

Lemma weigh_zeros seg hist :
  length hist = (length (ScanNetSegData.cat_ids seg) + 1)%nat ->
  Forall (fun x => x = Fin 0) (take (length (ScanNetSegData.cat_ids seg)) hist) ->
  ScanNetSegData.weigh seg hist =
    astype_float32 <$>
      ScanNetSegData.label_weight_func seg
        (Float (Arr1 (replicate (length (ScanNetSegData.cat_ids seg)) NaN))).
Proof.
  intros Hlen Hz. unfold ScanNetSegData.weigh.
  set (n := length (ScanNetSegData.cat_ids seg)) in *.
  assert (E : slice_list 0 (-1) hist = replicate n (Fin 0)).
  { unfold slice_list, slice_bound. rewrite Hlen. cbn [Z.ltb Z.compare].
    replace (Z.to_nat (Z.max 0 (Z.of_nat (n + 1) + -1))) with n by lia.
    replace (Nat.min (Z.to_nat 0) (n + 1)) with 0%nat by lia.
    rewrite drop_0. apply Forall_eq_replicate in Hz.
    rewrite length_take in Hz. by replace (n `min` length hist)%nat with n in Hz by lia. }
  rewrite E. cbn [astype_float32 nd_map nd_elems ravel array_map].
  change (map ?f ?l) with (f <$> l). by rewrite normalize_zeros.
Qed.

(** X21.  When no point falls in one of the 20
    classes (the first 20 bins of the histogram are zero), the division by
    the sum yields nan for every class without raising: the weighting
    function is applied to a vector of 20 nan values, and the scene
    indices are returned along with its result. *)
Theorem no_class_points_nan_weights seg w counts hist w' idxs :
  ScanNetSegData.load_labels seg w = (Return (counts, hist), w') ->
  Forall (fun x => x = Fin 0)
         (take (length (ScanNetSegData.cat_ids seg)) hist) ->
  ScanNetSegData.resample (length (ScanNetSegData.data_infos seg)) counts
    (ScanNetSegData.num_points seg) = Return idxs ->
  ScanNetSegData.get_scene_idxs_and_label_weight seg w =
    ((fun lw => (idxs, astype_float32 lw)) <$>
       ScanNetSegData.label_weight_func seg
         (Float (Arr1 (replicate (length (ScanNetSegData.cat_ids seg)) NaN))),
     w).
Proof.
  intros Hload Hz Hidx.
  pose proof (load_labels_world seg w) as Hw. rewrite Hload in Hw.
  cbn [snd] in Hw. subst w'.
  destruct (load_labels_lengths _ _ _ _ _ Hload) as [_ Hlen].
  rewrite (get_scene_idxs_run _ _ _ _ Hload). cbn [fst snd].
  rewrite Hidx, weigh_zeros by done. cbn [mbind outcome_bind].
  by destruct (ScanNetSegData.label_weight_func seg _).
Qed.

Lemma no_class_points_nan_weights_witness :
  ScanNetSegData.get_scene_idxs_and_label_weight
    (small_seg [base_info "u"] 2) small_world =
    ((fun lw => (Long (Arr1 [0]), astype_float32 lw)) <$>
       ScanNetSegData.label_weight_func (small_seg [base_info "u"] 2)
         (Float (Arr1 (replicate
                         (length (ScanNetSegData.cat_ids
                                    (small_seg [base_info "u"] 2))) NaN))),
     small_world).
Proof.
  apply (no_class_points_nan_weights (small_seg [base_info "u"] 2) small_world
           (stats_of (small_seg [base_info "u"] 2) small_world).1
           (stats_of (small_seg [base_info "u"] 2) small_world).2 small_world
           (Long (Arr1 [0]))).
  - vm_compute. reflexivity.
  - vm_compute. repeat constructor.
  - vm_compute. reflexivity.
Defined.

(** X22.  With an empty list of info records and
    [num_points] not zero, [get_scene_idxs_and_label_weight] does not
    raise by itself: the scene indices are the empty array and the label
    weights are the weighting function applied to a vector of nan
    values, one for each class. *)
Theorem empty_infos_statistics seg w :
  ScanNetSegData.data_infos seg = [] ->
  ScanNetSegData.num_points seg <> 0 ->
  ScanNetSegData.get_scene_idxs_and_label_weight seg w =
    ((fun lw => (Long (Arr1 []), astype_float32 lw)) <$>
       ScanNetSegData.label_weight_func seg
         (Float (Arr1 (replicate (length (ScanNetSegData.cat_ids seg)) NaN))),
     w).
Proof.
  intros Hinfos Hn.
  assert (Hload : ScanNetSegData.load_labels seg w =
            (Return ([], replicate (length (ScanNetSegData.cat_ids seg) + 1)
                                   (Fin 0)), w)).
  { unfold ScanNetSegData.load_labels. by rewrite Hinfos. }
  rewrite (get_scene_idxs_run _ _ _ _ Hload). cbn [fst snd].
  rewrite Hinfos, weigh_zeros.
  - rewrite resample_unfold.
    unfold ScanNetSegData.num_iter_of, of_int, fdiv.
    rewrite !Qis_zero_inject.
    destruct (Z.eqb_spec (ScanNetSegData.num_points seg) 0); [done|].
    cbn [py_int mbind outcome_bind length seq foldl mret outcome_ret].
    by destruct (ScanNetSegData.label_weight_func seg _).
  - by rewrite length_replicate.
  - rewrite take_replicate. apply Forall_forall. intros x Hx.
    by apply elem_of_replicate in Hx as [-> _].
Qed.

Lemma empty_infos_statistics_witness :
  ScanNetSegData.get_scene_idxs_and_label_weight (small_seg [] 2) small_world =
    ((fun lw => (Long (Arr1 []), astype_float32 lw)) <$>
       ScanNetSegData.label_weight_func (small_seg [] 2)
         (Float (Arr1 (replicate
                         (length (ScanNetSegData.cat_ids (small_seg [] 2)))
                         NaN))),
     small_world).
Proof.
  apply (empty_infos_statistics (small_seg [] 2) small_world).
  - reflexivity.
  - discriminate.
Defined.

(** ** [ScanNetSegData]: fewer points than [num_points] *)

Lemma Qround_half_even_zero q : (q == 0)%Q -> Qround_half_even q = 0.
Proof.
  intros H. unfold Qround_half_even.
  assert (Hf : Qfloor q = 0) by (rewrite H; reflexivity).
  rewrite Hf.
  assert (Hc : (q - inject_Z 0 ?= 1 # 2)%Q = Lt) by (rewrite H; reflexivity).
  by rewrite Hc.
Qed.

Lemma concat_imap_nil {A B} (l : list A) : forall f : nat -> A -> list B,
  (forall i x, f i x = []) -> concat (imap f l) = [].
Proof.
  induction l as [|x l IH]; intros f Hf; [reflexivity|].
  cbn [imap concat]. rewrite Hf, IH; [reflexivity|].
  intros i y. apply Hf.
Qed.

Lemma spec_scene_idxs_no_iter counts num_points :
  spec_num_iter counts num_points = 0 ->
  spec_scene_idxs counts num_points = [].
Proof.
  intros H0. unfold spec_scene_idxs. apply concat_imap_nil. intros i n.
  assert (Hr : spec_repeats counts num_points n = 0).
  { unfold spec_repeats. rewrite H0.
    apply Qround_half_even_zero. apply Qmult_0_r. }
  by rewrite Hr.
Qed.

(** X23.  When the scenes hold fewer points in total
    than [num_points], [num_iter] is 0 and the resampled scene indices
    returned are the empty array. *)
Theorem few_points_no_indices seg w idxs lw w' counts hist w1 :
  ScanNetSegData.get_scene_idxs_and_label_weight seg w =
    (Return (idxs, lw), w') ->
  ScanNetSegData.load_labels seg w = (Return (counts, hist), w1) ->
  ScanNetSegData.np_sum counts < ScanNetSegData.num_points seg ->
  idxs = Long (Arr1 []).
Proof.
  intros Hrun Hload Hlt.
  apply get_scene_idxs_Return in Hrun as (counts' & hist' & Hload' & Hres & _).
  rewrite Hload in Hload'. injection Hload' as <- <- _.
  pose proof (load_labels_nonneg _ _ _ _ _ Hload) as Hnn.
  pose proof (np_sum_nonneg _ Hnn) as Hs.
  destruct (load_labels_lengths _ _ _ _ _ Hload) as [Hlen _].
  rewrite <- Hlen in Hres.
  destruct (Z.eq_dec (ScanNetSegData.np_sum counts) 0) as [H0|H0].
  - destruct counts as [|c counts].
    + rewrite resample_unfold in Hres.
      unfold ScanNetSegData.num_iter_of, of_int, fdiv in Hres.
      rewrite !Qis_zero_inject in Hres.
      destruct (Z.eqb_spec (ScanNetSegData.num_points seg) 0);
        [cbn in Hs; unfold ScanNetSegData.np_sum in Hlt; cbn in Hlt; lia|].
      cbn in Hres. by injection Hres as <-.
    + cbn [length] in Hres. by rewrite resample_no_points in Hres.
  - rewrite resample_spec in Hres by lia. injection Hres as <-.
    rewrite spec_scene_idxs_no_iter; [reflexivity|].
    unfold spec_num_iter. apply Z.div_small. lia.
Qed.

Lemma few_points_no_indices_witness :
  (ScanNetSegData.get_scene_idxs_and_label_weight
     (small_seg small_infos 100) small_world).1 =
    Return (Long (Arr1 []), small_result.2) /\
  Long (Arr1 []) = Long (Arr1 []).
Proof.
  split; [vm_compute; reflexivity|].
  apply (few_points_no_indices (small_seg small_infos 100) small_world
           (Long (Arr1 [])) small_result.2 small_world
           (stats_of (small_seg small_infos 100) small_world).1
           (stats_of (small_seg small_infos 100) small_world).2 small_world).
  - vm_compute. reflexivity.
  - vm_compute. reflexivity.
  - vm_compute. reflexivity.
Defined.

(** ** [ScanNetSegData]: how many indices are resampled *)






